(** * torch-uncertainty: losses and classification routines

    A shallow embedding of [torch_uncertainty/losses.py] and
    [torch_uncertainty/routines/classification.py].

    Floating-point tensors are modelled with real-valued entries, Python
    exceptions with an explicit [result] type, and the mutable attributes of
    the routine objects with explicit state passing: every step takes the
    routine and returns the updated routine (or the exception raised). *)

From Stdlib Require Import String List ZArith Bool Reals Lia Lra.
Import ListNotations.

Set Implicit Arguments.

(** ** Python exceptions *)

Inductive exn : Type :=
| ValueError (msg : string)
| TypeError (msg : string)
| IndexError (msg : string)
| AttributeError (attr : string)
| EinopsError (msg : string)
| RuntimeError (msg : string)
| ZeroDivisionError
| UnboundLocalError (name : string).

Inductive result (A : Type) : Type :=
| Ok (a : A)
| Raise (e : exn).

Arguments Ok {A} a.
Arguments Raise {A} e.

Definition bind {A B : Type} (r : result A) (k : A -> result B) : result B :=
  match r with
  | Ok a => k a
  | Raise e => Raise e
  end.

Notation "x <- c ;; k" := (bind c (fun x => k))
  (at level 61, c at next level, right associativity).
Notation "' pat <- c ;; k" := (bind c (fun x => match x with pat => k end))
  (at level 61, pat pattern, c at next level, right associativity).

Definition raises {A : Type} (r : result A) : Prop :=
  exists e, r = Raise e.

Definition returns {A : Type} (r : result A) : Prop :=
  exists a, r = Ok a.

(** ** List helpers used by the tensor model *)

Section ListHelpers.
Context {A : Type}.

(** [chunks k n l]: the first [n] consecutive blocks of [k] elements. *)
Fixpoint chunks (k n : nat) (l : list A) : list (list A) :=
  match n with
  | O => []
  | S n' => firstn k l :: chunks k n' (skipn k l)
  end.

Fixpoint zip_cons (r : list A) (cs : list (list A)) : list (list A) :=
  match r, cs with
  | x :: r', c :: cs' => (x :: c) :: zip_cons r' cs'
  | _, _ => []
  end.

(** Transposition of a rectangular list of rows. *)
Fixpoint transpose (m : list (list A)) : list (list A) :=
  match m with
  | [] => []
  | r :: m' =>
      match m' with
      | [] => map (fun x => [x]) r
      | _ :: _ => zip_cons r (transpose m')
      end
  end.

Definition rect (w : nat) (m : list (list A)) : Prop :=
  Forall (fun r => length r = w) m.

End ListHelpers.

(** Monadic map over a list: the first exception raised wins. *)
Fixpoint mapM {A B : Type} (f : A -> result B) (l : list A)
  : result (list B) :=
  match l with
  | [] => Ok []
  | x :: l' => y <- f x ;; ys <- mapM f l' ;; Ok (y :: ys)
  end.

(** ** Tensors

    A tensor is a rectangular nest of lists together with its rank (the
    routines and losses only build tensors of rank at most three; model
    inputs such as images are kept abstract).  The rank is carried by the
    constructor, so that a dimension argument out of range is detected as
    torch does.  A tensor whose leading axis is empty does not record the
    sizes of its trailing axes. *)

Inductive Tensor (A : Type) : Type :=
| T0 (x : A)
| T1 (v : list A)
| T2 (m : list (list A))
| T3 (c : list (list (list A))).

Arguments T0 {A} x.
Arguments T1 {A} v.
Arguments T2 {A} m.
Arguments T3 {A} c.

Definition ndim {A : Type} (t : Tensor A) : nat :=
  match t with
  | T0 _ => 0
  | T1 _ => 1
  | T2 _ => 2
  | T3 _ => 3
  end.

Definition shape {A : Type} (t : Tensor A) : list nat :=
  match t with
  | T0 _ => []
  | T1 v => [length v]
  | T2 m => [length m; length (hd [] m)]
  | T3 c => [length c; length (hd [] c); length (hd [] (hd [] c))]
  end.

(** [has_shape t s]: [t] is rectangular with the sizes [s]. *)
Definition has_shape {A : Type} (t : Tensor A) (s : list nat) : Prop :=
  match t, s with
  | T0 _, [] => True
  | T1 v, [n] => length v = n
  | T2 m, [n; k] => length m = n /\ rect k m
  | T3 c, [n; k; j] =>
      length c = n /\ Forall (fun m => length m = k /\ rect j m) c
  | _, _ => False
  end.

Definition tmap {A B : Type} (f : A -> B) (t : Tensor A) : Tensor B :=
  match t with
  | T0 x => T0 (f x)
  | T1 v => T1 (map f v)
  | T2 m => T2 (map (map f) m)
  | T3 c => T3 (map (map (map f)) c)
  end.

Definition zeros_like (t : Tensor Z) : Tensor Z := tmap (fun _ => 0%Z) t.
Definition ones_like (t : Tensor Z) : Tensor Z := tmap (fun _ => 1%Z) t.

(** All the entries, in row-major order. *)
Definition flatten {A : Type} (t : Tensor A) : list A :=
  match t with
  | T0 x => [x]
  | T1 v => v
  | T2 m => concat m
  | T3 c => concat (map (@concat A) c)
  end.

(** torch's wrapping of a possibly negative dimension index: a tensor of
    rank [r] accepts the dimensions [-r .. r-1] (a scalar accepts -1 and
    0). *)
Definition wrap_dim (rank : nat) (dim : Z) : result nat :=
  let r := Z.of_nat (Nat.max rank 1) in
  if ((- r <=? dim) && (dim <? r))%Z
  then Ok (Z.to_nat (dim mod r))
  else Raise (IndexError "Dimension out of range").

(** [t.size()[-1]]: indexing the empty size tuple of a scalar raises. *)
Definition size_last {A : Type} (t : Tensor A) : result nat :=
  match rev (shape t) with
  | [] => Raise (IndexError "tuple index out of range")
  | k :: _ => Ok k
  end.

(** Applying [f] to every one-dimensional fibre along dimension [dim]. *)
Definition map_fibres {A B : Type} (f : list A -> result B) (dim : Z)
  (t : Tensor A) : result (Tensor (B)) :=
  d <- wrap_dim (ndim t) dim ;;
  match t with
  | T0 x => y <- f [x] ;; Ok (T0 y)
  | T1 v => y <- f v ;; Ok (T0 y)
  | T2 m =>
      match d with
      | O => v <- mapM f (transpose m) ;; Ok (T1 v)
      | S _ => v <- mapM f m ;; Ok (T1 v)
      end
  | T3 c =>
      match d with
      | O => m <- mapM (fun g => mapM f (transpose g)) (transpose c) ;;
             Ok (T2 m)
      | S O => m <- mapM (fun g => mapM f (transpose g)) c ;; Ok (T2 m)
      | S (S _) => m <- mapM (mapM f) c ;; Ok (T2 m)
      end
  end.

(** [keepdim=True]: the reduced axis is kept with size one. *)
Definition unsqueeze {A : Type} (d : nat) (t : Tensor A)
  : result (Tensor A) :=
  match t, d with
  | T0 x, O => Ok (T1 [x])
  | T1 v, O => Ok (T2 [v])
  | T1 v, S O => Ok (T2 (map (fun x => [x]) v))
  | T2 m, O => Ok (T3 [m])
  | T2 m, S O => Ok (T3 (map (fun r => [r]) m))
  | T2 m, S (S O) => Ok (T3 (map (map (fun x => [x])) m))
  | _, _ => Raise (IndexError "Dimension out of range")
  end.

Definition reduce_dim {A : Type} (f : list A -> result A) (dim : Z)
  (keepdim : bool) (t : Tensor A) : result (Tensor A) :=
  r <- map_fibres f dim t ;;
  if keepdim
  then match t with
       | T0 _ => Ok r
       | _ => d <- wrap_dim (ndim t) dim ;; unsqueeze d r
       end
  else Ok r.

(** *** Real-valued tensor operations *)

Open Scope R_scope.

Definition Rltb (x y : R) : bool := if Rlt_dec x y then true else false.

Definition Rsum (l : list R) : R := fold_right Rplus 0 l.

(** The mean of an empty list is [nan] in torch; here it is the real
    number [0 / 0], about which nothing is known. *)
Definition Rmean (l : list R) : R := Rsum l / INR (length l).

Definition Rmaximum (l : list R) : result R :=
  match l with
  | [] =>
      Raise (IndexError
               "max(): Expected reduction dim to have non-zero size")
  | x :: l' => Ok (fold_left Rmax l' x)
  end.

Definition tsum_dim (dim : Z) (keepdim : bool) (t : Tensor R) :=
  reduce_dim (fun l => Ok (Rsum l)) dim keepdim t.

Definition tmean_dim (dim : Z) (t : Tensor R) :=
  reduce_dim (fun l => Ok (Rmean l)) dim false t.

(** [t.max(dim)[0]]: the values of the maximum along [dim]. *)
Definition tmax_dim (dim : Z) (t : Tensor R) :=
  reduce_dim Rmaximum dim false t.

(** [t.sum()] and [t.mean()] over all the entries give a scalar. *)
Definition tsum (t : Tensor R) : Tensor R := T0 (Rsum (flatten t)).
Definition tmean (t : Tensor R) : Tensor R := T0 (Rmean (flatten t)).

Definition tneg (t : Tensor R) : Tensor R := tmap Ropp t.

Definition sigmoid (t : Tensor R) : Tensor R :=
  tmap (fun x => 1 / (1 + exp (- x))) t.

(** [torch.special.entr], on its domain of use: the routines only apply it
    to probabilities, which are never negative. *)
Definition entr (t : Tensor R) : Tensor R :=
  tmap (fun p => if Rlt_dec 0 p then - p * ln p else 0) t.

Definition softmax_row (v : list R) : list R :=
  let z := Rsum (map exp v) in map (fun x => exp x / z) v.

(** [F.softmax(t, dim=-1)]. *)
Definition softmax_last (t : Tensor R) : Tensor R :=
  match t with
  | T0 x => T0 (exp x / exp x)
  | T1 v => T1 (softmax_row v)
  | T2 m => T2 (map softmax_row m)
  | T3 c => T3 (map (map softmax_row) c)
  end.

Close Scope R_scope.

Definition all_singletons {A : Type} (m : list (list A)) : bool :=
  forallb (fun r => Nat.eqb (length r) 1) m.

(** [t.squeeze(-1)]: the last axis is removed when its size is one, and the
    tensor is returned unchanged otherwise. *)
Definition squeeze_last {A : Type} (t : Tensor A) : Tensor A :=
  match t with
  | T0 x => T0 x
  | T1 v => match v with [x] => T0 x | _ => T1 v end
  | T2 m =>
      match m with
      | [] => T2 m
      | _ :: _ => if all_singletons m then T1 (concat m) else T2 m
      end
  | T3 c =>
      match concat c with
      | [] => T3 c
      | _ :: _ =>
          if forallb (@all_singletons A) c then T2 (map (@concat A) c)
          else T3 c
      end
  end.

(** [t.transpose(0, 1)]. *)
Definition transpose01 {A : Type} (t : Tensor A) : result (Tensor A) :=
  match t with
  | T2 m => Ok (T2 (transpose m))
  | T3 c => Ok (T3 (transpose c))
  | _ => Raise (IndexError "Dimension out of range")
  end.

(** einops' [rearrange(t, "(n b) c -> b n c", n=n)]: the leading axis of
    length [n * b] is split with [n] as the slow index, giving the shape
    [(n, b, c)], and the first two axes are then swapped.  It raises when
    the tensor does not have two axes or its leading axis is not a multiple
    of [n]. *)
Definition rearrange {A : Type} (n : nat) (t : Tensor A)
  : result (Tensor A) :=
  match t with
  | T2 rows =>
      if Nat.eqb n 0
      then Raise (EinopsError "Shape mismatch, can't divide axis")
      else if Nat.eqb (length rows mod n) 0
      then Ok (T3 (transpose (chunks (length rows / n) n rows)))
      else Raise (EinopsError "Shape mismatch, can't divide axis")
  | _ => Raise (EinopsError "Wrong shape: expected 2 dims")
  end.

(** *** Element-wise binary operations with broadcasting *)

Section Broadcast.
Context {A B C : Type}.

(** Two axes are compatible when their sizes agree or one of them is 1. *)
Definition bzip (f : A -> B -> result C) (l1 : list A) (l2 : list B)
  : result (list C) :=
  if Nat.eqb (length l1) (length l2)
  then mapM (fun p => f (fst p) (snd p)) (combine l1 l2)
  else match l1, l2 with
       | [x], _ => mapM (f x) l2
       | _, [y] => mapM (fun x => f x y) l1
       | _, _ =>
           Raise (RuntimeError
                    "The size of tensor a must match the size of tensor b")
       end.

End Broadcast.

Definition as1 {A : Type} (t : Tensor A) : list A :=
  match t with
  | T0 x => [x]
  | T1 v => v
  | _ => []
  end.

Definition as2 {A : Type} (t : Tensor A) : list (list A) :=
  match t with
  | T0 x => [[x]]
  | T1 v => [v]
  | T2 m => m
  | T3 _ => []
  end.

Definition as3 {A : Type} (t : Tensor A) : list (list (list A)) :=
  match t with
  | T0 x => [[[x]]]
  | T1 v => [[v]]
  | T2 m => [m]
  | T3 c => c
  end.

(** The tensor of lower rank gets leading axes of size 1. *)
Definition tmap2 {A B C : Type} (f : A -> B -> C) (a : Tensor A)
  (b : Tensor B) : result (Tensor C) :=
  let bz1 := bzip (fun x y => Ok (f x y)) in
  let bz2 := bzip bz1 in
  let bz3 := bzip bz2 in
  match a, b with
  | T0 x, _ => Ok (tmap (f x) b)
  | _, T0 y => Ok (tmap (fun x => f x y) a)
  | _, _ =>
      match Nat.max (ndim a) (ndim b) with
      | 1 => v <- bz1 (as1 a) (as1 b) ;; Ok (T1 v)
      | 2 => m <- bz2 (as2 a) (as2 b) ;; Ok (T2 m)
      | _ => c <- bz3 (as3 a) (as3 b) ;; Ok (T3 c)
      end
  end.

(** Tensor expressions: the operands are evaluated from left to right and
    the first exception raised is propagated. *)
Definition RT : Type := result (Tensor R).

Definition lift1 (f : R -> R) (a : RT) : RT := x <- a ;; Ok (tmap f x).

Definition lift2 (f : R -> R -> R) (a b : RT) : RT :=
  x <- a ;; y <- b ;; tmap2 f x y.

Declare Scope tensor_scope.
Delimit Scope tensor_scope with T.
Bind Scope tensor_scope with RT.

Notation "a + b" := (lift2 Rplus a b) : tensor_scope.
Notation "a - b" := (lift2 Rminus a b) : tensor_scope.
Notation "a * b" := (lift2 Rmult a b) : tensor_scope.
Notation "a / b" := (lift2 Rdiv a b) : tensor_scope.
Notation "# t" := (Ok t : RT) (at level 5, format "# t") : tensor_scope.
Notation "$ c" := (Ok (T0 c%R) : RT) (at level 5, format "$ c")
  : tensor_scope.

Definition tlog (a : RT) : RT := lift1 ln a.
Definition tsquare (a : RT) : RT := lift1 (fun x => (x * x)%R) a.
Definition relu (t : Tensor R) : Tensor R := tmap (Rmax 0) t.

(** An integer tensor used in floating-point arithmetic is promoted. *)
Definition tfloat (t : Tensor Z) : Tensor R := tmap IZR t.

(** [torch.norm(t, 1, dim, keepdim)]. *)
Definition tnorm1 (dim : Z) (keepdim : bool) (t : Tensor R) :=
  reduce_dim (fun l => Ok (Rsum (map Rabs l))) dim keepdim t.

Definition one_hot_row (num_classes : nat) (label : Z) : result (list Z) :=
  if (label <? 0)%Z
  then Raise (RuntimeError "Class values must be non-negative.")
  else if (label <? Z.of_nat num_classes)%Z
  then Ok (map (fun j => if Nat.eqb j (Z.to_nat label) then 1%Z else 0%Z)
             (seq 0 num_classes))
  else Raise (RuntimeError "Class values must be smaller than num_classes.").

(** [F.one_hot(t, num_classes)] appends a class axis (class targets have
    rank at most two here). *)
Definition one_hot (t : Tensor Z) (num_classes : nat) : result (Tensor Z) :=
  match t with
  | T0 x => v <- one_hot_row num_classes x ;; Ok (T1 v)
  | T1 v => m <- mapM (one_hot_row num_classes) v ;; Ok (T2 m)
  | T2 m => c <- mapM (mapM (one_hot_row num_classes)) m ;; Ok (T3 c)
  | T3 _ => Raise (RuntimeError "one_hot: rank above three")
  end.

(** Python's [a and b] on conditions that may themselves raise. *)
Definition py_and (a b : result bool) : result bool :=
  x <- a ;; if x then b else Ok false.

Definition str_is (o : option string) (s : string) : bool :=
  match o with
  | Some s' => String.eqb s' s
  | None => false
  end.

Definition valid_reduction (reduction : option string) : bool :=
  str_is reduction "none" || str_is reduction "mean" || str_is reduction "sum".

(** * losses.py *)

(** ** KLDiv *)

Module KLDiv.

(** Modelled from the spec: the Bayesian layers ([bayesian_modules] of
    [torch_uncertainty.layers.bayesian], whose source is not among the files
    embedded here).  A Bayesian sub-module carries two scalars, the
    log-variational-posterior density [lvposterior] and the log-prior
    density [lprior], both left there by its last forward pass; any other
    sub-module is [Plain]. *)
Inductive module : Type :=
| Bayesian (lvposterior lprior : R)
| Plain.

(** The one-element tensor [kl_divergence] is represented by its entry. *)
Definition _kl_div (modules : list module) : R :=
  fold_left
    (fun kl_divergence m =>
       match m with
       | Bayesian lvposterior lprior =>
           (kl_divergence + (lvposterior - lprior))%R
       | Plain => kl_divergence
       end)
    modules 0%R.

Definition forward (modules : list module) : R := _kl_div modules.

End KLDiv.

(** ** ELBOLoss *)

Module ELBOLoss.

Section WithNetwork.

(** [W] is the state a forward pass of the network reads and writes: the
    random generator the weights are sampled from and the terms cached on
    the Bayesian layers. *)
Variables W Input Target : Type.

Record Network : Type := {
  call : Input -> W -> result (Tensor R * W);
  modules : W -> list KLDiv.module
}.

(** The criterion returns the reduced loss, a scalar. *)
Definition Criterion : Type := Tensor R -> Target -> result R.

(** What [__init__] may receive as [criterion]: a class or an instance. *)
Inductive criterion_arg : Type :=
| CriterionClass
| CriterionInstance (c : Criterion).

Record t : Type := {
  model : Network;
  criterion : Criterion;
  kl_weight : R;
  num_samples : Z
}.

Definition __init__ (model : Network) (criterion : criterion_arg)
  (kl_weight : R) (num_samples : Z) : result t :=
  match criterion with
  | CriterionClass =>
      Raise (ValueError "The criterion should be an instance of a class.")
  | CriterionInstance c =>
      if Rltb kl_weight 0
      then Raise (ValueError "The KL weight should be non-negative.")
      else if (num_samples <? 1)%Z
      then Raise (ValueError
                    "The number of samples should not be lower than 1.")
      else (* [num_samples] is an integer by its type *)
        Ok {| model := model; criterion := c; kl_weight := kl_weight;
              num_samples := num_samples |}
  end.

(** The body of [for _ in range(self.num_samples)], run [n] times on the
    accumulator [aggregated_elbo] (a one-element tensor, represented by its
    entry). *)
Fixpoint loop (self : t) (inputs : Input) (targets : Target) (n : nat)
  (aggregated_elbo : R) (w : W) : result (R * W) :=
  match n with
  | O => Ok (aggregated_elbo, w)
  | S n' =>
      '(logits, w1) <- call (model self) inputs w ;;
      c <- criterion self logits targets ;;
      let aggregated_elbo := (aggregated_elbo + c)%R in
      let aggregated_elbo :=
        (aggregated_elbo
         + kl_weight self * KLDiv.forward (modules (model self) w1))%R in
      loop self inputs targets n' aggregated_elbo w1
  end.

Definition forward (self : t) (inputs : Input) (targets : Target) (w : W)
  : result (Tensor R * W) :=
  '(aggregated_elbo, w') <-
    loop self inputs targets (Z.to_nat (num_samples self)) 0%R w ;;
  Ok (T1 [(aggregated_elbo / IZR (num_samples self))%R], w').

(** The sentence of the specification, written down as it reads: the
    value of one draw is [criterion(model(inputs), targets) + kl_weight *
    kl_divergence()], and the loss is the mean of the values of
    [num_samples] successive draws. *)
Definition draw (self : t) (inputs : Input) (targets : Target) (w : W)
  : result (R * W) :=
  '(logits, w1) <- call (model self) inputs w ;;
  c <- criterion self logits targets ;;
  Ok ((c + kl_weight self * KLDiv.forward (modules (model self) w1))%R, w1).

Fixpoint draws (self : t) (inputs : Input) (targets : Target) (n : nat)
  (w : W) : result (list R * W) :=
  match n with
  | O => Ok ([], w)
  | S n' =>
      '(x, w1) <- draw self inputs targets w ;;
      '(xs, w2) <- draws self inputs targets n' w1 ;;
      Ok (x :: xs, w2)
  end.

Definition mean_of_draws (self : t) (inputs : Input) (targets : Target)
  (w : W) : result (Tensor R * W) :=
  '(xs, w') <- draws self inputs targets (Z.to_nat (num_samples self)) w ;;
  Ok (T1 [(Rsum xs / IZR (num_samples self))%R], w').

(** A network and criterion without stochasticity: every forward pass on
    [inputs] gives the same logits and leaves the same KL terms on the
    layers, whatever the state it starts from. *)
Definition deterministic (self : t) (inputs : Input) (targets : Target)
  : Prop :=
  exists logits kl c,
    (forall w, exists w1,
        call (model self) inputs w = Ok (logits, w1) /\
        KLDiv.forward (modules (model self) w1) = kl) /\
    criterion self logits targets = Ok c.

(** The same loss object with another number of samples. *)
Definition with_num_samples (self : t) (k : Z) : t :=
  {| model := model self; criterion := criterion self;
     kl_weight := kl_weight self; num_samples := k |}.

End WithNetwork.

End ELBOLoss.

(** ** NIGLoss *)

Module NIGLoss.

Section WithSpecialFunctions.

(** The log-gamma function of the tensor library. *)
Variable lgamma : R -> R.

Definition tlgamma (a : RT) : RT := lift1 lgamma a.

Record t : Type := {
  reg_weight : R;
  reduction : option string
}.

Definition __init__ (reg_weight : R) (reduction : option string)
  : result t :=
  if Rltb reg_weight 0
  then Raise (ValueError
                "The regularization weight should be non-negative")
  else if negb (valid_reduction reduction)
  then Raise (ValueError "not a valid value for reduction.")
  else Ok {| reg_weight := reg_weight; reduction := reduction |}.

Definition _nig_nll (gamma v alpha beta targets : Tensor R) : RT :=
  let Gamma := ($2 * #beta * ($1 + #v))%T in
  ($(1 / 2) * tlog ($PI / #v)
   - #alpha * tlog Gamma
   + (#alpha + $(1 / 2))
     * tlog (Gamma + #v * tsquare (#targets - #gamma))
   + tlgamma #alpha
   - tlgamma (#alpha + $(1 / 2)))%T.

Definition _nig_reg (gamma v alpha targets : Tensor R) : RT :=
  ((d <- (#targets - #gamma)%T ;; tnorm1 1 true d)
   * ($2 * #v + #alpha))%T.

Definition forward (self : t) (gamma v alpha beta targets : Tensor R)
  : RT :=
  loss_nll <- _nig_nll gamma v alpha beta targets ;;
  loss_reg <- _nig_reg gamma v alpha targets ;;
  loss <- (#loss_nll + $(reg_weight self) * #loss_reg)%T ;;
  if str_is (reduction self) "mean" then Ok (tmean loss)
  else if str_is (reduction self) "sum" then Ok (tsum loss)
  else Ok loss.

End WithSpecialFunctions.

End NIGLoss.

(** ** DECLoss *)

(** Comparisons and division on attributes that may be [None]: Python
    raises [TypeError] when an operand is [None]. *)
Definition gt0_Z (x : option Z) : result bool :=
  match x with
  | Some n => Ok (0 <? n)%Z
  | None => Raise (TypeError "'>' not supported between NoneType and int")
  end.

Definition gt0_R (x : option R) : result bool :=
  match x with
  | Some r => Ok (Rltb 0 r)
  | None => Raise (TypeError "'>' not supported between NoneType and int")
  end.

Definition py_div (a b : option Z) : result R :=
  match a, b with
  | Some x, Some y =>
      if (y =? 0)%Z then Raise ZeroDivisionError
      else Ok (IZR x / IZR y)%R
  | _, _ => Raise (TypeError "unsupported operand type(s) for /")
  end.

Definition is_None {A : Type} (x : option A) : bool :=
  match x with
  | None => true
  | Some _ => false
  end.

Module DECLoss.

Section WithSpecialFunctions.

Variables lgamma digamma : R -> R.

Definition tlgamma (a : RT) : RT := lift1 lgamma a.
Definition tdigamma (a : RT) : RT := lift1 digamma a.

(** [torch.sum(a, dim=dim, keepdim=True)]. *)
Definition sum_keep (dim : Z) (a : RT) : RT :=
  x <- a ;; tsum_dim dim true x.

Record t : Type := {
  annealing_step : option Z;
  reg_weight : option R;
  loss_type : string;
  reduction : option string
}.

Definition __init__ (annealing_step : option Z) (reg_weight : option R)
  (loss_type : string) (reduction : option string) : result t :=
  if match reg_weight with Some w => Rltb w 0 | None => false end
  then Raise (ValueError
                "The regularization weight should be non-negative")
  else if match annealing_step with
          | Some s => (s <=? 0)%Z
          | None => false
          end
  then Raise (ValueError "The annealing step should be positive")
  else if negb (valid_reduction reduction)
  then Raise (ValueError "not a valid value for reduction.")
  else if negb (String.eqb loss_type "mse" || String.eqb loss_type "log"
                || String.eqb loss_type "digamma")
  then Raise (ValueError "not a valid value for mse/log/digamma loss.")
  else Ok {| annealing_step := annealing_step; reg_weight := reg_weight;
             loss_type := loss_type; reduction := reduction |}.

Definition _mse_loss (evidence : Tensor R) (targets : Tensor Z) : RT :=
  let evidence := relu evidence in
  let alpha := (#evidence + $1)%T in
  let strength := sum_keep 1 alpha in
  let loglikelihood_err :=
    sum_keep 1 (tsquare (#(tfloat targets) - alpha / strength))%T in
  let loglikelihood_var :=
    sum_keep 1
      (alpha * (strength - alpha)
       / (strength * strength * (strength + $1)))%T in
  (loglikelihood_err + loglikelihood_var)%T.

Definition _log_loss (evidence : Tensor R) (targets : Tensor Z) : RT :=
  let evidence := relu evidence in
  let alpha := (#evidence + $1)%T in
  let strength := sum_keep (-1) alpha in
  sum_keep 1 (#(tfloat targets) * (tlog strength - tlog alpha))%T.

Definition _digamma_loss (evidence : Tensor R) (targets : Tensor Z) : RT :=
  let evidence := relu evidence in
  let alpha := (#evidence + $1)%T in
  let strength := sum_keep (-1) alpha in
  sum_keep 1
    (#(tfloat targets) * (tdigamma strength - tdigamma alpha))%T.

Definition _kldiv_reg (evidence : Tensor R) (targets : Tensor Z) : RT :=
  num_classes <- size_last evidence ;;
  let evidence := relu evidence in
  let alpha := (#evidence + $1)%T in
  let kl_alpha := ((alpha - $1) * ($1 - #(tfloat targets)) + $1)%T in
  let ones : RT := Ok (T2 [repeat 1%R num_classes]) in
  let sum_kl_alpha := sum_keep 1 kl_alpha in
  let first_term :=
    (tlgamma sum_kl_alpha
     - sum_keep 1 (tlgamma kl_alpha)
     + sum_keep 1 (tlgamma ones)
     - tlgamma (sum_keep 1 ones))%T in
  let second_term :=
    sum_keep 1
      ((kl_alpha - ones) * (tdigamma kl_alpha - tdigamma sum_kl_alpha))%T in
  (first_term + second_term)%T.

(** The selection of [annealing_coef] in [forward]. *)
Definition annealing_coef (self : t) (current_epoch : option Z) : RT :=
  let annealed : RT :=
    q <- py_div current_epoch (annealing_step self) ;; Ok (T0 (Rmin 1 q)) in
  if is_None (reg_weight self) && is_None (annealing_step self)
  then Ok (T0 0%R)
  else
    c2 <- py_and (Ok (is_None (reg_weight self)))
            (py_and (gt0_Z (annealing_step self)) (gt0_Z current_epoch)) ;;
    if c2 then annealed
    else
      c3 <- py_and (Ok (is_None (annealing_step self)))
              (gt0_R (reg_weight self)) ;;
      if c3
      then match reg_weight self with
           | Some w => Ok (T0 w)
           | None => Raise (TypeError "unsupported operand type(s) for *")
           end
      else annealed.

Definition forward (self : t) (evidence : Tensor R) (targets : Tensor Z)
  (current_epoch : option Z) : RT :=
  missing <- py_and (Ok (negb (is_None (annealing_step self))))
               (py_and (gt0_Z (annealing_step self))
                  (Ok (is_None current_epoch))) ;;
  if missing
  then Raise (ValueError
                "The epoch num should be positive when annealing_step is settled")
  else
    num_classes <- size_last evidence ;;
    targets <- one_hot targets num_classes ;;
    loss_dirichlet <-
      (if String.eqb (loss_type self) "mse"
       then l <- _mse_loss evidence targets ;; Ok (Some l)
       else if String.eqb (loss_type self) "log"
       then l <- _log_loss evidence targets ;; Ok (Some l)
       else if String.eqb (loss_type self) "digamma"
       then l <- _digamma_loss evidence targets ;; Ok (Some l)
       else Ok None) ;;
    annealing_coef <- annealing_coef self current_epoch ;;
    loss_reg <- _kldiv_reg evidence targets ;;
    loss_dirichlet <-
      match loss_dirichlet with
      | Some l => Ok l
      | None => Raise (UnboundLocalError "loss_dirichlet")
      end ;;
    loss <- (#loss_dirichlet + #annealing_coef * #loss_reg)%T ;;
    if str_is (reduction self) "mean" then Ok (tmean loss)
    else if str_is (reduction self) "sum" then Ok (tsum loss)
    else Ok loss.

End WithSpecialFunctions.

End DECLoss.

(** * routines/classification.py *)

(** ** Metric accumulators *)

(** Modelled from the spec: the metric accumulators ([torchmetrics]
    collections and the metrics of [torch_uncertainty.metrics], whose source
    is not among the files embedded here) are objects exposing [update],
    [compute] and [reset], and collections can be cloned under a prefix.  A
    collection is represented by its prefix, the names of its metrics and
    the arguments of the [update] calls it has received since its last
    reset, latest first. *)

Record MetricCollection : Type := {
  prefix : string;
  metrics : list string;
  updates : list (Tensor R * option (Tensor Z))
}.

Definition clone (m : MetricCollection) (prefix : string)
  : MetricCollection :=
  {| prefix := prefix; metrics := metrics m; updates := updates m |}.

Definition update (m : MetricCollection) (preds : Tensor R)
  (target : option (Tensor Z)) : MetricCollection :=
  {| prefix := prefix m; metrics := metrics m;
     updates := (preds, target) :: updates m |}.

Definition reset (m : MetricCollection) : MetricCollection :=
  {| prefix := prefix m; metrics := metrics m; updates := [] |}.

(** The keys of [m.compute()]. *)
Definition compute (m : MetricCollection) : list string :=
  map (fun name => (prefix m ++ name)%string) (metrics m).

(** Reading an attribute that was never assigned raises. *)
Definition getattr {A : Type} (name : string) (x : option A) : result A :=
  match x with
  | Some a => Ok a
  | None => Raise (AttributeError name)
  end.

(** Targets of a training batch: class indices, or the floating-point
    targets a mixing policy or a cast produces. *)
Inductive Target : Type :=
| IntT (t : Tensor Z)
| FloatT (t : Tensor R).

Definition float (t : Target) : Target :=
  match t with
  | IntT z => FloatT (tfloat z)
  | FloatT r => FloatT r
  end.

Module ClassificationSingle.

Section WithCollaborators.

(** [Input]: the inputs of the network; [CalSet]: a calibration dataset. *)
Variables Input CalSet : Type.

Record Model : Type := {
  model_forward : Input -> RT;
  feats_forward : Input -> RT
}.

(** The [loss] argument: a class, or a [partial] of [ELBOLoss] awaiting
    its model.  [instantiate] is [self.loss()] applied to its arguments:
    the inputs themselves for the ELBO loss, the logits otherwise. *)
Record Loss : Type := {
  is_partial_of_ELBOLoss : bool;
  is_BCEWithLogitsLoss : bool;
  instantiate : Model -> Input + Tensor R -> Target -> RT
}.

(** The mixing policies, with the arguments they are built from. *)
Inductive Mixer : Type :=
| Identity
| timm_Mixup (mixup_alpha cutmix_alpha : R) (mode : string)
    (num_classes : nat)
| Mixup (alpha : R) (mode : string) (num_classes : nat)
| MixupIO (alpha : R) (mode : string) (num_classes : nat)
| RegMixup (alpha : R) (mode : string) (num_classes : nat)
| WarpingMixup (alpha : R) (mode : string) (num_classes : nat)
    (apply_kernel : bool) (tau_max tau_std : R).

(** The mixing policies of [torch_uncertainty.transforms] (and timm's) and
    the temperature scaler of [torch_uncertainty.post_processing] are
    parameters: calling a policy on a batch, and fitting a scaler on a
    calibration set. *)
Variable transforms :
  Mixer -> Input -> Target -> option (Input + Tensor R) ->
  result (Input * Target).
Variable TemperatureScaler_fit : Model -> CalSet -> result (Tensor R -> RT).

Definition call_mixup (m : Mixer) (x : Input) (y : Target)
  (feats : option (Input + Tensor R)) : result (Input * Target) :=
  match m, feats with
  | Identity, None => Ok (x, y)
  | Identity, Some _ =>
      Raise (TypeError "<lambda>() takes 2 positional arguments")
  | _, _ => transforms m x y feats
  end.

Record Args : Type := {
  a_num_classes : nat;
  a_model : Model;
  a_loss : Loss;
  a_format_batch_fn : Input * Target -> result (Input * Target);
  a_mixtype : string;
  a_mixmode : string;
  a_dist_sim : string;
  a_kernel_tau_max : R;
  a_kernel_tau_std : R;
  a_mixup_alpha : R;
  a_cutmix_alpha : R;
  a_ood_detection : bool;
  a_use_entropy : bool;
  a_use_logits : bool;
  a_calibration_set : option CalSet
}.

(** The routine object [self].  Its attributes are grouped by who writes
    them: [Attrs] holds those assigned once by [__init__]; [Pools] the metric
    accumulators the steps update; [scaler] and [cal_model] are assigned only
    by [on_test_start], possibly to [None]; [logged] records the calls to
    [self.log] and [self.log_dict].  An attribute that some path of
    [__init__] leaves unassigned is an [option]. *)
Record Attrs : Type := {
  num_classes : nat;
  ood_detection : bool;
  use_logits : bool;
  use_entropy : bool;
  calibration_set : option CalSet;
  binary_cls : bool;
  model : Model;
  loss : Loss;
  format_batch_fn : Input * Target -> result (Input * Target);
  mixtype : string;
  mixmode : string;
  dist_sim : string;
  mixup : option Mixer;
  is_elbo : bool
}.

Record Pools : Type := {
  val_cls_metrics : MetricCollection;
  test_cls_metrics : MetricCollection;
  ts_cls_metrics : option MetricCollection;
  test_entropy_id : MetricCollection;
  test_ood_metrics : option MetricCollection;
  test_entropy_ood : option MetricCollection
}.

Record t : Type := {
  attrs : Attrs;
  pools : Pools;
  scaler : option (option (Tensor R -> RT));
  cal_model : option (option (Input -> RT));
  logged : list string
}.

Definition Entropy : MetricCollection :=
  {| prefix := ""; metrics := ["entropy"%string]; updates := [] |}.

Definition ERR_OOD_CRITERION : string :=
  "You cannot choose more than one OOD criterion.".

Definition ERR_ALPHA : string :=
  "Cutmix alpha and Mixup alpha must be positive.".

Definition cls_metrics (binary_cls : bool) : MetricCollection :=
  if binary_cls
  then {| prefix := ""; metrics := ["acc"; "ece"; "brier"]%string;
          updates := [] |}
  else {| prefix := ""; metrics := ["nll"; "acc"; "ece"; "brier"]%string;
          updates := [] |}.

Definition ood_metrics : MetricCollection :=
  {| prefix := ""; metrics := ["fpr95"; "auroc"; "aupr"]%string;
     updates := [] |}.

(** The [if]/[elif] chain over [self.mixtype]: no branch assigns
    [self.mixup] for any other name. *)
Definition select_mixup (a : Args) : option Mixer :=
  let nc := a_num_classes a in
  if String.eqb (a_mixtype a) "erm" then Some Identity
  else if String.eqb (a_mixtype a) "timm"
  then Some (timm_Mixup (a_mixup_alpha a) (a_cutmix_alpha a) (a_mixmode a) nc)
  else if String.eqb (a_mixtype a) "mixup"
  then Some (Mixup (a_mixup_alpha a) (a_mixmode a) nc)
  else if String.eqb (a_mixtype a) "mixup_io"
  then Some (MixupIO (a_mixup_alpha a) (a_mixmode a) nc)
  else if String.eqb (a_mixtype a) "regmixup"
  then Some (RegMixup (a_mixup_alpha a) (a_mixmode a) nc)
  else if String.eqb (a_mixtype a) "kernel_warping"
  then Some (WarpingMixup (a_mixup_alpha a) (a_mixmode a) nc true
               (a_kernel_tau_max a) (a_kernel_tau_std a))
  else None.

Definition __init__ (a : Args) : result t :=
  if Nat.ltb 1 (Nat.b2n (a_use_logits a) + Nat.b2n (a_use_entropy a))
  then Raise (ValueError ERR_OOD_CRITERION)
  else
    let binary_cls := Nat.eqb (a_num_classes a) 1 in
    let cls_metrics := cls_metrics binary_cls in
    if Rltb (a_mixup_alpha a) 0 || Rltb (a_cutmix_alpha a) 0
    then Raise (ValueError ERR_ALPHA)
    else
      Ok {| attrs :=
              {| num_classes := a_num_classes a;
                 ood_detection := a_ood_detection a;
                 use_logits := a_use_logits a;
                 use_entropy := a_use_entropy a;
                 calibration_set := a_calibration_set a;
                 binary_cls := binary_cls;
                 model := a_model a;
                 loss := a_loss a;
                 format_batch_fn := a_format_batch_fn a;
                 mixtype := a_mixtype a;
                 mixmode := a_mixmode a;
                 dist_sim := a_dist_sim a;
                 mixup := select_mixup a;
                 is_elbo := is_partial_of_ELBOLoss (a_loss a) |};
            pools :=
              {| val_cls_metrics := clone cls_metrics "hp/val_";
                 test_cls_metrics := clone cls_metrics "hp/test_";
                 ts_cls_metrics :=
                   match a_calibration_set a with
                   | Some _ => Some (clone cls_metrics "hp/ts_")
                   | None => None
                   end;
                 test_entropy_id := Entropy;
                 test_ood_metrics :=
                   if a_ood_detection a
                   then Some (clone ood_metrics "hp/test_") else None;
                 test_entropy_ood :=
                   if a_ood_detection a then Some Entropy else None |};
            scaler := None;
            cal_model := None;
            logged := [] |}.

Definition criterion (self : t) : Input + Tensor R -> Target -> RT :=
  instantiate (loss (attrs self)) (model (attrs self)).

Definition forward (self : t) (input : Input) : RT :=
  model_forward (model (attrs self)) input.

Definition with_pools (self : t) (p : Pools) : t :=
  {| attrs := attrs self; pools := p; scaler := scaler self;
     cal_model := cal_model self; logged := logged self |}.

Definition log (self : t) (name : string) : t :=
  {| attrs := attrs self; pools := pools self; scaler := scaler self;
     cal_model := cal_model self; logged := name :: logged self |}.

Definition log_dict (self : t) (names : list string) : t :=
  {| attrs := attrs self; pools := pools self; scaler := scaler self;
     cal_model := cal_model self; logged := rev names ++ logged self |}.

Definition set_val_cls_metrics (p : Pools) (m : MetricCollection) : Pools :=
  {| val_cls_metrics := m;
     test_cls_metrics := test_cls_metrics p;
     ts_cls_metrics := ts_cls_metrics p;
     test_entropy_id := test_entropy_id p;
     test_ood_metrics := test_ood_metrics p;
     test_entropy_ood := test_entropy_ood p |}.

Definition set_test_cls_metrics (p : Pools) (m : MetricCollection) : Pools :=
  {| val_cls_metrics := val_cls_metrics p;
     test_cls_metrics := m;
     ts_cls_metrics := ts_cls_metrics p;
     test_entropy_id := test_entropy_id p;
     test_ood_metrics := test_ood_metrics p;
     test_entropy_ood := test_entropy_ood p |}.

Definition set_ts_cls_metrics (p : Pools) (m : MetricCollection) : Pools :=
  {| val_cls_metrics := val_cls_metrics p;
     test_cls_metrics := test_cls_metrics p;
     ts_cls_metrics := Some m;
     test_entropy_id := test_entropy_id p;
     test_ood_metrics := test_ood_metrics p;
     test_entropy_ood := test_entropy_ood p |}.

Definition set_test_entropy_id (p : Pools) (m : MetricCollection) : Pools :=
  {| val_cls_metrics := val_cls_metrics p;
     test_cls_metrics := test_cls_metrics p;
     ts_cls_metrics := ts_cls_metrics p;
     test_entropy_id := m;
     test_ood_metrics := test_ood_metrics p;
     test_entropy_ood := test_entropy_ood p |}.

Definition set_test_ood_metrics (p : Pools) (m : MetricCollection) : Pools :=
  {| val_cls_metrics := val_cls_metrics p;
     test_cls_metrics := test_cls_metrics p;
     ts_cls_metrics := ts_cls_metrics p;
     test_entropy_id := test_entropy_id p;
     test_ood_metrics := Some m;
     test_entropy_ood := test_entropy_ood p |}.

Definition set_test_entropy_ood (p : Pools) (m : MetricCollection) : Pools :=
  {| val_cls_metrics := val_cls_metrics p;
     test_cls_metrics := test_cls_metrics p;
     ts_cls_metrics := ts_cls_metrics p;
     test_entropy_id := test_entropy_id p;
     test_ood_metrics := test_ood_metrics p;
     test_entropy_ood := Some m |}.

Definition idx_is (dataloader_idx : option Z) (k : Z) : bool :=
  match dataloader_idx with
  | Some i => (i =? k)%Z
  | None => false
  end.

Definition set_calibration (self : t) (scaler : option (Tensor R -> RT))
  (cal_model : option (Input -> RT)) : t :=
  {| attrs := attrs self; pools := pools self; scaler := Some scaler;
     cal_model := Some cal_model; logged := logged self |}.

(** [torch.nn.Sequential(self.model, self.scaler)]. *)
Definition Sequential (m : Model) (scaler : Tensor R -> RT) : Input -> RT :=
  fun x => y <- model_forward m x ;; scaler y.

Definition training_step (self : t) (batch : Input * Target)
  (batch_idx : nat) : result (Tensor R * t) :=
  let a := attrs self in
  batch <-
    (if String.eqb (mixtype a) "kernel_warping"
     then
       if String.eqb (dist_sim a) "emb"
       then feats <- feats_forward (model a) (fst batch) ;;
            mixup <- getattr "mixup" (mixup a) ;;
            call_mixup mixup (fst batch) (snd batch) (Some (inr feats))
       else if String.eqb (dist_sim a) "inp"
       then mixup <- getattr "mixup" (mixup a) ;;
            call_mixup mixup (fst batch) (snd batch) (Some (inl (fst batch)))
       else Ok batch
     else mixup <- getattr "mixup" (mixup a) ;;
          call_mixup mixup (fst batch) (snd batch) None) ;;
  '(inputs, targets) <- format_batch_fn a batch ;;
  loss <-
    (if is_elbo a
     then criterion self (inl inputs) targets
     else
       logits <- forward self inputs ;;
       if binary_cls a && is_BCEWithLogitsLoss (loss a)
       then criterion self (inr (squeeze_last logits)) (float targets)
       else criterion self (inr logits) targets) ;;
  Ok (loss, log self "train_loss").

Definition validation_step (self : t) (batch : Input * Tensor Z)
  (batch_idx : nat) : result t :=
  let '(inputs, targets) := batch in
  logits <- forward self inputs ;;
  let probs :=
    if binary_cls (attrs self) then squeeze_last (sigmoid logits)
    else softmax_last logits in
  let p := pools self in
  Ok (with_pools self
        (set_val_cls_metrics p
           (update (val_cls_metrics p) probs (Some targets)))).

Definition validation_epoch_end (self : t) : t :=
  let p := pools self in
  let self := log_dict self (compute (val_cls_metrics p)) in
  with_pools self (set_val_cls_metrics p (reset (val_cls_metrics p))).

(** The condition [self.calibration_set is not None and self.scaler is not
    None and self.cal_model is not None]; when it holds, the calibrated
    model. *)
Definition calibrated (self : t) : result (option (Input -> RT)) :=
  match calibration_set (attrs self) with
  | None => Ok None
  | Some _ =>
      scaler <- getattr "scaler" (scaler self) ;;
      match scaler with
      | None => Ok None
      | Some _ => getattr "cal_model" (cal_model self)
      end
  end.

(** The calibrated branch of [test_step]: when the calibration artifact
    exists, the batch goes through the calibrated model and the calibrated
    pool is updated, before any look at the dataloader index. *)
Definition update_calibrated (self : t) (inputs : Input)
  (targets : Tensor Z) : result t :=
  cal <- calibrated self ;;
  match cal with
  | Some cal_model =>
      cal_logits <- cal_model inputs ;;
      let cal_probs := softmax_last cal_logits in
      ts <- getattr "ts_cls_metrics" (ts_cls_metrics (pools self)) ;;
      Ok (with_pools self
            (set_ts_cls_metrics (pools self)
               (update ts cal_probs (Some targets))))
  | None => Ok self
  end.

(** The dispatch of [test_step] on the dataloader index. *)
Definition route (self : t) (probs ood_values : Tensor R)
  (targets : Tensor Z) (dataloader_idx : option Z) : result t :=
  let a := attrs self in
  if idx_is dataloader_idx 0
  then
    let p := pools self in
    let p :=
      set_test_cls_metrics p
        (update (test_cls_metrics p) probs (Some targets)) in
    let p := set_test_entropy_id p (update (test_entropy_id p) probs None) in
    let self := log (with_pools self p) "hp/test_entropy_id" in
    if ood_detection a
    then
      m <- getattr "test_ood_metrics" (test_ood_metrics p) ;;
      Ok (with_pools self
            (set_test_ood_metrics p
               (update m ood_values (Some (zeros_like targets)))))
    else Ok self
  else if ood_detection a && idx_is dataloader_idx 1
  then
    let p := pools self in
    m <- getattr "test_ood_metrics" (test_ood_metrics p) ;;
    let p :=
      set_test_ood_metrics p
        (update m ood_values (Some (ones_like targets))) in
    e <- getattr "test_entropy_ood" (test_entropy_ood p) ;;
    let p := set_test_entropy_ood p (update e probs None) in
    Ok (log (with_pools self p) "hp/test_entropy_ood")
  else Ok self.

Definition test_step (self : t) (batch : Input * Tensor Z)
  (batch_idx : nat) (dataloader_idx : option Z) : result t :=
  let a := attrs self in
  let '(inputs, targets) := batch in
  logits <- forward self inputs ;;
  let probs :=
    if binary_cls a then squeeze_last (sigmoid logits)
    else softmax_last logits in
  confs <- tmax_dim (-1) probs ;;
  ood_values <-
    (if use_logits a
     then m <- tmax_dim (-1) logits ;; Ok (tneg m)
     else if use_entropy a
     then tsum_dim (-1) false (entr probs)
     else Ok (tneg confs)) ;;
  self <- update_calibrated self inputs targets ;;
  route self probs ood_values targets dataloader_idx.

Definition test_epoch_end (self : t) : result t :=
  let p := pools self in
  let self := log_dict self (compute (test_cls_metrics p)) in
  let p := set_test_cls_metrics p (reset (test_cls_metrics p)) in
  cal <- calibrated self ;;
  '(self, p) <-
    match cal with
    | Some _ =>
        ts <- getattr "ts_cls_metrics" (ts_cls_metrics p) ;;
        Ok (log_dict self (compute ts), set_ts_cls_metrics p (reset ts))
    | None => Ok (self, p)
    end ;;
  if ood_detection (attrs self)
  then
    m <- getattr "test_ood_metrics" (test_ood_metrics p) ;;
    Ok (with_pools (log_dict self (compute m))
          (set_test_ood_metrics p (reset m)))
  else Ok (with_pools self p).

Definition on_test_start (self : t) : result t :=
  match calibration_set (attrs self) with
  | Some calibration_set =>
      scaler <- TemperatureScaler_fit (model (attrs self)) calibration_set ;;
      Ok (set_calibration self (Some scaler)
            (Some (Sequential (model (attrs self)) scaler)))
  | None => Ok (set_calibration self None None)
  end.

End WithCollaborators.

End ClassificationSingle.

Module ClassificationEnsemble.

Section WithCollaborators.

Variables Input CalSet : Type.

Let Single : Type := ClassificationSingle.t Input CalSet.
Let Mixer : Type := ClassificationSingle.Mixer.
Let Model : Type := ClassificationSingle.Model Input.

Variable transforms :
  Mixer -> Input -> Target -> option (Input + Tensor R) ->
  result (Input * Target).
Variable TemperatureScaler_fit : Model -> CalSet -> result (Tensor R -> RT).

(** The two metrics of [torch_uncertainty.metrics] used as OOD criteria
    are parameters, as [test_step] builds and calls them
    ([reduction="none"]; the variation ratio with [probabilistic=False]). *)
Variable MutualInformation : Tensor R -> RT.
Variable VariationRatio : Tensor R -> RT.

Record Args : Type := {
  a_super : ClassificationSingle.Args Input CalSet;
  a_num_estimators : nat;
  a_use_mi : bool;
  a_use_variation_ratio : bool
}.

Record t : Type := {
  super : Single;
  num_estimators : nat;
  use_mi : bool;
  use_variation_ratio : bool;
  test_id_ens_metrics : MetricCollection;
  test_ood_ens_metrics : option MetricCollection
}.

Definition ens_metrics : MetricCollection :=
  {| prefix := ""; metrics := ["disagreement"; "mi"; "entropy"]%string;
     updates := [] |}.

Definition __init__ (a : Args) : result t :=
  super <- ClassificationSingle.__init__ (a_super a) ;;
  let s := ClassificationSingle.attrs super in
  if Nat.ltb 1
       (Nat.b2n (ClassificationSingle.use_logits s)
        + Nat.b2n (ClassificationSingle.use_entropy s)
        + Nat.b2n (a_use_mi a)
        + Nat.b2n (a_use_variation_ratio a))
  then Raise (ValueError ClassificationSingle.ERR_OOD_CRITERION)
  else
    Ok {| super := super;
          num_estimators := a_num_estimators a;
          use_mi := a_use_mi a;
          use_variation_ratio := a_use_variation_ratio a;
          test_id_ens_metrics := clone ens_metrics "hp/test_id_ens_";
          test_ood_ens_metrics :=
            if ClassificationSingle.ood_detection s
            then Some (clone ens_metrics "hp/test_ood_ens_") else None |}.

Definition with_super (self : t) (s : Single) : t :=
  {| super := s; num_estimators := num_estimators self;
     use_mi := use_mi self;
     use_variation_ratio := use_variation_ratio self;
     test_id_ens_metrics := test_id_ens_metrics self;
     test_ood_ens_metrics := test_ood_ens_metrics self |}.

Definition set_test_id_ens_metrics (self : t) (m : MetricCollection) : t :=
  {| super := super self; num_estimators := num_estimators self;
     use_mi := use_mi self;
     use_variation_ratio := use_variation_ratio self;
     test_id_ens_metrics := m;
     test_ood_ens_metrics := test_ood_ens_metrics self |}.

Definition set_test_ood_ens_metrics (self : t) (m : MetricCollection) : t :=
  {| super := super self; num_estimators := num_estimators self;
     use_mi := use_mi self;
     use_variation_ratio := use_variation_ratio self;
     test_id_ens_metrics := test_id_ens_metrics self;
     test_ood_ens_metrics := Some m |}.

Definition training_step (self : t) (batch : Input * Target)
  (batch_idx : nat) : result (Tensor R * t) :=
  let s := super self in
  let a := ClassificationSingle.attrs s in
  mixup <- getattr "mixup" (ClassificationSingle.mixup a) ;;
  batch <-
    ClassificationSingle.call_mixup transforms mixup (fst batch) (snd batch)
      None ;;
  '(inputs, targets) <- ClassificationSingle.format_batch_fn a batch ;;
  logits <- ClassificationSingle.forward s inputs ;;
  loss <-
    (if ClassificationSingle.binary_cls a
        && ClassificationSingle.is_BCEWithLogitsLoss
             (ClassificationSingle.loss a)
     then ClassificationSingle.criterion s (inr (squeeze_last logits))
            (float targets)
     else ClassificationSingle.criterion s (inr logits) targets) ;;
  Ok (loss, with_super self (ClassificationSingle.log s "train_loss")).

Definition validation_step (self : t) (batch : Input * Tensor Z)
  (batch_idx : nat) : result t :=
  let s := super self in
  let '(inputs, targets) := batch in
  logits <- ClassificationSingle.forward s inputs ;;
  logits <- rearrange (num_estimators self) logits ;;
  let probs_per_est :=
    if ClassificationSingle.binary_cls (ClassificationSingle.attrs s)
    then squeeze_last (sigmoid logits)
    else softmax_last logits in
  probs <- tmean_dim 1 probs_per_est ;;
  let p := ClassificationSingle.pools s in
  Ok (with_super self
        (ClassificationSingle.with_pools s
           (ClassificationSingle.set_val_cls_metrics p
              (update (ClassificationSingle.val_cls_metrics p) probs
                 (Some targets))))).

Definition test_step (self : t) (batch : Input * Tensor Z)
  (batch_idx : nat) (dataloader_idx : option Z) : result t :=
  let s := super self in
  let a := ClassificationSingle.attrs s in
  let binary_cls := ClassificationSingle.binary_cls a in
  let ood_detection := ClassificationSingle.ood_detection a in
  let '(inputs, targets) := batch in
  logits <- ClassificationSingle.forward s inputs ;;
  logits <- rearrange (num_estimators self) logits ;;
  let probs_per_est :=
    if binary_cls then sigmoid logits else softmax_last logits in
  probs <- tmean_dim 1 probs_per_est ;;
  confs <- tmax_dim (-1) probs ;;
  ood_values <-
    (if ClassificationSingle.use_logits a
     then l <- tmean_dim 1 logits ;; m <- tmax_dim (-1) l ;; Ok (tneg m)
     else if ClassificationSingle.use_entropy a
     then e <- tsum_dim (-1) false (entr probs) ;; tmean_dim 1 e
     else if use_mi self
     then MutualInformation probs_per_est
     else if use_variation_ratio self
     then tr <- transpose01 probs_per_est ;; VariationRatio tr
     else Ok (tneg confs)) ;;
  let p := ClassificationSingle.pools s in
  if ClassificationSingle.idx_is dataloader_idx 0
  then
    let p :=
      ClassificationSingle.set_test_cls_metrics p
        (update (ClassificationSingle.test_cls_metrics p)
           (if binary_cls then squeeze_last probs else probs)
           (Some targets)) in
    let p :=
      ClassificationSingle.set_test_entropy_id p
        (update (ClassificationSingle.test_entropy_id p) probs None) in
    let self :=
      set_test_id_ens_metrics self
        (update (test_id_ens_metrics self) probs_per_est None) in
    let s :=
      ClassificationSingle.log (ClassificationSingle.with_pools s p)
        "hp/test_entropy_id" in
    if ood_detection
    then
      m <- getattr "test_ood_metrics"
             (ClassificationSingle.test_ood_metrics p) ;;
      Ok (with_super self
            (ClassificationSingle.with_pools s
               (ClassificationSingle.set_test_ood_metrics p
                  (update m ood_values (Some (zeros_like targets))))))
    else Ok (with_super self s)
  else if ood_detection && ClassificationSingle.idx_is dataloader_idx 1
  then
    m <- getattr "test_ood_metrics"
           (ClassificationSingle.test_ood_metrics p) ;;
    let p :=
      ClassificationSingle.set_test_ood_metrics p
        (update m ood_values (Some (ones_like targets))) in
    e <- getattr "test_entropy_ood"
           (ClassificationSingle.test_entropy_ood p) ;;
    let p :=
      ClassificationSingle.set_test_entropy_ood p (update e probs None) in
    ens <- getattr "test_ood_ens_metrics" (test_ood_ens_metrics self) ;;
    let self :=
      set_test_ood_ens_metrics self (update ens probs_per_est None) in
    Ok (with_super self
          (ClassificationSingle.log (ClassificationSingle.with_pools s p)
             "hp/test_entropy_ood"))
  else Ok self.

Definition test_epoch_end (self : t) : result t :=
  s <- ClassificationSingle.test_epoch_end (super self) ;;
  let s := ClassificationSingle.log_dict s
             (compute (test_id_ens_metrics self)) in
  let self :=
    set_test_id_ens_metrics self (reset (test_id_ens_metrics self)) in
  if ClassificationSingle.ood_detection (ClassificationSingle.attrs s)
  then
    ens <- getattr "test_ood_ens_metrics" (test_ood_ens_metrics self) ;;
    let s := ClassificationSingle.log_dict s (compute ens) in
    Ok (with_super (set_test_ood_ens_metrics self (reset ens)) s)
  else Ok (with_super self s).

End WithCollaborators.

End ClassificationEnsemble.

(** * Definitions used to state the properties *)

(** The six mixing-policy names [__init__] knows. *)
Definition supported_mixtype (name : string) : bool :=
  String.eqb name "erm" || String.eqb name "timm"
  || String.eqb name "mixup" || String.eqb name "mixup_io"
  || String.eqb name "regmixup" || String.eqb name "kernel_warping".

(** The number of OOD criteria selected. *)
Definition single_criteria {Input CalSet : Type}
  (a : ClassificationSingle.Args Input CalSet) : nat :=
  Nat.b2n (ClassificationSingle.a_use_logits a)
  + Nat.b2n (ClassificationSingle.a_use_entropy a).

Definition ensemble_criteria {Input CalSet : Type}
  (a : ClassificationEnsemble.Args Input CalSet) : nat :=
  single_criteria (ClassificationEnsemble.a_super a)
  + Nat.b2n (ClassificationEnsemble.a_use_mi a)
  + Nat.b2n (ClassificationEnsemble.a_use_variation_ratio a).

(** The total of the evidential classification loss as the specification
    words it: the fit term selected by [loss_type] plus the coefficient
    times the KL regularisation term, reduced per [reduction]. *)
Definition weighted_loss (lgamma digamma : R -> R) (self : DECLoss.t)
  (evidence : Tensor R) (targets : Tensor Z) (coef : R) : RT :=
  num_classes <- size_last evidence ;;
  targets <- one_hot targets num_classes ;;
  fit <-
    (if String.eqb (DECLoss.loss_type self) "mse"
     then DECLoss._mse_loss evidence targets
     else if String.eqb (DECLoss.loss_type self) "log"
     then DECLoss._log_loss evidence targets
     else if String.eqb (DECLoss.loss_type self) "digamma"
     then DECLoss._digamma_loss digamma evidence targets
     else Raise (UnboundLocalError "loss_dirichlet")) ;;
  reg <- DECLoss._kldiv_reg lgamma digamma evidence targets ;;
  loss <- (#fit + $coef * #reg)%T ;;
  if str_is (DECLoss.reduction self) "mean" then Ok (tmean loss)
  else if str_is (DECLoss.reduction self) "sum" then Ok (tsum loss)
  else Ok loss.

(** [forward], called with [current_epoch], selects the coefficient [coef]
    and applies it to the KL term. *)
Definition applies_coef (lgamma digamma : R -> R) (self : DECLoss.t)
  (current_epoch : option Z) (coef : R) : Prop :=
  DECLoss.annealing_coef self current_epoch = Ok (T0 coef) /\
  forall evidence targets,
    DECLoss.forward lgamma digamma self evidence targets current_epoch =
    weighted_loss lgamma digamma self evidence targets coef.

(** The aggregate probabilities of an ensemble as the specification words
    them: the stacked logits are read as [(estimator, batch, class)], turned
    into per-estimator probabilities, and averaged over the estimators.
    Entry [(b, c)] is the mean over the estimators [e] of the softmax of row
    [e * batch + b] at class [c]. *)
Definition ensemble_probs (n batch : nat) (rows : list (list R))
  : list (list R) :=
  map (fun b =>
         map Rmean
           (transpose
              (map (fun e => softmax_row (nth (e * batch + b) rows []))
                 (seq 0 n))))
    (seq 0 batch).

Definition nonempty_rows {A : Type} (m : list (list A)) : Prop :=
  Forall (fun r => r <> []) m.

Section RoutineProperties.
Variables Input CalSet : Type.

(** The pools [__init__] creates conditionally exist whenever the flag
    that guards their use is set. *)
Definition consistent (self : ClassificationSingle.t Input CalSet) : Prop :=
  let a := ClassificationSingle.attrs self in
  let p := ClassificationSingle.pools self in
  (ClassificationSingle.ood_detection a = true ->
   ClassificationSingle.test_ood_metrics p <> None /\
   ClassificationSingle.test_entropy_ood p <> None) /\
  (ClassificationSingle.calibration_set a <> None ->
   ClassificationSingle.ts_cls_metrics p <> None).

(** The state the test-start hook leaves when a calibration set is
    configured: the scaler is fitted and [cal_model] is the calibrated
    model. *)
Definition calibration_built (self : ClassificationSingle.t Input CalSet)
  (cal_model : Input -> RT) : Prop :=
  ClassificationSingle.calibration_set (ClassificationSingle.attrs self)
  <> None /\
  (exists scaler, ClassificationSingle.scaler self = Some (Some scaler)) /\
  ClassificationSingle.cal_model self = Some (Some cal_model).

(** The probabilities and the OOD scores [test_step] computes from the
    logits. *)
Definition probs_of (self : ClassificationSingle.t Input CalSet)
  (logits : Tensor R) : Tensor R :=
  if ClassificationSingle.binary_cls (ClassificationSingle.attrs self)
  then squeeze_last (sigmoid logits)
  else softmax_last logits.

Definition ood_values_of (self : ClassificationSingle.t Input CalSet)
  (logits : Tensor R) : RT :=
  let a := ClassificationSingle.attrs self in
  if ClassificationSingle.use_logits a
  then m <- tmax_dim (-1) logits ;; Ok (tneg m)
  else if ClassificationSingle.use_entropy a
  then tsum_dim (-1) false (entr (probs_of self logits))
  else confs <- tmax_dim (-1) (probs_of self logits) ;; Ok (tneg confs).

(** What a test batch needs for its scores to be computed: the network
    returns logits of shape [[batch; classes]] with at least one class,
    and the calibrated model, when there is one, returns on the inputs. *)
Definition well_formed_batch (self : ClassificationSingle.t Input CalSet)
  (inputs : Input) (logits : Tensor R)
  (cal : option (Input -> RT)) : Prop :=
  ClassificationSingle.forward self inputs = Ok logits /\
  (exists rows classes,
      logits = T2 rows /\ rect classes rows /\ 0 < classes) /\
  ClassificationSingle.calibrated self = Ok cal /\
  match cal with
  | Some cal_model => returns (cal_model inputs)
  | None => True
  end.

(** The pools other than the calibrated one, and the log, are the same. *)
Definition same_but_calibrated (self self' : ClassificationSingle.t Input CalSet)
  : Prop :=
  let p := ClassificationSingle.pools self in
  let p' := ClassificationSingle.pools self' in
  ClassificationSingle.val_cls_metrics p'
  = ClassificationSingle.val_cls_metrics p /\
  ClassificationSingle.test_cls_metrics p'
  = ClassificationSingle.test_cls_metrics p /\
  ClassificationSingle.test_entropy_id p'
  = ClassificationSingle.test_entropy_id p /\
  ClassificationSingle.test_ood_metrics p'
  = ClassificationSingle.test_ood_metrics p /\
  ClassificationSingle.test_entropy_ood p'
  = ClassificationSingle.test_entropy_ood p /\
  ClassificationSingle.logged self' = ClassificationSingle.logged self.

End RoutineProperties.

(** * Concrete instances

    A network that returns its input as logits, a loss that is constantly
    zero, mixing policies that leave the batch alone and a temperature
    scaler of temperature one. *)

Module Example.

Definition Input : Type := Tensor R.
Definition CalSet : Type := unit.

Definition network : ClassificationSingle.Model Input :=
  {| ClassificationSingle.model_forward := fun x => Ok x;
     ClassificationSingle.feats_forward := fun x => Ok x |}.

Definition zero_loss : ClassificationSingle.Loss Input :=
  {| ClassificationSingle.is_partial_of_ELBOLoss := false;
     ClassificationSingle.is_BCEWithLogitsLoss := false;
     ClassificationSingle.instantiate := fun _ _ _ => Ok (T0 0%R) |}.

Definition transforms (m : ClassificationSingle.Mixer) (x : Input)
  (y : Target) (feats : option (Input + Tensor R))
  : result (Input * Target) := Ok (x, y).

Definition TemperatureScaler_fit (m : ClassificationSingle.Model Input)
  (c : CalSet) : result (Tensor R -> RT) := Ok (fun logits => Ok logits).

Definition args (mixtype : string) (ood_detection use_entropy use_logits : bool)
  (calibration_set : option CalSet)
  : ClassificationSingle.Args Input CalSet :=
  {| ClassificationSingle.a_num_classes := 2;
     ClassificationSingle.a_model := network;
     ClassificationSingle.a_loss := zero_loss;
     ClassificationSingle.a_format_batch_fn := fun b => Ok b;
     ClassificationSingle.a_mixtype := mixtype;
     ClassificationSingle.a_mixmode := "elem";
     ClassificationSingle.a_dist_sim := "emb";
     ClassificationSingle.a_kernel_tau_max := 1%R;
     ClassificationSingle.a_kernel_tau_std := (1 / 2)%R;
     ClassificationSingle.a_mixup_alpha := 0%R;
     ClassificationSingle.a_cutmix_alpha := 0%R;
     ClassificationSingle.a_ood_detection := ood_detection;
     ClassificationSingle.a_use_entropy := use_entropy;
     ClassificationSingle.a_use_logits := use_logits;
     ClassificationSingle.a_calibration_set := calibration_set |}.

Definition ensemble_args (num_estimators : nat)
  (use_entropy use_logits use_mi use_variation_ratio : bool)
  : ClassificationEnsemble.Args Input CalSet :=
  {| ClassificationEnsemble.a_super :=
       args "erm" true use_entropy use_logits None;
     ClassificationEnsemble.a_num_estimators := num_estimators;
     ClassificationEnsemble.a_use_mi := use_mi;
     ClassificationEnsemble.a_use_variation_ratio := use_variation_ratio |}.

(** The routine objects [__init__] builds from these arguments. *)
Definition routine (mixtype : string)
  (ood_detection use_entropy use_logits : bool)
  (calibration_set : option CalSet)
  : ClassificationSingle.t Input CalSet :=
  let a := args mixtype ood_detection use_entropy use_logits
             calibration_set in
  let cls := ClassificationSingle.cls_metrics false in
  {| ClassificationSingle.attrs :=
       {| ClassificationSingle.num_classes := 2;
          ClassificationSingle.ood_detection := ood_detection;
          ClassificationSingle.use_logits := use_logits;
          ClassificationSingle.use_entropy := use_entropy;
          ClassificationSingle.calibration_set := calibration_set;
          ClassificationSingle.binary_cls := false;
          ClassificationSingle.model := network;
          ClassificationSingle.loss := zero_loss;
          ClassificationSingle.format_batch_fn := fun b => Ok b;
          ClassificationSingle.mixtype := mixtype;
          ClassificationSingle.mixmode := "elem";
          ClassificationSingle.dist_sim := "emb";
          ClassificationSingle.mixup := ClassificationSingle.select_mixup a;
          ClassificationSingle.is_elbo := false |};
     ClassificationSingle.pools :=
       {| ClassificationSingle.val_cls_metrics := clone cls "hp/val_";
          ClassificationSingle.test_cls_metrics := clone cls "hp/test_";
          ClassificationSingle.ts_cls_metrics :=
            match calibration_set with
            | Some _ => Some (clone cls "hp/ts_")
            | None => None
            end;
          ClassificationSingle.test_entropy_id :=
            ClassificationSingle.Entropy;
          ClassificationSingle.test_ood_metrics :=
            if ood_detection
            then Some (clone ClassificationSingle.ood_metrics "hp/test_")
            else None;
          ClassificationSingle.test_entropy_ood :=
            if ood_detection then Some ClassificationSingle.Entropy
            else None |};
     ClassificationSingle.scaler := None;
     ClassificationSingle.cal_model := None;
     ClassificationSingle.logged := [] |}.

Definition ensemble (num_estimators : nat)
  (use_entropy use_logits use_mi use_variation_ratio : bool)
  : ClassificationEnsemble.t Input CalSet :=
  {| ClassificationEnsemble.super :=
       routine "erm" true use_entropy use_logits None;
     ClassificationEnsemble.num_estimators := num_estimators;
     ClassificationEnsemble.use_mi := use_mi;
     ClassificationEnsemble.use_variation_ratio := use_variation_ratio;
     ClassificationEnsemble.test_id_ens_metrics :=
       clone ClassificationEnsemble.ens_metrics "hp/test_id_ens_";
     ClassificationEnsemble.test_ood_ens_metrics :=
       Some (clone ClassificationEnsemble.ens_metrics "hp/test_ood_ens_") |}.

(** The routine with a calibration set, as [on_test_start] leaves it. *)
Definition calibrated_routine (ood_detection : bool)
  : ClassificationSingle.t Input CalSet :=
  ClassificationSingle.set_calibration
    (routine "erm" ood_detection false false (Some tt))
    (Some (fun logits => Ok logits))
    (Some (ClassificationSingle.Sequential network
             (fun logits => Ok logits))).

(** One batch of two samples and two classes. *)
Definition batch : Input * Tensor Z :=
  (T2 [[2; -2]; [1; 1]]%R, T1 [0; 1]%Z).

(** A network without stochasticity whose state counts the forward
    passes, with one Bayesian layer; the criterion is constant. *)
Definition elbo (num_samples : Z) : ELBOLoss.t nat Input (Tensor Z) :=
  {| ELBOLoss.model :=
       {| ELBOLoss.call := fun x w => Ok (x, S w);
          ELBOLoss.modules := fun _ => [KLDiv.Bayesian 3 1; KLDiv.Plain] |};
     ELBOLoss.criterion := fun _ _ => Ok 2%R;
     ELBOLoss.kl_weight := (1 / 2)%R;
     ELBOLoss.num_samples := num_samples |}.

(** A stand-in for the special functions of the tensor library. *)
Definition special (x : R) : R := 0%R.

(** Loss objects as [DECLoss.__init__] builds them. *)
Definition dec_loss (annealing_step : option Z) (reg_weight : option R)
  : DECLoss.t :=
  {| DECLoss.annealing_step := annealing_step;
     DECLoss.reg_weight := reg_weight;
     DECLoss.loss_type := "log";
     DECLoss.reduction := Some "mean"%string |}.

(** A stacked tensor of shape [[rows; cols]] whose entry [(r, c)] is
    [10 * r + c]. *)
Definition stacked (rows cols : nat) : list (list R) :=
  map (fun r => map (fun c => INR (10 * r + c)) (seq 0 cols)) (seq 0 rows).

End Example.

(** * Further definitions *)

(** ** Terms used to state the properties of the losses *)

(** What one sub-module adds to the KL divergence. *)
Definition kl_term (m : KLDiv.module) : R :=
  match m with
  | KLDiv.Bayesian lvposterior lprior => (lvposterior - lprior)%R
  | KLDiv.Plain => 0%R
  end.

Definition is_Bayesian (m : KLDiv.module) : bool :=
  match m with
  | KLDiv.Bayesian _ _ => true
  | KLDiv.Plain => false
  end.

(** The message of the [ValueError] that [DECLoss.forward] raises when the
    epoch is missing. *)
Definition ERR_EPOCH : string :=
  "The epoch num should be positive when annealing_step is settled".

Section ELBOTerms.
Variables W Input Target : Type.

(** The two terms of each of [n] successive draws: the value of the
    criterion on the logits of the draw, and the KL divergence that forward
    pass leaves on the layers. *)
Fixpoint elbo_terms (self : ELBOLoss.t W Input Target) (inputs : Input)
  (targets : Target) (n : nat) (w : W) : result (list (R * R) * W) :=
  match n with
  | O => Ok ([], w)
  | S n' =>
      '(logits, w1) <- ELBOLoss.call (ELBOLoss.model self) inputs w ;;
      c <- ELBOLoss.criterion self logits targets ;;
      '(ts, w2) <- elbo_terms self inputs targets n' w1 ;;
      Ok ((c, KLDiv.forward (ELBOLoss.modules (ELBOLoss.model self) w1))
            :: ts, w2)
  end.

End ELBOTerms.

(** ** Concrete instances, further *)

(** The routine [__init__] builds for [mixtype="kernel_warping"] and the
    given [dist_sim], with the collaborators of [Example]. *)
Definition warping_args (dist_sim : string)
  : ClassificationSingle.Args Example.Input Example.CalSet :=
  {| ClassificationSingle.a_num_classes := 2;
     ClassificationSingle.a_model := Example.network;
     ClassificationSingle.a_loss := Example.zero_loss;
     ClassificationSingle.a_format_batch_fn := fun b => Ok b;
     ClassificationSingle.a_mixtype := "kernel_warping";
     ClassificationSingle.a_mixmode := "elem";
     ClassificationSingle.a_dist_sim := dist_sim;
     ClassificationSingle.a_kernel_tau_max := 1%R;
     ClassificationSingle.a_kernel_tau_std := (1 / 2)%R;
     ClassificationSingle.a_mixup_alpha := 0%R;
     ClassificationSingle.a_cutmix_alpha := 0%R;
     ClassificationSingle.a_ood_detection := false;
     ClassificationSingle.a_use_entropy := false;
     ClassificationSingle.a_use_logits := false;
     ClassificationSingle.a_calibration_set := None |}.

Definition warping_routine (dist_sim : string)
  : ClassificationSingle.t Example.Input Example.CalSet :=
  let cls := ClassificationSingle.cls_metrics false in
  {| ClassificationSingle.attrs :=
       {| ClassificationSingle.num_classes := 2;
          ClassificationSingle.ood_detection := false;
          ClassificationSingle.use_logits := false;
          ClassificationSingle.use_entropy := false;
          ClassificationSingle.calibration_set := None;
          ClassificationSingle.binary_cls := false;
          ClassificationSingle.model := Example.network;
          ClassificationSingle.loss := Example.zero_loss;
          ClassificationSingle.format_batch_fn := fun b => Ok b;
          ClassificationSingle.mixtype := "kernel_warping";
          ClassificationSingle.mixmode := "elem";
          ClassificationSingle.dist_sim := dist_sim;
          ClassificationSingle.mixup :=
            ClassificationSingle.select_mixup (warping_args dist_sim);
          ClassificationSingle.is_elbo := false |};
     ClassificationSingle.pools :=
       {| ClassificationSingle.val_cls_metrics := clone cls "hp/val_";
          ClassificationSingle.test_cls_metrics := clone cls "hp/test_";
          ClassificationSingle.ts_cls_metrics := None;
          ClassificationSingle.test_entropy_id :=
            ClassificationSingle.Entropy;
          ClassificationSingle.test_ood_metrics := None;
          ClassificationSingle.test_entropy_ood := None |};
     ClassificationSingle.scaler := None;
     ClassificationSingle.cal_model := None;
     ClassificationSingle.logged := [] |}.

(** A mixing policy that refuses every batch. *)
Definition failing_transforms (m : ClassificationSingle.Mixer)
  (x : Example.Input) (y : Target)
  (feats : option (Example.Input + Tensor R))
  : result (Example.Input * Target) :=
  Raise (RuntimeError "mixing failed").

(** * datamodules/tiny_imagenet.py *)

Module TinyImageNetDataModule.

(** The dataset classes the module refers to. *)
Inductive DatasetClass : Type :=
| TinyImageNet
| ImageNetO
| SVHN
| DTD.

(** The two pipelines [__init__] composes: the training one, built around
    [main_transform] (RandAugment with the given options, or the identity
    when there are none), and the test one. *)
Inductive Transform : Type :=
| TrainTransform (rand_augment_opt : option string)
| TestTransform.

(** A call [cls(root, split=..., download=..., transform=...)] of a dataset
    class; [download] is [None] when the call does not pass it. *)
Record Call : Type := {
  cls : DatasetClass;
  call_root : string;
  split : string;
  download : option bool;
  transform : Transform
}.

Section WithDatasets.

(** The dataset classes ([TinyImageNet] and [ImageNetO] of
    [torch_uncertainty.datasets], torchvision's [SVHN] and [DTD]),
    [ConcatDataset], and [_data_loader] of [AbstractDataModule] are
    parameters: building a dataset from a call may raise; [samples] and
    [label_data] are the attributes of the training set that are read. *)
Variables Dataset DataLoader ArrayLike : Type.
Variable load : Call -> result Dataset.
Variable ConcatDataset : list Dataset -> Dataset.
Variable _data_loader : Dataset -> DataLoader.
Variables samples label_data : Dataset -> ArrayLike.

(** The data module [self].  [ood_dataset] is assigned by one of three
    branches of [__init__] and [train], [val], [test] and [ood] by [setup]
    only: each is an [option].  The arguments that [__init__] only forwards
    to [AbstractDataModule.__init__] (batch size, workers, memory pinning)
    are not read in this file; of these, [root] is kept. *)
Record t : Type := {
  root : string;
  ood_detection : bool;
  ood_ds : string;
  dataset : DatasetClass;
  ood_dataset : option DatasetClass;
  transform_train : Transform;
  transform_test : Transform;
  train : option Dataset;
  val : option Dataset;
  test : option Dataset;
  ood : option Dataset
}.

Definition __init__ (root : string) (ood_detection : bool) (ood_ds : string)
  (rand_augment_opt : option string) : t :=
  {| root := root;
     ood_detection := ood_detection;
     ood_ds := ood_ds;
     dataset := TinyImageNet;
     ood_dataset :=
       if String.eqb ood_ds "imagenet-o" then Some ImageNetO
       else if String.eqb ood_ds "svhn" then Some SVHN
       else if String.eqb ood_ds "textures" then Some DTD
       else None;
     transform_train := TrainTransform rand_augment_opt;
     transform_test := TestTransform;
     train := None;
     val := None;
     test := None;
     ood := None |}.

Definition set_train_val (self : t) (train val : Dataset) : t :=
  {| root := root self; ood_detection := ood_detection self;
     ood_ds := ood_ds self; dataset := dataset self;
     ood_dataset := ood_dataset self;
     transform_train := transform_train self;
     transform_test := transform_test self;
     train := Some train; val := Some val; test := test self;
     ood := ood self |}.

Definition set_test (self : t) (test : Dataset) : t :=
  {| root := root self; ood_detection := ood_detection self;
     ood_ds := ood_ds self; dataset := dataset self;
     ood_dataset := ood_dataset self;
     transform_train := transform_train self;
     transform_test := transform_test self;
     train := train self; val := val self; test := Some test;
     ood := ood self |}.

Definition set_ood (self : t) (ood : Dataset) : t :=
  {| root := root self; ood_detection := ood_detection self;
     ood_ds := ood_ds self; dataset := dataset self;
     ood_dataset := ood_dataset self;
     transform_train := transform_train self;
     transform_test := transform_test self;
     train := train self; val := val self; test := test self;
     ood := Some ood |}.

(** [self.dataset(self.root, split=split, transform=transform)]. *)
Definition id_call (self : t) (split : string) (transform : Transform)
  : Call :=
  {| cls := dataset self; call_root := root self; split := split;
     download := None; transform := transform |}.

(** [self.ood_dataset(self.root, split=split, download=..., transform=
    self.transform_test)]. *)
Definition ood_call (self : t) (split : string) (download : option bool)
  : result Dataset :=
  c <- getattr "ood_dataset" (ood_dataset self) ;;
  load {| cls := c; call_root := root self; split := split;
          download := download; transform := transform_test self |}.

Definition prepare_data (self : t) : result unit :=
  if ood_detection self
  then
    if negb (String.eqb (ood_ds self) "textures")
    then _ <- ood_call self "test" (Some true) ;; Ok tt
    else
      a <- ood_call self "train" (Some true) ;;
      b <- ood_call self "val" (Some true) ;;
      c <- ood_call self "test" (Some true) ;;
      Ok tt
  else Ok tt.

Definition setup (self : t) (stage : option string) : result t :=
  self <-
    (if str_is stage "fit" || is_None stage
     then
       train <- load (id_call self "train" (transform_train self)) ;;
       val <- load (id_call self "val" (transform_test self)) ;;
       Ok (set_train_val self train val)
     else Ok self) ;;
  self <-
    (if str_is stage "test"
     then
       test <- load (id_call self "val" (transform_test self)) ;;
       Ok (set_test self test)
     else Ok self) ;;
  if ood_detection self
  then
    if String.eqb (ood_ds self) "textures"
    then
      a <- ood_call self "train" (Some true) ;;
      b <- ood_call self "val" (Some true) ;;
      c <- ood_call self "test" (Some true) ;;
      Ok (set_ood self (ConcatDataset [a; b; c]))
    else
      d <- ood_call self "test" None ;;
      Ok (set_ood self d)
  else Ok self.

Definition test_dataloader (self : t) : result (list DataLoader) :=
  test <- getattr "test" (test self) ;;
  let dataloader := [_data_loader test] in
  if ood_detection self
  then
    ood <- getattr "ood" (ood self) ;;
    Ok (dataloader ++ [_data_loader ood])
  else Ok dataloader.

Definition _get_train_data (self : t) : result ArrayLike :=
  train <- getattr "train" (train self) ;; Ok (samples train).

Definition _get_train_targets (self : t) : result ArrayLike :=
  train <- getattr "train" (train self) ;; Ok (label_data train).

End WithDatasets.

End TinyImageNetDataModule.

(** The three names of OOD datasets [__init__] knows. *)
Definition supported_ood_ds (name : string) : bool :=
  String.eqb name "imagenet-o" || String.eqb name "svhn"
  || String.eqb name "textures".

(** A file system where every dataset is present: a dataset is the list
    of the calls it was built from. *)
Definition load_all (c : TinyImageNetDataModule.Call)
  : result (list TinyImageNetDataModule.Call) := Ok [c].

(** ** Terms used to state the properties of the KL regulariser *)

(** The evidence with the entries of the target class (those where the
    one-hot target is 1) set to zero. *)
Definition without_target_evidence (evidence : list (list R))
  (targets : list (list Z)) : list (list R) :=
  map (fun p =>
         map (fun q => if (snd q =? 1)%Z then 0%R else fst q)
           (combine (fst p) (snd p)))
    (combine evidence targets).

(** Two nests of rows with the same number of rows and the same row
    lengths. *)
Definition same_shape {A B : Type} (m1 : list (list A))
  (m2 : list (list B)) : Prop :=
  Forall2 (fun r1 r2 => length r1 = length r2) m1 m2.

(** * Facts about the model *)

Lemma bind_Ok {A B : Type} (r : result A) (k : A -> result B) (b : B) :
  bind r k = Ok b -> exists a, r = Ok a /\ k a = Ok b.
Proof.
  destruct r as [a|e]; simpl; intros H; [now exists a | discriminate].
Qed.

Section ListFacts.
Context {A : Type}.

Lemma chunks_length (k n : nat) (l : list A) : length (chunks k n l) = n.
Proof.
  revert l; induction n as [|n IH]; intros l; simpl; [reflexivity|].
  now rewrite IH.
Qed.

Lemma chunks_rect (k n : nat) (l : list A) :
  length l = n * k -> rect k (chunks k n l).
Proof.
  revert l; induction n as [|n IH]; intros l Hl; simpl.
  - constructor.
  - constructor.
    + rewrite length_firstn. simpl in Hl. lia.
    + apply IH. rewrite length_skipn. simpl in Hl. lia.
Qed.

Lemma chunks_nth (k n : nat) (l : list A) (e b : nat) (d : A) :
  e < n -> b < k ->
  nth b (nth e (chunks k n l) []) d = nth (e * k + b) l d.
Proof.
  revert l e; induction n as [|n IH]; intros l e He Hb; [lia|].
  destruct e as [|e]; simpl.
  - rewrite <- (firstn_skipn k l) at 2.
    destruct (Nat.lt_ge_cases b (length (firstn k l))) as [Hlt|Hge].
    + now rewrite app_nth1.
    + rewrite (nth_overflow (firstn k l)) by assumption.
      rewrite nth_overflow; [reflexivity|].
      rewrite length_app, length_skipn, length_firstn.
      rewrite length_firstn in Hge. lia.
  - rewrite IH by lia.
    rewrite <- (firstn_skipn k l) at 2.
    destruct (Nat.le_gt_cases k (length l)) as [Hle|Hgt].
    + rewrite app_nth2; rewrite length_firstn, Nat.min_l by assumption;
        [|lia].
      f_equal; lia.
    + rewrite !nth_overflow; [reflexivity| |].
      * rewrite firstn_skipn. lia.
      * rewrite length_skipn. lia.
Qed.

Lemma zip_cons_length (r : list A) (cs : list (list A)) :
  length r = length cs -> length (zip_cons r cs) = length r.
Proof.
  revert cs; induction r as [|x r IH]; intros [|c cs] H; simpl in *;
    try reflexivity; try discriminate.
  f_equal; apply IH; lia.
Qed.

Lemma zip_cons_nth (r : list A) (cs : list (list A)) (j : nat) (d : A) :
  length r = length cs -> j < length r ->
  nth j (zip_cons r cs) [] = nth j r d :: nth j cs [].
Proof.
  revert cs j; induction r as [|x r IH]; intros [|c cs] j H Hj;
    simpl in *; try lia.
  destruct j as [|j]; [reflexivity|].
  apply IH; lia.
Qed.

Lemma transpose_length (w : nat) (m : list (list A)) :
  m <> [] -> rect w m -> length (transpose m) = w.
Proof.
  induction m as [|r m IH]; intros Hne Hr; [congruence|].
  inversion Hr as [|? ? Hlen Hr']; subst.
  simpl. destruct m as [|r' m'].
  - now rewrite length_map.
  - assert (Hw : length (transpose (r' :: m')) = length r)
      by (apply IH; [discriminate | assumption]).
    now rewrite zip_cons_length.
Qed.

Lemma transpose_nth (w : nat) (m : list (list A)) (j : nat) (d : A) :
  m <> [] -> rect w m -> j < w ->
  nth j (transpose m) [] = map (fun r => nth j r d) m.
Proof.
  induction m as [|r m IH]; intros Hne Hr Hj; [congruence|].
  inversion Hr as [|? ? Hlen Hr']; subst.
  simpl. destruct m as [|r' m'].
  - rewrite (nth_indep _ [] [d]) by (now rewrite length_map).
    now rewrite (map_nth (fun x : A => [x])).
  - assert (Hw : length (transpose (r' :: m')) = length r)
      by (apply transpose_length; [discriminate | assumption]).
    rewrite (zip_cons_nth _ _ d) by (auto; lia).
    f_equal. apply IH; [discriminate | assumption | assumption].
Qed.

End ListFacts.

Lemma mapM_Ok {A B : Type} (f : A -> B) (l : list A) :
  mapM (fun x => Ok (f x)) l = Ok (map f l).
Proof.
  induction l as [|x l IH]; simpl; [reflexivity|].
  now rewrite IH.
Qed.

Section RearrangeFacts.
Context {A : Type}.

Lemma rearrange_groups (n batch : nat) (rows : list (list A)) (b : nat) :
  0 < n -> length rows = n * batch -> b < batch ->
  nth b (transpose (chunks batch n rows)) [] =
  map (fun e => nth (e * batch + b) rows []) (seq 0 n).
Proof.
  intros Hn Hlen Hb.
  rewrite transpose_nth with (w := batch) (d := @nil A); try assumption.
  - apply (nth_ext _ _ [] []).
    + now rewrite !length_map, chunks_length, length_seq.
    + intros e He. rewrite length_map, chunks_length in He.
      rewrite (nth_indep _ [] ((fun r => nth b r []) []))
        by (now rewrite length_map, chunks_length).
      rewrite (map_nth (fun r : list (list A) => nth b r [])).
      set (f := fun e0 : nat => nth (e0 * batch + b) rows []).
      rewrite (nth_indep (map f (seq 0 n)) [] (f 0))
        by (now rewrite length_map, length_seq).
      rewrite (map_nth f). unfold f.
      rewrite seq_nth by assumption. simpl.
      now apply chunks_nth.
  - intros H. apply (f_equal (@length _)) in H.
    rewrite chunks_length in H. simpl in H. lia.
  - now apply chunks_rect.
Qed.

Lemma rearrange_Ok (n batch : nat) (rows : list (list A)) :
  0 < n -> length rows = n * batch ->
  rearrange n (T2 rows) = Ok (T3 (transpose (chunks batch n rows))).
Proof.
  intros Hn Hlen. unfold rearrange.
  destruct (Nat.eqb_spec n 0) as [->|_]; [lia|].
  rewrite Hlen, (Nat.mul_comm n batch), Nat.Div0.mod_mul, Nat.eqb_refl.
  now rewrite Nat.div_mul by lia.
Qed.

End RearrangeFacts.

(** ** Exceptions and reductions *)

Lemma raises_bind {A B : Type} (r : result A) (k : A -> result B) :
  (forall a, raises (k a)) -> raises (bind r k).
Proof.
  intros H. destruct r as [a|e]; simpl; [apply H | now exists e].
Qed.

Lemma raises_bind_Ok {A B : Type} (r : result A) (k : A -> result B) :
  (forall a, r = Ok a -> raises (k a)) -> raises (bind r k).
Proof.
  intros H. destruct r as [a|e]; simpl; [now apply H | now exists e].
Qed.

Lemma bind_ret {A : Type} (r : result A) : bind r (fun a => Ok a) = r.
Proof. now destruct r. Qed.

Lemma rearrange_rank {A : Type} (n : nat) (t t' : Tensor A) :
  rearrange n t = Ok t' -> exists c, t' = T3 c.
Proof.
  destruct t as [x|v|m|c]; simpl; try discriminate.
  destruct (Nat.eqb n 0); [discriminate|].
  destruct (Nat.eqb _ 0); [|discriminate].
  intros [= <-]. now eexists.
Qed.

Lemma map_fibres_T3 {A B : Type} (f : list A -> result B) (dim : Z)
  (c : list (list (list A))) (r : Tensor B) :
  map_fibres f dim (T3 c) = Ok r -> exists m, r = T2 m.
Proof.
  unfold map_fibres.
  destruct (wrap_dim (ndim (T3 c)) dim) as [d|]; simpl; [|discriminate].
  destruct d as [|[|d]];
    match goal with
    | |- bind ?x _ = _ -> _ => destruct x; simpl; [|discriminate]
    end;
    intros [= <-]; now eexists.
Qed.

Lemma map_fibres_T2 {A B : Type} (f : list A -> result B) (dim : Z)
  (m : list (list A)) (r : Tensor B) :
  map_fibres f dim (T2 m) = Ok r -> exists v, r = T1 v.
Proof.
  unfold map_fibres.
  destruct (wrap_dim (ndim (T2 m)) dim) as [d|]; simpl; [|discriminate].
  destruct d as [|d];
    match goal with
    | |- bind ?x _ = _ -> _ => destruct x; simpl; [|discriminate]
    end;
    intros [= <-]; now eexists.
Qed.

Lemma reduce_dim_no_keepdim {A : Type} (f : list A -> result A) (dim : Z)
  (t : Tensor A) :
  reduce_dim f dim false t = map_fibres f dim t.
Proof. unfold reduce_dim. apply bind_ret. Qed.

Lemma tmean_dim_1_T1 (v : list R) :
  tmean_dim 1 (T1 v) = Raise (IndexError "Dimension out of range").
Proof. reflexivity. Qed.

Lemma mapM_returns {A B : Type} (f : A -> result B) (l : list A) :
  Forall (fun x => returns (f x)) l -> returns (mapM f l).
Proof.
  induction 1 as [|x l [y Hy] _ [ys Hys]]; simpl; [now eexists|].
  rewrite Hy, Hys. simpl. now eexists.
Qed.

Lemma Rmaximum_returns (l : list R) : l <> [] -> returns (Rmaximum l).
Proof. destruct l; [congruence | intros _; simpl; now eexists]. Qed.

Lemma wrap_dim_last (rank : nat) :
  rank <= 3 -> wrap_dim rank (-1) = Ok (Nat.pred rank).
Proof.
  intros H.
  destruct rank as [|[|[|[|rank]]]]; [reflexivity .. | lia].
Qed.

Lemma map_fibres_last {A B : Type} (f : list A -> result B) (t : Tensor A) :
  map_fibres f (-1) t =
  match t with
  | T0 x => y <- f [x] ;; Ok (T0 y)
  | T1 v => y <- f v ;; Ok (T0 y)
  | T2 m => v <- mapM f m ;; Ok (T1 v)
  | T3 c => m <- mapM (mapM f) c ;; Ok (T2 m)
  end.
Proof.
  unfold map_fibres.
  rewrite wrap_dim_last by (destruct t; simpl; lia).
  now destruct t.
Qed.

Lemma rect_nonempty_rows {A : Type} (classes : nat) (m : list (list A)) :
  rect classes m -> 0 < classes -> nonempty_rows m.
Proof.
  intros Hrect Hc. unfold nonempty_rows.
  eapply Forall_impl; [|exact Hrect].
  intros r Hr ->. simpl in Hr. lia.
Qed.

Lemma nonempty_rows_map {A B : Type} (g : list A -> list B)
  (m : list (list A)) :
  (forall r, length (g r) = length r) ->
  nonempty_rows m -> nonempty_rows (map g m).
Proof.
  intros Hg Hm. unfold nonempty_rows in *.
  apply Forall_map. eapply Forall_impl; [|exact Hm].
  intros r Hr Hgr. apply Hr.
  apply (f_equal (@length _)) in Hgr. rewrite Hg in Hgr.
  now apply length_zero_iff_nil.
Qed.

Lemma tmax_last_T2 (m : list (list R)) :
  nonempty_rows m -> returns (tmax_dim (-1) (T2 m)).
Proof.
  intros Hm.
  assert (Hv : returns (mapM Rmaximum m)).
  { apply mapM_returns. eapply Forall_impl; [|exact Hm].
    intros r. apply Rmaximum_returns. }
  destruct Hv as [v Hv].
  exists (T1 v). unfold tmax_dim.
  now rewrite reduce_dim_no_keepdim, map_fibres_last, Hv.
Qed.

Lemma tmax_last_T1 (v : list R) :
  v <> [] -> returns (tmax_dim (-1) (T1 v)).
Proof.
  intros Hv. destruct (Rmaximum_returns Hv) as [x Hx].
  exists (T0 x). unfold tmax_dim.
  now rewrite reduce_dim_no_keepdim, map_fibres_last, Hx.
Qed.

Lemma tmax_last_squeeze (m : list (list R)) :
  nonempty_rows m -> returns (tmax_dim (-1) (squeeze_last (T2 m))).
Proof.
  intros Hm. unfold squeeze_last.
  destruct m as [|r m']; [now apply tmax_last_T2|].
  destruct (all_singletons (r :: m')); [|now apply tmax_last_T2].
  apply tmax_last_T1.
  inversion Hm as [|? ? Hr _]; subst.
  destruct r; [congruence | discriminate].
Qed.

Lemma tsum_last_returns (t : Tensor R) : returns (tsum_dim (-1) false t).
Proof.
  unfold tsum_dim. rewrite reduce_dim_no_keepdim, map_fibres_last.
  destruct t as [x|v|m|c]; simpl.
  - now eexists.
  - now eexists.
  - rewrite (mapM_Ok Rsum). simpl. now eexists.
  - assert (H : mapM (mapM (fun l : list R => Ok (Rsum l))) c =
                Ok (map (map Rsum) c)).
    { induction c as [|g c IH]; simpl; [reflexivity|].
      now rewrite (mapM_Ok Rsum), IH. }
    rewrite H. simpl. now eexists.
Qed.

Lemma softmax_row_length (r : list R) :
  length (softmax_row r) = length r.
Proof. unfold softmax_row. apply length_map. Qed.

(** * Properties of the losses and the routines *)

(** ** The ensemble reshape *)

Lemma nth_map_seq {B : Type} (f : nat -> B) (n e : nat) (d : B) :
  e < n -> nth e (map f (seq 0 n)) d = f e.
Proof.
  intros He.
  rewrite (nth_indep _ d (f 0)) by (now rewrite length_map, length_seq).
  rewrite (map_nth f), seq_nth by assumption.
  reflexivity.
Qed.

Lemma rearranged_has_shape {A : Type} (n batch classes : nat)
  (rows : list (list A)) :
  0 < n -> length rows = n * batch -> rect classes rows ->
  has_shape (T3 (transpose (chunks batch n rows))) [batch; n; classes].
Proof.
  intros Hn Hlen Hrect.
  assert (Hne : chunks batch n rows <> []).
  { intros H. apply (f_equal (@length _)) in H.
    rewrite chunks_length in H. simpl in H. lia. }
  assert (Hl : length (transpose (chunks batch n rows)) = batch)
    by (apply transpose_length; [assumption | now apply chunks_rect]).
  split; [assumption|].
  apply Forall_forall. intros g Hg.
  destruct (In_nth _ _ [] Hg) as [b [Hb Hgb]].
  rewrite Hl in Hb.
  rewrite rearrange_groups in Hgb by assumption.
  subst g. split.
  - now rewrite length_map, length_seq.
  - apply Forall_forall. intros r Hr.
    apply in_map_iff in Hr. destruct Hr as [e [<- He]].
    apply in_seq in He.
    unfold rect in Hrect. rewrite Forall_forall in Hrect.
    apply Hrect, nth_In. nia.
Qed.

(** C4.  With [num_estimators = n], the validation and test steps of the
    ensemble routine apply [rearrange n] to the stacked logits.  On a stacked
    tensor of shape [[n * batch; classes]] it returns a tensor of shape
    [[batch; n; classes]] whose entry [[b, e, c]] is the entry of row
    [e * batch + b] and column [c] of the stacked tensor: the estimator
    index varies slowest. *)
Theorem ensemble_reshape_index (Input CalSet : Type)
  (self : ClassificationEnsemble.t Input CalSet) (batch classes : nat)
  (rows : list (list R)) :
  let n := ClassificationEnsemble.num_estimators self in
  0 < n -> length rows = n * batch -> rect classes rows ->
  exists t,
    rearrange n (T2 rows) = Ok (T3 t) /\
    has_shape (T3 t) [batch; n; classes] /\
    forall b e c, b < batch -> e < n -> c < classes ->
      nth c (nth e (nth b t []) []) 0%R =
      nth c (nth (e * batch + b) rows []) 0%R.
Proof.
  intros n Hn Hlen Hrect.
  exists (transpose (chunks batch n rows)).
  split; [now apply rearrange_Ok|].
  split; [now apply rearranged_has_shape|].
  intros b e c Hb He Hc.
  rewrite rearrange_groups by assumption.
  now rewrite nth_map_seq.
Qed.

Lemma transpose_chunks {A : Type} (n batch : nat) (rows : list (list A)) :
  0 < n -> length rows = n * batch ->
  transpose (chunks batch n rows) =
  map (fun b => map (fun e => nth (e * batch + b) rows []) (seq 0 n))
    (seq 0 batch).
Proof.
  intros Hn Hlen.
  assert (Hne : chunks batch n rows <> []).
  { intros H. apply (f_equal (@length _)) in H.
    rewrite chunks_length in H. simpl in H. lia. }
  assert (Hl : length (transpose (chunks batch n rows)) = batch)
    by (apply transpose_length; [assumption | now apply chunks_rect]).
  apply (nth_ext _ _ [] []).
  - now rewrite length_map, length_seq.
  - intros b Hb. rewrite Hl in Hb.
    rewrite rearrange_groups by assumption.
    now rewrite (nth_map_seq
                   (fun b => map (fun e => nth (e * batch + b) rows [])
                               (seq 0 n))).
Qed.

Lemma tmean_dim_1_T3 (c : list (list (list R))) :
  tmean_dim 1 (T3 c) = Ok (T2 (map (fun g => map Rmean (transpose g)) c)).
Proof.
  unfold tmean_dim. rewrite reduce_dim_no_keepdim.
  unfold map_fibres.
  change (wrap_dim (ndim (T3 c)) 1) with (Ok 1 : result nat).
  cbn [bind].
  assert (H : mapM (fun g => mapM (fun l : list R => Ok (Rmean l))
                               (transpose g)) c
              = Ok (map (fun g => map Rmean (transpose g)) c)).
  { induction c as [|g c IH]; simpl; [reflexivity|].
    now rewrite (mapM_Ok Rmean), IH. }
  now rewrite H.
Qed.

Lemma ensemble_probs_of_reshaped (n batch : nat) (rows : list (list R)) :
  0 < n -> length rows = n * batch ->
  tmean_dim 1 (softmax_last (T3 (transpose (chunks batch n rows)))) =
  Ok (T2 (ensemble_probs n batch rows)).
Proof.
  intros Hn Hlen. simpl. rewrite tmean_dim_1_T3.
  rewrite transpose_chunks by assumption.
  unfold ensemble_probs. rewrite !map_map.
  do 2 f_equal. apply map_ext. intros b. now rewrite map_map.
Qed.

(** The steps on the reshaped tensor: the probabilities the validation
    step adds to the validation pool are the averages over the estimators of
    the softmax of the rows [e * batch + b]. *)
Lemma validation_step_averages_estimators (Input CalSet : Type)
  (self : ClassificationEnsemble.t Input CalSet) (inputs : Input)
  (targets : Tensor Z) (batch_idx batch : nat) (rows : list (list R)) :
  let s := ClassificationEnsemble.super self in
  let n := ClassificationEnsemble.num_estimators self in
  ClassificationSingle.binary_cls (ClassificationSingle.attrs s) = false ->
  ClassificationSingle.forward s inputs = Ok (T2 rows) ->
  0 < n -> length rows = n * batch ->
  exists self',
    ClassificationEnsemble.validation_step self (inputs, targets) batch_idx
    = Ok self' /\
    ClassificationSingle.val_cls_metrics
      (ClassificationSingle.pools (ClassificationEnsemble.super self'))
    = update
        (ClassificationSingle.val_cls_metrics (ClassificationSingle.pools s))
        (T2 (ensemble_probs n batch rows)) (Some targets).
Proof.
  intros s n Hbin Hfwd Hn Hlen.
  unfold ClassificationEnsemble.validation_step.
  fold s. rewrite Hfwd. cbn [bind].
  fold n. rewrite (@rearrange_Ok _ n batch rows Hn Hlen). cbn [bind].
  rewrite Hbin, (@ensemble_probs_of_reshaped n batch rows Hn Hlen).
  cbn [bind].
  eexists. split; reflexivity.
Qed.

Lemma ensemble_probs_nonempty (n batch classes : nat)
  (rows : list (list R)) :
  0 < n -> length rows = n * batch -> rect classes rows -> 0 < classes ->
  nonempty_rows (ensemble_probs n batch rows).
Proof.
  intros Hn Hlen Hrect Hc. unfold nonempty_rows, ensemble_probs.
  apply Forall_forall. intros r Hr.
  apply in_map_iff in Hr. destruct Hr as [b [<- Hb]].
  apply in_seq in Hb.
  intros Hnil. apply (f_equal (@length _)) in Hnil.
  rewrite length_map, (transpose_length (w := classes)) in Hnil.
  - simpl in Hnil. lia.
  - intros H. apply (f_equal (@length _)) in H.
    rewrite length_map, length_seq in H. simpl in H. lia.
  - apply Forall_forall. intros x Hx.
    apply in_map_iff in Hx. destruct Hx as [e [<- He]].
    apply in_seq in He. rewrite softmax_row_length.
    unfold rect in Hrect. rewrite Forall_forall in Hrect.
    apply Hrect, nth_In. nia.
Qed.

(** The test step, with the default criterion, on a batch of the
    in-distribution dataloader: the classification pool receives the same
    averages and the ensemble pool the per-estimator probabilities. *)
Lemma test_step_averages_estimators (Input CalSet : Type)
  (MutualInformation VariationRatio : Tensor R -> RT)
  (self : ClassificationEnsemble.t Input CalSet) (inputs : Input)
  (targets : Tensor Z) (batch_idx batch classes : nat)
  (rows : list (list R)) :
  let s := ClassificationEnsemble.super self in
  let a := ClassificationSingle.attrs s in
  let n := ClassificationEnsemble.num_estimators self in
  consistent s ->
  ClassificationSingle.binary_cls a = false ->
  ClassificationSingle.use_logits a = false ->
  ClassificationSingle.use_entropy a = false ->
  ClassificationEnsemble.use_mi self = false ->
  ClassificationEnsemble.use_variation_ratio self = false ->
  ClassificationSingle.forward s inputs = Ok (T2 rows) ->
  0 < n -> length rows = n * batch -> rect classes rows -> 0 < classes ->
  exists self',
    ClassificationEnsemble.test_step MutualInformation VariationRatio self
      (inputs, targets) batch_idx (Some 0%Z) = Ok self' /\
    ClassificationSingle.test_cls_metrics
      (ClassificationSingle.pools (ClassificationEnsemble.super self'))
    = update
        (ClassificationSingle.test_cls_metrics
           (ClassificationSingle.pools s))
        (T2 (ensemble_probs n batch rows)) (Some targets) /\
    ClassificationEnsemble.test_id_ens_metrics self'
    = update (ClassificationEnsemble.test_id_ens_metrics self)
        (softmax_last (T3 (transpose (chunks batch n rows)))) None.
Proof.
  intros s a n [Hood _] Hbin Hlogits Hentropy Hmi Hvr Hfwd Hn Hlen Hrect Hc.
  unfold ClassificationEnsemble.test_step.
  fold s. fold a. rewrite Hfwd. cbn [bind].
  fold n. rewrite (@rearrange_Ok _ n batch rows Hn Hlen). cbn [bind].
  rewrite Hbin, Hlogits, Hentropy, Hmi, Hvr.
  rewrite (@ensemble_probs_of_reshaped n batch rows Hn Hlen). cbn [bind].
  destruct (tmax_last_T2
              (@ensemble_probs_nonempty n batch classes rows Hn Hlen Hrect
                 Hc)) as [confs ->].
  cbn [bind]. simpl ClassificationSingle.idx_is. cbv iota.
  destruct (ClassificationSingle.ood_detection a) eqn:Hd.
  - destruct (Hood Hd) as [Hm _]. fold s in Hm.
    destruct (ClassificationSingle.test_ood_metrics
                (ClassificationSingle.pools s)) as [m|] eqn:Heq;
      [|congruence].
    simpl. rewrite Heq. simpl.
    eexists. repeat split.
  - simpl. eexists. repeat split.
Qed.

Lemma ensemble_reshape_index_witness :
  exists t,
    rearrange 3 (T2 (Example.stacked 12 5)) = Ok (T3 t) /\
    has_shape (T3 t) [4; 3; 5] /\
    forall b e c, b < 4 -> e < 3 -> c < 5 ->
      nth c (nth e (nth b t []) []) 0%R =
      nth c (nth (e * 4 + b) (Example.stacked 12 5) []) 0%R.
Proof.
  apply (ensemble_reshape_index
           (Example.ensemble 3 false false false false) 4 (classes := 5)).
  - simpl. lia.
  - reflexivity.
  - unfold Example.stacked. simpl. repeat constructor.
Defined.

(** ** Construction of the routines *)

Lemma Rltb_irrefl (x : R) : Rltb x x = false.
Proof.
  unfold Rltb. destruct (Rlt_dec x x) as [H|H]; [|reflexivity].
  exfalso. exact (Rlt_irrefl x H).
Qed.

Lemma Rltb_true (x y : R) : (x < y)%R -> Rltb x y = true.
Proof. intros H. unfold Rltb. now destruct (Rlt_dec x y). Qed.

Lemma Rltb_false (x y : R) : (y <= x)%R -> Rltb x y = false.
Proof.
  intros H. unfold Rltb. destruct (Rlt_dec x y); [lra | reflexivity].
Qed.

Lemma ERR_ALPHA_neq_ERR_OOD_CRITERION :
  ClassificationSingle.ERR_ALPHA <> ClassificationSingle.ERR_OOD_CRITERION.
Proof. discriminate. Qed.

Section Construction.
Variables Input CalSet : Type.

Lemma single_init_cases (a : ClassificationSingle.Args Input CalSet) :
  if Nat.ltb 1 (single_criteria a)
  then ClassificationSingle.__init__ a =
       Raise (ValueError ClassificationSingle.ERR_OOD_CRITERION)
  else ClassificationSingle.__init__ a =
       Raise (ValueError ClassificationSingle.ERR_ALPHA) \/
       exists self,
         ClassificationSingle.__init__ a = Ok self /\
         ClassificationSingle.use_logits (ClassificationSingle.attrs self) =
         ClassificationSingle.a_use_logits a /\
         ClassificationSingle.use_entropy (ClassificationSingle.attrs self) =
         ClassificationSingle.a_use_entropy a.
Proof.
  unfold ClassificationSingle.__init__, single_criteria.
  destruct (Nat.ltb 1 _); [reflexivity|].
  destruct (_ || _); [now left | right].
  eexists; repeat split.
Qed.

Lemma ensemble_init_cases (e : ClassificationEnsemble.Args Input CalSet) :
  ClassificationEnsemble.__init__ e =
  Raise (ValueError ClassificationSingle.ERR_ALPHA) /\
  ClassificationSingle.__init__ (ClassificationEnsemble.a_super e) =
  Raise (ValueError ClassificationSingle.ERR_ALPHA) \/
  if Nat.ltb 1 (ensemble_criteria e)
  then ClassificationEnsemble.__init__ e =
       Raise (ValueError ClassificationSingle.ERR_OOD_CRITERION)
  else exists self, ClassificationEnsemble.__init__ e = Ok self.
Proof.
  pose proof (single_init_cases (ClassificationEnsemble.a_super e)) as He.
  unfold ClassificationEnsemble.__init__, ensemble_criteria.
  destruct (Nat.ltb 1 (single_criteria (ClassificationEnsemble.a_super e)))
    eqn:Hs.
  - right. apply Nat.ltb_lt in Hs.
    destruct (Nat.ltb_spec 1
                (single_criteria (ClassificationEnsemble.a_super e)
                 + Nat.b2n (ClassificationEnsemble.a_use_mi e)
                 + Nat.b2n (ClassificationEnsemble.a_use_variation_ratio e)));
      [now rewrite He | lia].
  - destruct He as [Hr | [self [Hk [Hl Hn]]]].
    + left. now rewrite Hr.
    + right.
      destruct (Nat.ltb 1 (_ + _ + _)) eqn:Hc; [|eexists]; rewrite Hk; simpl;
        rewrite Hl, Hn;
        fold (single_criteria (ClassificationEnsemble.a_super e));
        rewrite Hc; reflexivity.
Qed.

(** C2.  The single-model routine built with both [use_logits] and
    [use_entropy] raises the configuration error "You cannot choose more
    than one OOD criterion."; the ensemble routine built with two or more of
    its four criteria raises a configuration error, which is that same
    error whenever construction gets past the checks of the base class.
    With at most one criterion selected, neither constructor raises that
    error. *)
Theorem ood_criterion_exclusivity
  (a : ClassificationSingle.Args Input CalSet)
  (e : ClassificationEnsemble.Args Input CalSet) :
  (2 <= single_criteria a ->
   ClassificationSingle.__init__ a =
   Raise (ValueError ClassificationSingle.ERR_OOD_CRITERION)) /\
  (single_criteria a <= 1 ->
   ClassificationSingle.__init__ a <>
   Raise (ValueError ClassificationSingle.ERR_OOD_CRITERION)) /\
  (2 <= ensemble_criteria e ->
   ClassificationEnsemble.__init__ e =
   Raise (ValueError ClassificationSingle.ERR_OOD_CRITERION) \/
   ClassificationEnsemble.__init__ e =
   Raise (ValueError ClassificationSingle.ERR_ALPHA) /\
   ClassificationSingle.__init__ (ClassificationEnsemble.a_super e) =
   Raise (ValueError ClassificationSingle.ERR_ALPHA)) /\
  (ensemble_criteria e <= 1 ->
   ClassificationEnsemble.__init__ e <>
   Raise (ValueError ClassificationSingle.ERR_OOD_CRITERION)).
Proof.
  pose proof (single_init_cases a) as Ha.
  pose proof (ensemble_init_cases e) as He.
  pose proof ERR_ALPHA_neq_ERR_OOD_CRITERION as Hneq.
  repeat split.
  - intros H. apply Nat.ltb_lt in H. now rewrite H in Ha.
  - intros H. apply Nat.ltb_ge in H. rewrite H in Ha.
    destruct Ha as [-> | [self [-> _]]]; congruence.
  - intros H. apply Nat.ltb_lt in H. rewrite H in He.
    destruct He as [He | He]; [now right | now left].
  - intros H. apply Nat.ltb_ge in H. rewrite H in He.
    destruct He as [[-> _] | [self ->]]; congruence.
Qed.

End Construction.

(** The example routines are the objects the constructors build. *)
Lemma example_routine_init (mixtype : string)
  (ood_detection use_entropy use_logits : bool)
  (calibration_set : option Example.CalSet) :
  Nat.b2n use_logits + Nat.b2n use_entropy <= 1 ->
  ClassificationSingle.__init__
    (Example.args mixtype ood_detection use_entropy use_logits
       calibration_set)
  = Ok (Example.routine mixtype ood_detection use_entropy use_logits
          calibration_set).
Proof.
  intros H. unfold ClassificationSingle.__init__.
  apply Nat.ltb_ge in H. simpl. rewrite H, Rltb_irrefl. reflexivity.
Qed.

Lemma example_ensemble_init (num_estimators : nat)
  (use_entropy use_logits use_mi use_variation_ratio : bool) :
  Nat.b2n use_logits + Nat.b2n use_entropy + Nat.b2n use_mi
  + Nat.b2n use_variation_ratio <= 1 ->
  ClassificationEnsemble.__init__
    (Example.ensemble_args num_estimators use_entropy use_logits use_mi
       use_variation_ratio)
  = Ok (Example.ensemble num_estimators use_entropy use_logits use_mi
          use_variation_ratio).
Proof.
  intros H. unfold ClassificationEnsemble.__init__.
  cbn [ClassificationEnsemble.a_super Example.ensemble_args].
  rewrite example_routine_init by lia.
  cbn [bind]. apply Nat.ltb_ge in H. simpl. rewrite H. reflexivity.
Qed.

Lemma ood_criterion_exclusivity_witness :
  let both := Example.args "erm" false true true None in
  let none := Example.args "erm" false false false None in
  let two := Example.ensemble_args 3 false false true true in
  let one := Example.ensemble_args 3 false false true false in
  ClassificationSingle.__init__ both =
  Raise (ValueError ClassificationSingle.ERR_OOD_CRITERION) /\
  ClassificationSingle.__init__ none <>
  Raise (ValueError ClassificationSingle.ERR_OOD_CRITERION) /\
  (ClassificationEnsemble.__init__ two =
   Raise (ValueError ClassificationSingle.ERR_OOD_CRITERION) \/
   ClassificationEnsemble.__init__ two =
   Raise (ValueError ClassificationSingle.ERR_ALPHA) /\
   ClassificationSingle.__init__ (ClassificationEnsemble.a_super two) =
   Raise (ValueError ClassificationSingle.ERR_ALPHA)) /\
  ClassificationEnsemble.__init__ one <>
  Raise (ValueError ClassificationSingle.ERR_OOD_CRITERION).
Proof.
  intros both none two one.
  destruct (ood_criterion_exclusivity both two) as [H1 [_ [H3 _]]].
  destruct (ood_criterion_exclusivity none one) as [_ [H2 [_ H4]]].
  split; [apply H1; cbv; lia|].
  split; [apply H2; cbv; lia|].
  split; [apply H3; cbv; lia|].
  apply H4; cbv; lia.
Defined.

Section MixingPolicy.
Variables Input CalSet : Type.
Variable transforms :
  ClassificationSingle.Mixer -> Input -> Target ->
  option (Input + Tensor R) -> result (Input * Target).

Lemma select_mixup_unsupported (a : ClassificationSingle.Args Input CalSet) :
  supported_mixtype (ClassificationSingle.a_mixtype a) = false ->
  ClassificationSingle.select_mixup a = None /\
  String.eqb (ClassificationSingle.a_mixtype a) "kernel_warping" = false.
Proof.
  unfold supported_mixtype, ClassificationSingle.select_mixup.
  intros H.
  repeat (apply orb_false_elim in H; destruct H as [H ?]).
  repeat match goal with
         | Hx : String.eqb _ _ = false |- _ => rewrite Hx; clear Hx
         end.
  split; reflexivity.
Qed.

(** C8, on the code: a mixing-policy name outside the six supported ones
    is accepted by [__init__], which leaves [self.mixup] unassigned; the
    error only shows when a training step reads that attribute.  Every
    training step of the routine so built raises [AttributeError]. *)
Theorem unsupported_mixtype_fails_in_training_step
  (a : ClassificationSingle.Args Input CalSet) :
  supported_mixtype (ClassificationSingle.a_mixtype a) = false ->
  single_criteria a <= 1 ->
  (0 <= ClassificationSingle.a_mixup_alpha a)%R ->
  (0 <= ClassificationSingle.a_cutmix_alpha a)%R ->
  exists self,
    ClassificationSingle.__init__ a = Ok self /\
    forall batch batch_idx,
      ClassificationSingle.training_step transforms self batch batch_idx =
      Raise (AttributeError "mixup").
Proof.
  intros Hmix Hcrit Hma Hca.
  destruct (select_mixup_unsupported a Hmix) as [Hsel Hkw].
  unfold ClassificationSingle.__init__.
  fold (single_criteria a).
  apply Nat.ltb_ge in Hcrit. rewrite Hcrit.
  rewrite (Rltb_false Hma), (Rltb_false Hca). simpl.
  eexists. split; [reflexivity|].
  intros batch batch_idx.
  unfold ClassificationSingle.training_step. simpl.
  now rewrite Hkw, Hsel.
Qed.

End MixingPolicy.

Lemma unsupported_mixtype_fails_in_training_step_witness :
  exists self,
    ClassificationSingle.__init__
      (Example.args "cutmix" false false false None) = Ok self /\
    forall batch batch_idx,
      ClassificationSingle.training_step Example.transforms self batch
        batch_idx = Raise (AttributeError "mixup").
Proof.
  apply (unsupported_mixtype_fails_in_training_step Example.transforms
           (Example.args "cutmix" false false false None)).
  - reflexivity.
  - cbv. lia.
  - unfold Example.args; simpl. lra.
  - unfold Example.args; simpl. lra.
Defined.

(** ** The evidential classification loss *)

Section DECLossFacts.
Variables lgamma digamma : R -> R.

Lemma DECLoss_init_Ok (s : option Z) (w : option R) (lt : string)
  (red : option string) (self : DECLoss.t) :
  DECLoss.__init__ s w lt red = Ok self ->
  DECLoss.annealing_step self = s /\
  DECLoss.reg_weight self = w /\
  DECLoss.loss_type self = lt /\
  (String.eqb lt "mse" || String.eqb lt "log" || String.eqb lt "digamma"
   = true) /\
  (forall st, s = Some st -> (0 < st)%Z) /\
  (forall rw, w = Some rw -> (0 <= rw)%R).
Proof.
  unfold DECLoss.__init__.
  destruct (match w with Some w0 => Rltb w0 0 | None => false end) eqn:Hw;
    [discriminate|].
  destruct (match s with Some s0 => (s0 <=? 0)%Z | None => false end) eqn:Hs;
    [discriminate|].
  destruct (negb (valid_reduction red)); [discriminate|].
  destruct (String.eqb lt "mse" || String.eqb lt "log"
            || String.eqb lt "digamma") eqn:Hlt; [|discriminate].
  simpl. intros [= <-]. simpl.
  repeat split.
  - intros st ->. apply Z.leb_gt in Hs. exact Hs.
  - intros rw ->. unfold Rltb in Hw.
    destruct (Rlt_dec rw 0); [discriminate | lra].
Qed.

Lemma forward_weighted (self : DECLoss.t) (current_epoch : option Z)
  (coef : R) :
  (String.eqb (DECLoss.loss_type self) "mse"
   || String.eqb (DECLoss.loss_type self) "log"
   || String.eqb (DECLoss.loss_type self) "digamma" = true) ->
  (DECLoss.annealing_step self = None \/ current_epoch <> None) ->
  DECLoss.annealing_coef self current_epoch = Ok (T0 coef) ->
  forall evidence targets,
    DECLoss.forward lgamma digamma self evidence targets current_epoch =
    weighted_loss lgamma digamma self evidence targets coef.
Proof.
  intros Hlt Hguard Hcoef evidence targets.
  unfold DECLoss.forward, weighted_loss.
  assert (Hg : py_and (Ok (negb (is_None (DECLoss.annealing_step self))))
                 (py_and (gt0_Z (DECLoss.annealing_step self))
                    (Ok (is_None current_epoch))) = Ok false).
  { destruct (DECLoss.annealing_step self) as [st|] eqn:Hs; simpl;
      [|reflexivity].
    destruct Hguard as [Hn|Hn]; [discriminate|].
    destruct (0 <? st)%Z; [|reflexivity].
    destruct current_epoch; [reflexivity | congruence]. }
  rewrite Hg. cbn [bind].
  destruct (size_last evidence) as [nc|]; [cbn [bind] | reflexivity].
  destruct (one_hot targets nc) as [oh|]; [cbn [bind] | reflexivity].
  rewrite Hcoef.
  destruct (String.eqb (DECLoss.loss_type self) "mse").
  { destruct (DECLoss._mse_loss evidence oh); reflexivity. }
  destruct (String.eqb (DECLoss.loss_type self) "log").
  { destruct (DECLoss._log_loss evidence oh); reflexivity. }
  destruct (String.eqb (DECLoss.loss_type self) "digamma").
  { destruct (DECLoss._digamma_loss digamma evidence oh); reflexivity. }
  discriminate.
Qed.

(** C3.  For a loss object built by [__init__], the coefficient [forward]
    applies to the KL regularisation term is: 0 when neither [reg_weight]
    nor [annealing_step] was given; [min(1, current_epoch / annealing_step)]
    when only [annealing_step] was given and [current_epoch > 0]; the
    constant [reg_weight] when only [reg_weight] was given and is positive;
    and [min(1, current_epoch / annealing_step)], whatever [reg_weight],
    when both were given. *)
Theorem annealing_coefficient_cases (annealing_step : option Z)
  (reg_weight : option R) (loss_type : string) (reduction : option string)
  (self : DECLoss.t) :
  DECLoss.__init__ annealing_step reg_weight loss_type reduction = Ok self ->
  (annealing_step = None -> reg_weight = None ->
   forall current_epoch,
     applies_coef lgamma digamma self current_epoch 0%R) /\
  (forall st ep, annealing_step = Some st -> reg_weight = None ->
     (0 < ep)%Z ->
     applies_coef lgamma digamma self (Some ep)
       (Rmin 1 (IZR ep / IZR st))) /\
  (forall rw, annealing_step = None -> reg_weight = Some rw -> (0 < rw)%R ->
   forall current_epoch,
     applies_coef lgamma digamma self current_epoch rw) /\
  (forall st rw ep, annealing_step = Some st -> reg_weight = Some rw ->
     applies_coef lgamma digamma self (Some ep)
       (Rmin 1 (IZR ep / IZR st))).
Proof.
  intros Hinit.
  destruct (DECLoss_init_Ok _ _ _ _ Hinit)
    as [Hs [Hw [Hlt [Hvalid [Hpos Hnonneg]]]]].
  rewrite <- Hlt in Hvalid.
  assert (Hann : forall st ep, annealing_step = Some st ->
             (reg_weight = None -> (0 < ep)%Z) ->
             DECLoss.annealing_coef self (Some ep) =
             Ok (T0 (Rmin 1 (IZR ep / IZR st)))).
  { intros st ep Hst Hep. unfold DECLoss.annealing_coef.
    rewrite Hs, Hw, Hst.
    pose proof (Hpos st Hst) as Hst0.
    assert (Hq : py_div (Some ep) (Some st) = Ok (IZR ep / IZR st)%R).
    { simpl. destruct (Z.eqb_spec st 0); [lia | reflexivity]. }
    rewrite Hq.
    destruct reg_weight as [rw|]; simpl.
    - reflexivity.
    - apply Z.ltb_lt in Hst0. rewrite Hst0.
      specialize (Hep eq_refl). apply Z.ltb_lt in Hep. now rewrite Hep. }
  split; [|split; [|split]].
  - intros Hst Hrw current_epoch. split.
    + unfold DECLoss.annealing_coef. now rewrite Hs, Hw, Hst, Hrw.
    + apply forward_weighted; [assumption | left; congruence |].
      unfold DECLoss.annealing_coef. now rewrite Hs, Hw, Hst, Hrw.
  - intros st ep Hst Hrw Hep. split.
    + now apply Hann.
    + apply forward_weighted; [assumption | right; discriminate |].
      now apply Hann.
  - intros rw Hst Hrw Hpos_rw current_epoch.
    assert (Hc : DECLoss.annealing_coef self current_epoch = Ok (T0 rw)).
    { unfold DECLoss.annealing_coef. rewrite Hs, Hw, Hst, Hrw. simpl.
      now rewrite (Rltb_true Hpos_rw). }
    split; [exact Hc|].
    apply forward_weighted; [assumption | left; congruence | exact Hc].
  - intros st rw ep Hst Hrw.
    assert (Hc : DECLoss.annealing_coef self (Some ep) =
                 Ok (T0 (Rmin 1 (IZR ep / IZR st)))).
    { apply Hann; [assumption | congruence]. }
    split; [exact Hc|].
    apply forward_weighted; [assumption | right; discriminate | exact Hc].
Qed.

(** C10.  [__init__] accepts [reg_weight = 0] without [annealing_step],
    and every [forward] call of the loss so built raises, whether or not
    [current_epoch] is supplied: the selection of the coefficient falls
    through to the branch dividing by the absent annealing step, which is a
    [TypeError].  No call returns a loss. *)
Theorem zero_reg_weight_always_raises (loss_type : string)
  (reduction : option string) :
  valid_reduction reduction = true ->
  (String.eqb loss_type "mse" || String.eqb loss_type "log"
   || String.eqb loss_type "digamma" = true) ->
  exists self,
    DECLoss.__init__ None (Some 0%R) loss_type reduction = Ok self /\
    forall current_epoch,
      DECLoss.annealing_coef self current_epoch =
      Raise (TypeError "unsupported operand type(s) for /") /\
      forall evidence targets,
        raises (DECLoss.forward lgamma digamma self evidence targets
                  current_epoch).
Proof.
  intros Hred Hlt.
  unfold DECLoss.__init__. rewrite Rltb_irrefl, Hred, Hlt. simpl.
  eexists. split; [reflexivity|].
  intros current_epoch.
  assert (Hcoef :
            DECLoss.annealing_coef
              {| DECLoss.annealing_step := None;
                 DECLoss.reg_weight := Some 0%R;
                 DECLoss.loss_type := loss_type;
                 DECLoss.reduction := reduction |} current_epoch =
            Raise (TypeError "unsupported operand type(s) for /")).
  { unfold DECLoss.annealing_coef. simpl. rewrite Rltb_irrefl. simpl.
    now destruct current_epoch. }
  split; [exact Hcoef|].
  intros evidence targets.
  unfold DECLoss.forward. simpl.
  apply raises_bind. intros nc.
  apply raises_bind. intros oh.
  apply raises_bind. intros fit.
  rewrite Hcoef. simpl. now eexists.
Qed.

End DECLossFacts.

Lemma DECLoss_init_example (s : option Z) (w : option R) :
  match s with Some st => (0 < st)%Z | None => True end ->
  match w with Some rw => (0 <= rw)%R | None => True end ->
  DECLoss.__init__ s w "log" (Some "mean"%string) = Ok (Example.dec_loss s w).
Proof.
  intros Hs Hw. unfold DECLoss.__init__.
  destruct w as [rw|]; [rewrite (Rltb_false Hw)|];
    (destruct s as [st|];
     [apply Z.leb_gt in Hs; rewrite Hs; reflexivity | reflexivity]).
Qed.

Lemma annealing_coefficient_cases_witness :
  let applies := applies_coef Example.special Example.special in
  (forall current_epoch,
     applies (Example.dec_loss None None) current_epoch 0%R) /\
  applies (Example.dec_loss (Some 10%Z) None) (Some 3%Z)
    (Rmin 1 (IZR 3 / IZR 10)) /\
  (forall current_epoch,
     applies (Example.dec_loss None (Some (1 / 2)%R)) current_epoch
       (1 / 2)%R) /\
  applies (Example.dec_loss (Some 10%Z) (Some (1 / 2)%R)) (Some 3%Z)
    (Rmin 1 (IZR 3 / IZR 10)).
Proof.
  intros applies.
  pose (thm := fun s w H =>
          @annealing_coefficient_cases Example.special Example.special
            s w "log" (Some "mean"%string) (Example.dec_loss s w) H).
  split; [|split; [|split]].
  - destruct (thm None None) as [H _];
      [now apply DECLoss_init_example | now apply H].
  - destruct (thm (Some 10%Z) None) as [_ [H _]];
      [apply DECLoss_init_example; simpl; [lia | exact I]|].
    apply H; [reflexivity | reflexivity | lia].
  - destruct (thm None (Some (1 / 2)%R)) as [_ [_ [H _]]];
      [apply DECLoss_init_example; simpl; [exact I | lra]|].
    apply H; [reflexivity | reflexivity | lra].
  - destruct (thm (Some 10%Z) (Some (1 / 2)%R)) as [_ [_ [_ H]]];
      [apply DECLoss_init_example; simpl; [lia | lra]|].
    apply (H 10%Z (1 / 2)%R 3%Z); reflexivity.
Defined.

Lemma zero_reg_weight_always_raises_witness :
  exists self,
    DECLoss.__init__ None (Some 0%R) "log" (Some "mean"%string) = Ok self /\
    forall current_epoch,
      DECLoss.annealing_coef self current_epoch =
      Raise (TypeError "unsupported operand type(s) for /") /\
      forall evidence targets,
        raises (DECLoss.forward Example.special Example.special self
                  evidence targets current_epoch).
Proof.
  apply (zero_reg_weight_always_raises Example.special Example.special
           "log" (Some "mean"%string)); reflexivity.
Defined.

(** ** The Normal Inverse-Gamma loss *)

(** C7.  On every input, [NIGLoss.forward] with [reduction='sum'] returns
    the sum of the entries of what it returns with [reduction='none'], and
    with [reduction='mean'] their mean (and it raises in the three modes
    alike when the input shapes do not broadcast). *)
Theorem nig_reduction_consistency (lgamma : R -> R) (reg_weight : R)
  (gamma v alpha beta targets : Tensor R) :
  let forward reduction :=
    NIGLoss.forward lgamma
      {| NIGLoss.reg_weight := reg_weight;
         NIGLoss.reduction := Some reduction |}
      gamma v alpha beta targets in
  forward "sum"%string = (loss <- forward "none"%string ;; Ok (tsum loss)) /\
  forward "mean"%string = (loss <- forward "none"%string ;; Ok (tmean loss)).
Proof.
  intros forward. unfold forward, NIGLoss.forward. simpl.
  destruct (NIGLoss._nig_nll lgamma gamma v alpha beta targets) as [nll|];
    [simpl | now split].
  destruct (NIGLoss._nig_reg gamma v alpha targets) as [reg|];
    [simpl | now split].
  destruct (tmap2 Rplus nll _) as [loss|]; [simpl | now split].
  now split.
Qed.

(** ** The ELBO loss *)

Section ELBOFacts.
Variables W Input Target : Type.
Variable self : ELBOLoss.t W Input Target.
Variable inputs : Input.
Variable targets : Target.

Lemma Rsum_repeat (x : R) (n : nat) :
  Rsum (repeat x n) = (INR n * x)%R.
Proof.
  induction n as [|n IH]; [simpl; lra|].
  change (Rsum (repeat x (S n))) with (x + Rsum (repeat x n))%R.
  rewrite IH, S_INR. lra.
Qed.

Lemma loop_draws (n : nat) (aggregated_elbo : R) (w : W) :
  ELBOLoss.loop self inputs targets n aggregated_elbo w =
  ('(xs, w') <- ELBOLoss.draws self inputs targets n w ;;
   Ok ((aggregated_elbo + Rsum xs)%R, w')).
Proof.
  revert aggregated_elbo w.
  induction n as [|n IH]; intros agg w; simpl.
  - f_equal. f_equal. lra.
  - unfold ELBOLoss.draw.
    destruct (ELBOLoss.call (ELBOLoss.model self) inputs w)
      as [[logits w1]|]; simpl; [|reflexivity].
    destruct (ELBOLoss.criterion self logits targets) as [c|]; simpl;
      [|reflexivity].
    rewrite IH.
    destruct (ELBOLoss.draws self inputs targets n w1) as [[xs w2]|]; simpl;
      [|reflexivity].
    f_equal. f_equal. lra.
Qed.

Lemma draws_deterministic (logits : Tensor R) (kl c : R) (n : nat) (w : W) :
  (forall w, exists w1,
      ELBOLoss.call (ELBOLoss.model self) inputs w = Ok (logits, w1) /\
      KLDiv.forward (ELBOLoss.modules (ELBOLoss.model self) w1) = kl) ->
  ELBOLoss.criterion self logits targets = Ok c ->
  exists w',
    ELBOLoss.draws self inputs targets n w =
    Ok (repeat (c + ELBOLoss.kl_weight self * kl)%R n, w').
Proof.
  intros Hcall Hcrit. revert w.
  induction n as [|n IH]; intros w; simpl; [now eexists|].
  unfold ELBOLoss.draw.
  destruct (Hcall w) as [w1 [-> Hkl]]. simpl.
  rewrite Hcrit. simpl. rewrite Hkl.
  destruct (IH w1) as [w' ->]. simpl. now eexists.
Qed.

End ELBOFacts.

(** C6.  [ELBOLoss.forward] returns the mean over [num_samples] successive
    draws of [criterion(model(inputs), targets) + kl_weight *
    kl_divergence()].  For a deterministic model and criterion the loss
    returned with [num_samples = k] is, for every [k >= 1], the loss returned
    with one sample (real arithmetic; the rounding of floating-point sums is
    outside the model). *)
Theorem elbo_mean_of_draws (W Input Target : Type)
  (self : ELBOLoss.t W Input Target) (inputs : Input) (targets : Target) :
  (forall w,
     ELBOLoss.forward self inputs targets w =
     ELBOLoss.mean_of_draws self inputs targets w) /\
  (ELBOLoss.deterministic self inputs targets ->
   exists loss,
     forall k w, (1 <= k)%Z ->
       exists w',
         ELBOLoss.forward (ELBOLoss.with_num_samples self k) inputs targets w
         = Ok (T1 [loss], w')).
Proof.
  split.
  - intros w. unfold ELBOLoss.forward, ELBOLoss.mean_of_draws.
    rewrite loop_draws.
    destruct (ELBOLoss.draws self inputs targets _ w) as [[xs w']|]; simpl;
      [|reflexivity].
    now rewrite Rplus_0_l.
  - intros [logits [kl [c [Hcall Hcrit]]]].
    exists (c + ELBOLoss.kl_weight self * kl)%R.
    intros k w Hk.
    unfold ELBOLoss.forward. rewrite loop_draws.
    change (ELBOLoss.num_samples (ELBOLoss.with_num_samples self k)) with k.
    destruct (draws_deterministic (ELBOLoss.with_num_samples self k) inputs
                targets (Z.to_nat k) w Hcall Hcrit) as [w' ->].
    simpl. exists w'.
    rewrite Rsum_repeat, INR_IZR_INZ, Z2Nat.id by lia.
    replace ((0 + IZR k * (c + ELBOLoss.kl_weight self * kl)) / IZR k)%R
      with (c + ELBOLoss.kl_weight self * kl)%R; [reflexivity|].
    field. apply not_0_IZR. lia.
Qed.

Lemma elbo_mean_of_draws_witness :
  (forall w,
     ELBOLoss.forward (Example.elbo 4) (fst Example.batch)
       (snd Example.batch) w =
     ELBOLoss.mean_of_draws (Example.elbo 4) (fst Example.batch)
       (snd Example.batch) w) /\
  exists loss,
    forall k w, (1 <= k)%Z ->
      exists w',
        ELBOLoss.forward (ELBOLoss.with_num_samples (Example.elbo 4) k)
          (fst Example.batch) (snd Example.batch) w = Ok (T1 [loss], w').
Proof.
  destruct (elbo_mean_of_draws (Example.elbo 4) (fst Example.batch)
              (snd Example.batch)) as [H1 H2].
  split; [exact H1|].
  apply H2.
  exists (fst Example.batch), (KLDiv.forward [KLDiv.Bayesian 3 1; KLDiv.Plain]),
    2%R.
  split; [|reflexivity].
  intros w. exists (S w). split; reflexivity.
Defined.

(** ** The OOD score of the ensemble routine *)

Section EnsembleEntropy.
Variables Input CalSet : Type.
Variables MutualInformation VariationRatio : Tensor R -> RT.

(** C5, on the code: with [use_entropy] selected, the test step of the
    ensemble routine never yields a score.  The aggregate probabilities have
    shape [[batch; classes]], the sum of their entropy terms over the classes
    has shape [[batch]], and the trailing [.mean(dim=1)] is then out of
    range: every call raises. *)
Theorem ensemble_entropy_score_raises
  (self : ClassificationEnsemble.t Input CalSet)
  (batch : Input * Tensor Z) (batch_idx : nat) (dataloader_idx : option Z) :
  let a := ClassificationSingle.attrs (ClassificationEnsemble.super self) in
  ClassificationSingle.use_logits a = false ->
  ClassificationSingle.use_entropy a = true ->
  raises (ClassificationEnsemble.test_step MutualInformation VariationRatio
            self batch batch_idx dataloader_idx).
Proof.
  intros a Hlogits Hentropy.
  unfold ClassificationEnsemble.test_step.
  destruct batch as [inputs targets].
  fold a. rewrite Hlogits, Hentropy.
  apply raises_bind_Ok. intros stacked _.
  apply raises_bind_Ok. intros logits Hre.
  destruct (rearrange_rank _ _ Hre) as [c ->].
  apply raises_bind_Ok. intros probs Hprobs.
  unfold tmean_dim in Hprobs. rewrite reduce_dim_no_keepdim in Hprobs.
  assert (Hrank : exists m, probs = T2 m).
  { destruct (ClassificationSingle.binary_cls a);
      apply map_fibres_T3 in Hprobs; exact Hprobs. }
  destruct Hrank as [m ->].
  apply raises_bind_Ok. intros confs _.
  apply raises_bind_Ok. intros ood_values Hood.
  exfalso.
  apply bind_Ok in Hood. destruct Hood as [e [Hsum Hmean]].
  unfold tsum_dim in Hsum. rewrite reduce_dim_no_keepdim in Hsum.
  apply map_fibres_T2 in Hsum. destruct Hsum as [v ->].
  rewrite tmean_dim_1_T1 in Hmean. discriminate.
Qed.

End EnsembleEntropy.

Lemma ensemble_entropy_score_raises_witness :
  raises
    (ClassificationEnsemble.test_step (fun t => Ok t) (fun t => Ok t)
       (Example.ensemble 3 true false false false)
       (T2 (Example.stacked 12 5), T1 [0; 1; 2; 3]%Z) 0 (Some 0%Z)).
Proof.
  apply (ensemble_entropy_score_raises (fun t => Ok t) (fun t => Ok t)
           (Example.ensemble 3 true false false false));
    reflexivity.
Defined.

(** On three estimators, a batch of four and five classes, the exception
    is the [IndexError] of the trailing [.mean(dim=1)], whichever dataloader
    the batch comes from. *)
Lemma ensemble_entropy_score_index_error (dataloader_idx : option Z) :
  ClassificationEnsemble.test_step (fun t => Ok t) (fun t => Ok t)
    (Example.ensemble 3 true false false false)
    (T2 (Example.stacked 12 5), T1 [0; 1; 2; 3]%Z) 0 dataloader_idx =
  Raise (IndexError "Dimension out of range").
Proof. reflexivity. Qed.

(** ** The test step of the single-model routine *)

Section SingleTestStep.
Variables Input CalSet : Type.
Variable self : ClassificationSingle.t Input CalSet.

Lemma scores_return (rows : list (list R)) (classes : nat) :
  rect classes rows -> 0 < classes ->
  returns (tmax_dim (-1) (probs_of self (T2 rows))) /\
  returns (ood_values_of self (T2 rows)).
Proof.
  intros Hrect Hc.
  pose proof (rect_nonempty_rows Hrect Hc) as Hne.
  assert (Hconfs : returns (tmax_dim (-1) (probs_of self (T2 rows)))).
  { unfold probs_of.
    destruct (ClassificationSingle.binary_cls _).
    - apply tmax_last_squeeze, nonempty_rows_map;
        [intros r; apply length_map | exact Hne].
    - apply tmax_last_T2, nonempty_rows_map;
        [exact softmax_row_length | exact Hne]. }
  split; [exact Hconfs|].
  unfold ood_values_of.
  destruct (ClassificationSingle.use_logits _).
  - destruct (tmax_last_T2 Hne) as [m ->]. simpl. now eexists.
  - destruct (ClassificationSingle.use_entropy _).
    + apply tsum_last_returns.
    + destruct Hconfs as [confs ->]. simpl. now eexists.
Qed.

Lemma test_step_unfold (inputs : Input) (targets : Tensor Z)
  (batch_idx : nat) (dataloader_idx : option Z)
  (logits confs ood_values : Tensor R) :
  ClassificationSingle.forward self inputs = Ok logits ->
  tmax_dim (-1) (probs_of self logits) = Ok confs ->
  ood_values_of self logits = Ok ood_values ->
  ClassificationSingle.test_step self (inputs, targets) batch_idx
    dataloader_idx =
  (self1 <- ClassificationSingle.update_calibrated self inputs targets ;;
   ClassificationSingle.route self1 (probs_of self logits) ood_values
     targets dataloader_idx).
Proof.
  intros Hfwd Hconfs Hood.
  unfold ClassificationSingle.test_step.
  rewrite Hfwd. cbn [bind].
  fold (probs_of self logits). rewrite Hconfs. cbn [bind].
  unfold ood_values_of in Hood. fold (probs_of self logits) in Hood.
  destruct (ClassificationSingle.use_logits _).
  - now rewrite Hood.
  - destruct (ClassificationSingle.use_entropy _).
    + now rewrite Hood.
    + rewrite Hconfs in Hood. simpl in Hood. now rewrite Hood.
Qed.

End SingleTestStep.

Section SingleRouting.
Variables Input CalSet : Type.

Lemma calibrated_Some_configured (self : ClassificationSingle.t Input CalSet)
  (cal_model : Input -> RT) :
  ClassificationSingle.calibrated self = Ok (Some cal_model) ->
  ClassificationSingle.calibration_set (ClassificationSingle.attrs self)
  <> None.
Proof.
  unfold ClassificationSingle.calibrated.
  destruct (ClassificationSingle.calibration_set _); [discriminate|].
  intros [=].
Qed.

Lemma calibration_built_calibrated
  (self : ClassificationSingle.t Input CalSet) (cal_model : Input -> RT) :
  calibration_built self cal_model ->
  ClassificationSingle.calibrated self = Ok (Some cal_model).
Proof.
  intros [Hset [[sc Hsc] Hcm]]. unfold ClassificationSingle.calibrated.
  destruct (ClassificationSingle.calibration_set _); [|congruence].
  now rewrite Hsc, Hcm.
Qed.

Lemma update_calibrated_None (self : ClassificationSingle.t Input CalSet)
  (inputs : Input)
  (targets : Tensor Z) :
  ClassificationSingle.calibrated self = Ok None ->
  ClassificationSingle.update_calibrated self inputs targets = Ok self.
Proof.
  intros H. unfold ClassificationSingle.update_calibrated. now rewrite H.
Qed.

Lemma update_calibrated_Some (self : ClassificationSingle.t Input CalSet)
  (inputs : Input)
  (targets : Tensor Z) (cal_model : Input -> RT) (cal_logits : Tensor R) :
  consistent self ->
  ClassificationSingle.calibrated self = Ok (Some cal_model) ->
  cal_model inputs = Ok cal_logits ->
  exists ts,
    ClassificationSingle.ts_cls_metrics (ClassificationSingle.pools self)
    = Some ts /\
    ClassificationSingle.update_calibrated self inputs targets =
    Ok (ClassificationSingle.with_pools self
          (ClassificationSingle.set_ts_cls_metrics
             (ClassificationSingle.pools self)
             (update ts (softmax_last cal_logits) (Some targets)))).
Proof.
  intros [_ Hts] Hcal Hlogits.
  specialize (Hts (calibrated_Some_configured _ Hcal)).
  destruct (ClassificationSingle.ts_cls_metrics _) as [ts|] eqn:Heq;
    [|congruence].
  exists ts. split; [reflexivity|].
  unfold ClassificationSingle.update_calibrated.
  rewrite Hcal. cbn [bind]. rewrite Hlogits. cbn [bind].
  now rewrite Heq.
Qed.

(** What the dispatch on the dataloader index does to a routine. *)
Lemma route_spec (self : ClassificationSingle.t Input CalSet)
  (probs ood_values : Tensor R)
  (targets : Tensor Z) (dataloader_idx : option Z) :
  consistent self ->
  let a := ClassificationSingle.attrs self in
  let p := ClassificationSingle.pools self in
  exists self',
    ClassificationSingle.route self probs ood_values targets dataloader_idx
    = Ok self' /\
    let p' := ClassificationSingle.pools self' in
    ClassificationSingle.attrs self' = a /\
    ClassificationSingle.scaler self' = ClassificationSingle.scaler self /\
    ClassificationSingle.cal_model self'
    = ClassificationSingle.cal_model self /\
    ClassificationSingle.ts_cls_metrics p'
    = ClassificationSingle.ts_cls_metrics p /\
    ClassificationSingle.val_cls_metrics p'
    = ClassificationSingle.val_cls_metrics p /\
    consistent self' /\
    (ClassificationSingle.idx_is dataloader_idx 0 = true ->
     ClassificationSingle.test_cls_metrics p'
     = update (ClassificationSingle.test_cls_metrics p) probs (Some targets)
     /\
     ClassificationSingle.test_entropy_id p'
     = update (ClassificationSingle.test_entropy_id p) probs None /\
     ClassificationSingle.test_entropy_ood p'
     = ClassificationSingle.test_entropy_ood p /\
     (ClassificationSingle.ood_detection a = true ->
      exists m,
        ClassificationSingle.test_ood_metrics p = Some m /\
        ClassificationSingle.test_ood_metrics p'
        = Some (update m ood_values (Some (zeros_like targets)))) /\
     (ClassificationSingle.ood_detection a = false ->
      ClassificationSingle.test_ood_metrics p'
      = ClassificationSingle.test_ood_metrics p)) /\
    (ClassificationSingle.idx_is dataloader_idx 0 = false ->
     ClassificationSingle.ood_detection a = true ->
     ClassificationSingle.idx_is dataloader_idx 1 = true ->
     ClassificationSingle.test_cls_metrics p'
     = ClassificationSingle.test_cls_metrics p /\
     ClassificationSingle.test_entropy_id p'
     = ClassificationSingle.test_entropy_id p /\
     exists m e,
       ClassificationSingle.test_ood_metrics p = Some m /\
       ClassificationSingle.test_ood_metrics p'
       = Some (update m ood_values (Some (ones_like targets))) /\
       ClassificationSingle.test_entropy_ood p = Some e /\
       ClassificationSingle.test_entropy_ood p'
       = Some (update e probs None)) /\
    (ClassificationSingle.idx_is dataloader_idx 0 = false ->
     ClassificationSingle.ood_detection a
     && ClassificationSingle.idx_is dataloader_idx 1 = false ->
     self' = self).
Proof.
  destruct self as [a p sc cm lg].
  destruct p as [val cls ts eid ood eood].
  unfold consistent. simpl. intros [Hood Hts].
  unfold ClassificationSingle.route. simpl.
  destruct (ClassificationSingle.idx_is dataloader_idx 0) eqn:H0;
    destruct (ClassificationSingle.ood_detection a) eqn:Hd; simpl;
    try destruct (ClassificationSingle.idx_is dataloader_idx 1) eqn:H1;
    try (destruct (Hood eq_refl) as [Hm He];
         destruct ood as [m|]; [|congruence];
         destruct eood as [e|]; [|congruence]);
    simpl;
    (eexists; split; [reflexivity|]; simpl;
     repeat split; intros;
     try congruence; try discriminate; try assumption;
     try (now apply Hts);
     try (eexists; split; reflexivity);
     try (do 2 eexists; repeat split; reflexivity)).
Qed.

End SingleRouting.

Section Calibration.
Variables Input CalSet : Type.
Variable TemperatureScaler_fit :
  ClassificationSingle.Model Input -> CalSet -> result (Tensor R -> RT).

Lemma consistent_set_ts (self : ClassificationSingle.t Input CalSet)
  (m : MetricCollection) :
  consistent self ->
  consistent
    (ClassificationSingle.with_pools self
       (ClassificationSingle.set_ts_cls_metrics
          (ClassificationSingle.pools self) m)).
Proof.
  destruct self as [a p sc cm lg]. unfold consistent. simpl.
  intros [Hood Hts]. split; [exact Hood | discriminate].
Qed.

Lemma consistent_init (a : ClassificationSingle.Args Input CalSet)
  (self : ClassificationSingle.t Input CalSet) :
  ClassificationSingle.__init__ a = Ok self -> consistent self.
Proof.
  unfold ClassificationSingle.__init__.
  destruct (Nat.ltb 1 _); [discriminate|].
  destruct (_ || _); [discriminate|].
  intros [= <-]. unfold consistent. simpl. split.
  - intros ->. split; discriminate.
  - destruct (ClassificationSingle.a_calibration_set a);
      [discriminate | congruence].
Qed.

(** C9.  When a calibration set is configured, the test-start hook builds
    the calibrated model (the network followed by the fitted scaler); and
    from then on the test step sends every batch through the calibrated
    model and adds its softmax to the calibrated pool, whatever the
    dataloader index of the batch (0, 1, beyond 1 or absent).  The step
    leaves the calibration artifact in place, so this holds for every batch
    of the test phase. *)
Theorem calibrated_pool_updated_for_every_index
  (self : ClassificationSingle.t Input CalSet) :
  consistent self ->
  (forall calibration_set scaler,
     ClassificationSingle.calibration_set (ClassificationSingle.attrs self)
     = Some calibration_set ->
     TemperatureScaler_fit
       (ClassificationSingle.model (ClassificationSingle.attrs self))
       calibration_set = Ok scaler ->
     exists self1,
       ClassificationSingle.on_test_start TemperatureScaler_fit self
       = Ok self1 /\
       consistent self1 /\
       calibration_built self1
         (ClassificationSingle.Sequential
            (ClassificationSingle.model (ClassificationSingle.attrs self))
            scaler)) /\
  (forall cal_model inputs targets batch_idx dataloader_idx rows classes
          cal_logits,
     calibration_built self cal_model ->
     ClassificationSingle.forward self inputs = Ok (T2 rows) ->
     rect classes rows -> 0 < classes ->
     cal_model inputs = Ok cal_logits ->
     exists self' ts,
       ClassificationSingle.ts_cls_metrics (ClassificationSingle.pools self)
       = Some ts /\
       ClassificationSingle.test_step self (inputs, targets) batch_idx
         dataloader_idx = Ok self' /\
       ClassificationSingle.ts_cls_metrics (ClassificationSingle.pools self')
       = Some (update ts (softmax_last cal_logits) (Some targets)) /\
       consistent self' /\
       calibration_built self' cal_model).
Proof.
  intros Hcons. split.
  - intros cs sc Hcs Hfit.
    unfold ClassificationSingle.on_test_start. rewrite Hcs, Hfit.
    eexists. split; [reflexivity|]. split.
    + destruct self as [a p s c l]. exact Hcons.
    + unfold calibration_built. simpl. rewrite Hcs.
      repeat split; [discriminate | now eexists].
  - intros cm inputs targets batch_idx dataloader_idx rows classes
      cal_logits Hbuilt Hfwd Hrect Hclasses Hcal.
    destruct (scores_return self Hrect Hclasses) as [[confs Hc] [ood Ho]].
    rewrite (test_step_unfold self inputs targets batch_idx dataloader_idx
               Hfwd Hc Ho).
    destruct (update_calibrated_Some inputs targets Hcons
                (calibration_built_calibrated Hbuilt) Hcal)
      as [ts [Hts ->]].
    cbn [bind].
    destruct (route_spec (probs_of self (T2 rows)) ood targets dataloader_idx
                (consistent_set_ts
                   (update ts (softmax_last cal_logits) (Some targets))
                   Hcons))
      as [self' [Hroute [Ha [Hs [Hm [Hts' [_ [Hcons' _]]]]]]]].
    exists self', ts. split; [exact Hts|].
    split; [exact Hroute|].
    split; [rewrite Hts'; destruct self; reflexivity|].
    split; [exact Hcons'|].
    destruct Hbuilt as [Hset [Hsc Hcm]].
    unfold calibration_built. rewrite Ha, Hs, Hm.
    destruct self. simpl in *. auto.
Qed.

End Calibration.

Lemma example_on_test_start (ood_detection : bool) :
  ClassificationSingle.on_test_start Example.TemperatureScaler_fit
    (Example.routine "erm" ood_detection false false (Some tt))
  = Ok (Example.calibrated_routine ood_detection).
Proof. reflexivity. Qed.

Lemma example_routine_consistent (ood_detection : bool) :
  consistent (Example.routine "erm" ood_detection false false (Some tt)) /\
  consistent (Example.calibrated_routine ood_detection).
Proof.
  unfold consistent; simpl.
  repeat split; try discriminate; destruct ood_detection; discriminate.
Qed.

Lemma calibrated_pool_updated_for_every_index_witness :
  (exists self1,
     ClassificationSingle.on_test_start Example.TemperatureScaler_fit
       (Example.routine "erm" true false false (Some tt)) = Ok self1 /\
     consistent self1 /\
     calibration_built self1
       (ClassificationSingle.Sequential Example.network
          (fun logits => Ok logits))) /\
  forall dataloader_idx,
    exists self' ts,
      ClassificationSingle.ts_cls_metrics
        (ClassificationSingle.pools (Example.calibrated_routine true))
      = Some ts /\
      ClassificationSingle.test_step (Example.calibrated_routine true)
        Example.batch 0 dataloader_idx = Ok self' /\
      ClassificationSingle.ts_cls_metrics (ClassificationSingle.pools self')
      = Some (update ts (softmax_last (fst Example.batch))
                (Some (snd Example.batch))) /\
      consistent self' /\
      calibration_built self'
        (ClassificationSingle.Sequential Example.network
           (fun logits => Ok logits)).
Proof.
  split.
  - destruct (calibrated_pool_updated_for_every_index
                Example.TemperatureScaler_fit
                (proj1 (example_routine_consistent true))) as [Hhook _].
    apply (Hhook tt); reflexivity.
  - intros dataloader_idx.
    destruct (calibrated_pool_updated_for_every_index
                Example.TemperatureScaler_fit
                (proj2 (example_routine_consistent true))) as [_ Hstep].
    apply (Hstep _ (fst Example.batch) (snd Example.batch) 0 dataloader_idx
             [[2; -2]; [1; 1]]%R 2).
    + unfold calibration_built. simpl.
      repeat split; [discriminate | now eexists].
    + reflexivity.
    + repeat constructor.
    + lia.
    + reflexivity.
Defined.

Section Routing.
Variables Input CalSet : Type.

(** C1, amended.  For a well-formed batch the test step returns, and: with
    dataloader index 0 it updates the in-distribution classification pool
    with the probabilities and, when OOD detection is enabled, adds the OOD
    scores to the OOD pool labelled 0; with index 1 and OOD detection
    enabled it adds the OOD scores to the OOD pool labelled 1 and leaves the
    classification pool alone; with an index above 1 it changes no pool
    other than the calibrated one and logs nothing -- it is a no-op when no
    calibration artifact exists, and otherwise it still adds the batch to
    the calibrated pool. *)
Theorem test_step_routing (self : ClassificationSingle.t Input CalSet)
  (inputs : Input) (targets : Tensor Z)
  (batch_idx : nat) (dataloader_idx : option Z) (logits : Tensor R)
  (cal : option (Input -> RT)) :
  consistent self ->
  well_formed_batch self inputs logits cal ->
  exists ood_values self',
    ood_values_of self logits = Ok ood_values /\
    ClassificationSingle.test_step self (inputs, targets) batch_idx
      dataloader_idx = Ok self' /\
    let a := ClassificationSingle.attrs self in
    let p := ClassificationSingle.pools self in
    let p' := ClassificationSingle.pools self' in
    let probs := probs_of self logits in
    (dataloader_idx = Some 0%Z ->
     ClassificationSingle.test_cls_metrics p'
     = update (ClassificationSingle.test_cls_metrics p) probs (Some targets)
     /\
     (ClassificationSingle.ood_detection a = true ->
      exists m,
        ClassificationSingle.test_ood_metrics p = Some m /\
        ClassificationSingle.test_ood_metrics p'
        = Some (update m ood_values (Some (zeros_like targets)))) /\
     (ClassificationSingle.ood_detection a = false ->
      ClassificationSingle.test_ood_metrics p'
      = ClassificationSingle.test_ood_metrics p)) /\
    (dataloader_idx = Some 1%Z ->
     ClassificationSingle.ood_detection a = true ->
     ClassificationSingle.test_cls_metrics p'
     = ClassificationSingle.test_cls_metrics p /\
     exists m,
       ClassificationSingle.test_ood_metrics p = Some m /\
       ClassificationSingle.test_ood_metrics p'
       = Some (update m ood_values (Some (ones_like targets)))) /\
    (forall k, dataloader_idx = Some k -> (1 < k)%Z ->
     same_but_calibrated self self' /\
     (cal = None -> self' = self) /\
     (forall cal_model, cal = Some cal_model ->
      exists ts cal_logits,
        cal_model inputs = Ok cal_logits /\
        ClassificationSingle.ts_cls_metrics p = Some ts /\
        ClassificationSingle.ts_cls_metrics p'
        = Some (update ts (softmax_last cal_logits) (Some targets)))).
Proof.
  intros Hcons [Hfwd [[rows [classes [-> [Hrect Hclasses]]]] [Hcal Hret]]].
  destruct (scores_return self Hrect Hclasses) as [[confs Hc] [ood Ho]].
  exists ood.
  rewrite (test_step_unfold self inputs targets batch_idx dataloader_idx
             Hfwd Hc Ho).
  assert (Hstage :
            exists self1,
              ClassificationSingle.update_calibrated self inputs targets
              = Ok self1 /\
              consistent self1 /\
              ClassificationSingle.attrs self1
              = ClassificationSingle.attrs self /\
              same_but_calibrated self self1 /\
              (cal = None -> self1 = self) /\
              (forall cal_model, cal = Some cal_model ->
               exists ts cal_logits,
                 cal_model inputs = Ok cal_logits /\
                 ClassificationSingle.ts_cls_metrics
                   (ClassificationSingle.pools self) = Some ts /\
                 ClassificationSingle.ts_cls_metrics
                   (ClassificationSingle.pools self1)
                 = Some (update ts (softmax_last cal_logits)
                           (Some targets)))).
  { destruct cal as [cm|].
    - destruct Hret as [cal_logits Hcl].
      destruct (update_calibrated_Some inputs targets Hcons Hcal Hcl)
        as [ts [Hts Hupd]].
      eexists. split; [exact Hupd|].
      split; [now apply consistent_set_ts|].
      destruct self as [a p sc c l]. simpl in *.
      unfold same_but_calibrated. simpl.
      repeat split; try discriminate.
      intros cm' [= <-]. now exists ts, cal_logits.
    - exists self. split; [now apply update_calibrated_None|].
      split; [exact Hcons|].
      unfold same_but_calibrated.
      repeat split; intros; try reflexivity; try assumption;
        try discriminate. }
  destruct Hstage as [self1 [-> [Hcons1 [Hattrs [Hsame [Hnone Hsome]]]]]].
  cbn [bind].
  destruct (route_spec (probs_of self (T2 rows)) ood targets dataloader_idx
              Hcons1)
    as [self' [Hroute [Ha [Hs [Hm [Hts [Hval [_ [H0 [H1 Hother]]]]]]]]]].
  exists self'. split; [exact Ho|]. split; [exact Hroute|].
  destruct Hsame as [Sval [Scls [Seid [Sood [Seood Slog]]]]].
  rewrite Hattrs in H0, H1, Hother.
  cbv zeta. split; [|split].
  - intros ->. destruct (H0 eq_refl) as [Hcls [_ [_ [Hon Hoff]]]].
    rewrite Hcls, Scls. split; [reflexivity|]. split.
    + intros Hd. destruct (Hon Hd) as [m [Hm1 Hm2]].
      exists m. now rewrite <- Sood.
    + intros Hd. now rewrite (Hoff Hd).
  - intros -> Hd. destruct (H1 eq_refl Hd eq_refl)
      as [Hcls [_ [m [e [Hm1 [Hm2 _]]]]]].
    rewrite Hcls, Scls. split; [reflexivity|].
    exists m. now rewrite <- Sood.
  - intros k -> Hk.
    assert (Hk0 : ClassificationSingle.idx_is (Some k) 0 = false)
      by (simpl; apply Z.eqb_neq; lia).
    assert (Hk1 : ClassificationSingle.ood_detection
                    (ClassificationSingle.attrs self)
                  && ClassificationSingle.idx_is (Some k) 1 = false).
    { apply andb_false_intro2. simpl. apply Z.eqb_neq. lia. }
    rewrite (Hother Hk0 Hk1).
    split; [|split].
    + unfold same_but_calibrated. auto 10.
    + exact Hnone.
    + exact Hsome.
Qed.

End Routing.

Lemma example_batch_well_formed (ood_detection : bool) :
  well_formed_batch (Example.calibrated_routine ood_detection)
    (fst Example.batch) (fst Example.batch)
    (Some (ClassificationSingle.Sequential Example.network
             (fun logits => Ok logits))).
Proof.
  split; [reflexivity|]. split.
  - exists [[2; -2]; [1; 1]]%R, 2.
    split; [reflexivity|]. split; [repeat constructor | lia].
  - split; [reflexivity|]. now eexists.
Qed.

Lemma test_step_routing_witness :
  let self := Example.calibrated_routine true in
  let p := ClassificationSingle.pools self in
  (exists ood_values self',
     ood_values_of self (fst Example.batch) = Ok ood_values /\
     ClassificationSingle.test_step self Example.batch 0 (Some 0%Z)
     = Ok self' /\
     ClassificationSingle.test_cls_metrics (ClassificationSingle.pools self')
     = update (ClassificationSingle.test_cls_metrics p)
         (probs_of self (fst Example.batch)) (Some (snd Example.batch)) /\
     exists m,
       ClassificationSingle.test_ood_metrics p = Some m /\
       ClassificationSingle.test_ood_metrics (ClassificationSingle.pools self')
       = Some (update m ood_values
                 (Some (zeros_like (snd Example.batch))))) /\
  (exists self',
     ClassificationSingle.test_step self Example.batch 0 (Some 2%Z)
     = Ok self' /\
     same_but_calibrated self self').
Proof.
  intros self p. split.
  - destruct (test_step_routing (snd Example.batch) 0 (Some 0%Z)
                (proj2 (example_routine_consistent true))
                (example_batch_well_formed true))
      as [ood_values [self' [Hood [Hstep [H0 _]]]]].
    exists ood_values, self'.
    split; [exact Hood|]. split; [exact Hstep|].
    destruct (H0 eq_refl) as [Hcls [Hon _]].
    split; [exact Hcls|]. now apply Hon.
  - destruct (test_step_routing (snd Example.batch) 0 (Some 2%Z)
                (proj2 (example_routine_consistent true))
                (example_batch_well_formed true))
      as [ood_values [self' [_ [Hstep [_ [_ H2]]]]]].
    exists self'. split; [exact Hstep|].
    destruct (H2 2%Z eq_refl) as [Hsame _]; [lia | exact Hsame].
Defined.

(** C1 as stated fails: with a calibration set configured, a batch with
    dataloader index 2 is not a no-op, its calibrated probabilities are
    added to the calibrated pool. *)
Lemma index_above_one_updates_a_pool :
  exists self',
    ClassificationSingle.test_step (Example.calibrated_routine true)
      Example.batch 0 (Some 2%Z) = Ok self' /\
    ClassificationSingle.pools self'
    <> ClassificationSingle.pools (Example.calibrated_routine true).
Proof.
  eexists. split; [reflexivity|].
  intros H.
  apply (f_equal (@ClassificationSingle.ts_cls_metrics)) in H.
  discriminate H.
Qed.

(** * Further properties *)

(** ** The KL aggregator *)

Lemma kl_div_fold (modules : list KLDiv.module) (acc : R) :
  fold_left
    (fun kl_divergence m =>
       match m with
       | KLDiv.Bayesian lvposterior lprior =>
           (kl_divergence + (lvposterior - lprior))%R
       | KLDiv.Plain => kl_divergence
       end) modules acc
  = (acc + Rsum (map kl_term modules))%R.
Proof.
  revert acc. induction modules as [|m modules IH]; intros acc; simpl.
  - lra.
  - rewrite IH. destruct m; simpl; lra.
Qed.

(** X1.  The KL divergence gathered from a model is the sum, over its
    Bayesian sub-modules, of [lvposterior - lprior]: the other sub-modules
    contribute nothing (dropping them changes nothing), and the divergence of
    two groups of sub-modules is the sum of their divergences. *)
Theorem kl_div_is_sum_over_bayesian_modules
  (modules more : list KLDiv.module) :
  KLDiv.forward modules = Rsum (map kl_term modules) /\
  KLDiv.forward (filter is_Bayesian modules) = KLDiv.forward modules /\
  KLDiv.forward (modules ++ more)
  = (KLDiv.forward modules + KLDiv.forward more)%R.
Proof.
  unfold KLDiv.forward, KLDiv._kl_div. rewrite !kl_div_fold.
  split; [lra|]. split.
  - f_equal. induction modules as [|m modules IH]; [reflexivity|].
    destruct m; simpl; rewrite IH; [reflexivity | lra].
  - rewrite map_app.
    assert (H : forall l1 l2, Rsum (l1 ++ l2) = (Rsum l1 + Rsum l2)%R).
    { induction l1 as [|x l1 IH]; intros l2; simpl; [lra|].
      rewrite IH. lra. }
    rewrite H. lra.
Qed.

(** ** The constructors of the losses *)

Lemma Rltb_spec (x y : R) : Rltb x y = true <-> (x < y)%R.
Proof.
  unfold Rltb. destruct (Rlt_dec x y); split; intros H;
    try reflexivity; try assumption; try discriminate; contradiction.
Qed.

Lemma Rltb_false_iff (x y : R) : Rltb x y = false <-> (y <= x)%R.
Proof.
  unfold Rltb. destruct (Rlt_dec x y); split; intros H;
    try reflexivity; try discriminate; lra.
Qed.


Lemma valid_reduction_iff (reduction : option string) :
  valid_reduction reduction = true <->
  reduction = Some "none"%string \/ reduction = Some "mean"%string \/
  reduction = Some "sum"%string.
Proof.
  unfold valid_reduction, str_is.
  destruct reduction as [s|].
  - rewrite !orb_true_iff, !String.eqb_eq.
    split.
    + intros [[->| ->]| ->]; auto.
    + intros [[= ->]|[[= ->]|[= ->]]]; auto.
  - split; [discriminate|]. intros [H|[H|H]]; discriminate.
Qed.

(** X3.  [NIGLoss.__init__] returns exactly when [reg_weight] is not
    negative and [reduction] is one of 'none', 'mean' and 'sum' (so [None] is
    refused); it then stores both as given. *)
Theorem nig_init_accepts_iff (reg_weight : R) (reduction : option string)
  (self : NIGLoss.t) :
  NIGLoss.__init__ reg_weight reduction = Ok self <->
  (0 <= reg_weight)%R /\
  (reduction = Some "none"%string \/ reduction = Some "mean"%string \/
   reduction = Some "sum"%string) /\
  self = {| NIGLoss.reg_weight := reg_weight;
            NIGLoss.reduction := reduction |}.
Proof.
  unfold NIGLoss.__init__. rewrite <- valid_reduction_iff.
  destruct (Rltb reg_weight 0) eqn:Hw.
  { apply Rltb_spec in Hw. split; [discriminate|]. intros [H _]. lra. }
  apply Rltb_false_iff in Hw.
  destruct (valid_reduction reduction); simpl.
  - split; [intros [= <-]; auto | intros [_ [_ ->]]; reflexivity].
  - split; [discriminate | intros [_ [H _]]; discriminate].
Qed.

(** X4.  [DECLoss.__init__] returns exactly when [reg_weight], if given,
    is not negative, [annealing_step], if given, is positive, [reduction] is
    one of 'none', 'mean' and 'sum' and [loss_type] is one of 'mse', 'log'
    and 'digamma'; so it accepts a zero [reg_weight] and refuses a zero
    [annealing_step]. *)
Theorem dec_init_accepts_iff (annealing_step : option Z)
  (reg_weight : option R) (loss_type : string) (reduction : option string)
  (self : DECLoss.t) :
  DECLoss.__init__ annealing_step reg_weight loss_type reduction = Ok self
  <->
  match reg_weight with Some w => (0 <= w)%R | None => True end /\
  match annealing_step with Some s => (0 < s)%Z | None => True end /\
  (reduction = Some "none"%string \/ reduction = Some "mean"%string \/
   reduction = Some "sum"%string) /\
  (loss_type = "mse"%string \/ loss_type = "log"%string \/
   loss_type = "digamma"%string) /\
  self = {| DECLoss.annealing_step := annealing_step;
            DECLoss.reg_weight := reg_weight;
            DECLoss.loss_type := loss_type;
            DECLoss.reduction := reduction |}.
Proof.
  unfold DECLoss.__init__. rewrite <- valid_reduction_iff.
  assert (Hlt : String.eqb loss_type "mse" || String.eqb loss_type "log"
                || String.eqb loss_type "digamma" = true <->
                loss_type = "mse"%string \/ loss_type = "log"%string \/
                loss_type = "digamma"%string).
  { rewrite !orb_true_iff, !String.eqb_eq. tauto. }
  rewrite <- Hlt.
  destruct reg_weight as [w|].
  - destruct (Rltb w 0) eqn:Hw.
    { apply Rltb_spec in Hw. split; [discriminate|]. intros [H _]. lra. }
    apply Rltb_false_iff in Hw.
    destruct annealing_step as [s|].
    + destruct (Z.leb_spec s 0) as [Hs|Hs].
      { split; [discriminate|]. intros [_ [H _]]. lia. }
      destruct (valid_reduction reduction); simpl;
        [|split; [discriminate | intros [_ [_ [H _]]]; discriminate]].
      destruct (_ || _); simpl;
        [|split; [discriminate | intros [_ [_ [_ [H _]]]]; discriminate]].
      split; [intros [= <-]; auto | intros [_ [_ [_ [_ ->]]]]; reflexivity].
    + destruct (valid_reduction reduction); simpl;
        [|split; [discriminate | intros [_ [_ [H _]]]; discriminate]].
      destruct (_ || _); simpl;
        [|split; [discriminate | intros [_ [_ [_ [H _]]]]; discriminate]].
      split; [intros [= <-]; auto | intros [_ [_ [_ [_ ->]]]]; reflexivity].
  - destruct annealing_step as [s|].
    + destruct (Z.leb_spec s 0) as [Hs|Hs].
      { split; [discriminate|]. intros [_ [H _]]. lia. }
      destruct (valid_reduction reduction); simpl;
        [|split; [discriminate | intros [_ [_ [H _]]]; discriminate]].
      destruct (_ || _); simpl;
        [|split; [discriminate | intros [_ [_ [_ [H _]]]]; discriminate]].
      split; [intros [= <-]; auto | intros [_ [_ [_ [_ ->]]]]; reflexivity].
    + destruct (valid_reduction reduction); simpl;
        [|split; [discriminate | intros [_ [_ [H _]]]; discriminate]].
      destruct (_ || _); simpl;
        [|split; [discriminate | intros [_ [_ [_ [H _]]]]; discriminate]].
      split; [intros [= <-]; auto | intros [_ [_ [_ [_ ->]]]]; reflexivity].
Qed.

(** ** The evidential classification loss, further *)

Lemma shape_tmap {A B : Type} (f : A -> B) (t : Tensor A) :
  shape (tmap f t) = shape t.
Proof.
  destruct t as [x|v|m|c]; simpl; rewrite ?length_map; try reflexivity.
  - destruct m; simpl; now rewrite ?length_map.
  - destruct c as [|[|r g] c]; simpl; now rewrite ?length_map.
Qed.

Lemma tmap_tmap {A B C : Type} (f : A -> B) (g : B -> C) (t : Tensor A) :
  tmap g (tmap f t) = tmap (fun x => g (f x)) t.
Proof.
  destruct t as [x|v|m|c]; simpl; f_equal.
  - apply map_map.
  - rewrite map_map. apply map_ext. intros r. apply map_map.
  - rewrite map_map. apply map_ext. intros r.
    rewrite map_map. apply map_ext. intros r'. apply map_map.
Qed.

Lemma tmap_ext {A B : Type} (f g : A -> B) (t : Tensor A) :
  (forall x, f x = g x) -> tmap f t = tmap g t.
Proof.
  intros H. destruct t as [x|v|m|c]; simpl; f_equal.
  - apply H.
  - now apply map_ext.
  - apply map_ext. intros r. now apply map_ext.
  - apply map_ext. intros r. apply map_ext. intros r'. now apply map_ext.
Qed.

Lemma relu_idempotent (t : Tensor R) : relu (relu t) = relu t.
Proof.
  unfold relu. rewrite tmap_tmap. apply tmap_ext. intros x.
  apply Rmax_right. apply Rmax_l.
Qed.

Section DECLossFurther.
Variables lgamma digamma : R -> R.


(** X5.  When [annealing_step] is set, [forward] called without
    [current_epoch] raises the [ValueError] about the missing epoch, whatever
    the evidence and the targets: nothing is computed before the check. *)
Theorem dec_forward_requires_epoch (annealing_step : option Z)
  (reg_weight : option R) (loss_type : string) (reduction : option string)
  (self : DECLoss.t) :
  DECLoss.__init__ annealing_step reg_weight loss_type reduction = Ok self ->
  annealing_step <> None ->
  forall evidence targets,
    DECLoss.forward lgamma digamma self evidence targets None
    = Raise (ValueError ERR_EPOCH).
Proof.
  intros Hinit Hsome evidence targets.
  destruct (DECLoss_init_Ok _ _ _ _ Hinit) as [Hs [_ [_ [_ [Hpos _]]]]].
  destruct annealing_step as [st|]; [|congruence].
  specialize (Hpos st eq_refl). apply Z.ltb_lt in Hpos.
  unfold DECLoss.forward. rewrite Hs. simpl. now rewrite Hpos.
Qed.


(** X7.  [DECLoss.forward] only sees the evidence through its positive
    part: negative evidence counts as zero evidence, so the loss of an
    evidence tensor is the loss of its ReLU. *)
Theorem dec_forward_ignores_negative_evidence (self : DECLoss.t)
  (evidence : Tensor R) (targets : Tensor Z) (current_epoch : option Z) :
  DECLoss.forward lgamma digamma self (relu evidence) targets current_epoch
  = DECLoss.forward lgamma digamma self evidence targets current_epoch.
Proof.
  assert (Hsize : size_last (relu evidence) = size_last evidence)
    by (unfold size_last, relu; now rewrite shape_tmap).
  unfold DECLoss.forward, DECLoss._mse_loss, DECLoss._log_loss,
    DECLoss._digamma_loss, DECLoss._kldiv_reg.
  now rewrite Hsize, relu_idempotent.
Qed.

End DECLossFurther.

Lemma dec_forward_requires_epoch_witness :
  DECLoss.forward Example.special Example.special
    (Example.dec_loss (Some 10%Z) None) (T2 [[1; 2]]%R) (T1 [0%Z]) None
  = Raise (ValueError ERR_EPOCH).
Proof.
  apply (@dec_forward_requires_epoch Example.special Example.special
           (Some 10%Z) None "log" (Some "mean"%string)).
  - apply DECLoss_init_example; simpl; [lia | exact I].
  - discriminate.
Defined.


(** ** The ELBO loss, further *)

Lemma Rsum_app (l1 l2 : list R) : Rsum (l1 ++ l2) = (Rsum l1 + Rsum l2)%R.
Proof.
  induction l1 as [|x l1 IH]; simpl; [lra|]. rewrite IH. lra.
Qed.

Lemma draws_terms (W Input Target : Type) (self : ELBOLoss.t W Input Target)
  (inputs : Input) (targets : Target) (n : nat) (w : W) :
  ELBOLoss.draws self inputs targets n w =
  ('(ts, w') <- elbo_terms self inputs targets n w ;;
   Ok (map (fun p => (fst p + ELBOLoss.kl_weight self * snd p)%R) ts, w')).
Proof.
  revert w. induction n as [|n IH]; intros w; simpl; [reflexivity|].
  unfold ELBOLoss.draw.
  destruct (ELBOLoss.call (ELBOLoss.model self) inputs w)
    as [[logits w1]|]; simpl; [|reflexivity].
  destruct (ELBOLoss.criterion self logits targets) as [c|]; simpl;
    [|reflexivity].
  rewrite IH.
  now destruct (elbo_terms self inputs targets n w1) as [[ts w2]|].
Qed.

(** X8.  The ELBO loss is the mean of the criterion over the draws plus
    [kl_weight] times the mean of the KL divergences of the draws. *)
Theorem elbo_is_data_term_plus_weighted_kl (W Input Target : Type)
  (self : ELBOLoss.t W Input Target) (inputs : Input) (targets : Target)
  (w : W) :
  ELBOLoss.forward self inputs targets w =
  ('(ts, w') <-
     elbo_terms self inputs targets
       (Z.to_nat (ELBOLoss.num_samples self)) w ;;
   let k := IZR (ELBOLoss.num_samples self) in
   Ok (T1 [(Rsum (map fst ts) / k
            + ELBOLoss.kl_weight self * (Rsum (map snd ts) / k))%R], w')).
Proof.
  unfold ELBOLoss.forward. rewrite loop_draws, draws_terms.
  destruct (elbo_terms self inputs targets _ w) as [[ts w']|]; simpl;
    [|reflexivity].
  assert (H : Rsum (map (fun p : R * R =>
                           (fst p + ELBOLoss.kl_weight self * snd p)%R) ts)
              = (Rsum (map fst ts)
                 + ELBOLoss.kl_weight self * Rsum (map snd ts))%R).
  { induction ts as [|[c kl] ts IH]; simpl; [lra|]. rewrite IH. lra. }
  rewrite H.
  replace ((0 + (Rsum (map fst ts)
                 + ELBOLoss.kl_weight self * Rsum (map snd ts)))
           / IZR (ELBOLoss.num_samples self))%R
    with (Rsum (map fst ts) / IZR (ELBOLoss.num_samples self)
          + ELBOLoss.kl_weight self
            * (Rsum (map snd ts) / IZR (ELBOLoss.num_samples self)))%R
    by (unfold Rdiv; ring).
  reflexivity.
Qed.

(** ** The single-model routine, further *)

Section SingleFurther.
Variables Input CalSet : Type.
Variable transforms :
  ClassificationSingle.Mixer -> Input -> Target ->
  option (Input + Tensor R) -> result (Input * Target).
Variable TemperatureScaler_fit :
  ClassificationSingle.Model Input -> CalSet -> result (Tensor R -> RT).


Lemma test_step_inv (self self' : ClassificationSingle.t Input CalSet)
  (inputs : Input) (targets : Tensor Z) (batch_idx : nat)
  (dataloader_idx : option Z) :
  ClassificationSingle.test_step self (inputs, targets) batch_idx
    dataloader_idx = Ok self' ->
  exists logits ood_values self1,
    ClassificationSingle.forward self inputs = Ok logits /\
    ClassificationSingle.update_calibrated self inputs targets = Ok self1 /\
    ClassificationSingle.route self1 (probs_of self logits) ood_values
      targets dataloader_idx = Ok self'.
Proof.
  unfold ClassificationSingle.test_step. intros H.
  apply bind_Ok in H. destruct H as [logits [Hfwd H]].
  apply bind_Ok in H. destruct H as [confs [_ H]].
  apply bind_Ok in H. destruct H as [ood [_ H]].
  apply bind_Ok in H. destruct H as [self1 [Hcal H]].
  now exists logits, ood, self1.
Qed.

Lemma update_calibrated_consistent
  (self self1 : ClassificationSingle.t Input CalSet) (inputs : Input)
  (targets : Tensor Z) :
  consistent self ->
  ClassificationSingle.update_calibrated self inputs targets = Ok self1 ->
  consistent self1 /\
  ClassificationSingle.attrs self1 = ClassificationSingle.attrs self.
Proof.
  intros Hcons H. unfold ClassificationSingle.update_calibrated in H.
  apply bind_Ok in H. destruct H as [cal [_ H]].
  destruct cal as [cm|].
  - apply bind_Ok in H. destruct H as [cal_logits [_ H]].
    apply bind_Ok in H. destruct H as [ts [_ H]].
    injection H as <-. split; [|reflexivity].
    destruct self as [a p sc c l]. destruct Hcons as [Hood Hts].
    split; [exact Hood | discriminate].
  - injection H as <-. now split.
Qed.

Lemma route_consistent (self self' : ClassificationSingle.t Input CalSet)
  (probs ood_values : Tensor R) (targets : Tensor Z)
  (dataloader_idx : option Z) :
  consistent self ->
  ClassificationSingle.route self probs ood_values targets dataloader_idx
  = Ok self' ->
  consistent self'.
Proof.
  intros Hcons H.
  destruct (route_spec probs ood_values targets dataloader_idx Hcons)
    as [self'' [Hr [_ [_ [_ [_ [_ [Hc _]]]]]]]].
  rewrite Hr in H. now injection H as <-.
Qed.

Lemma test_epoch_end_consistent
  (self self' : ClassificationSingle.t Input CalSet) :
  consistent self ->
  ClassificationSingle.test_epoch_end self = Ok self' ->
  consistent self'.
Proof.
  destruct self as [a p sc c l].
  destruct p as [val cls ts eid ood eood].
  unfold consistent, ClassificationSingle.test_epoch_end.
  simpl. intros [Hood Hts] H.
  apply bind_Ok in H. destruct H as [cal [_ H]].
  apply bind_Ok in H. destruct H as [[self1 p1] [Hstage H]].
  assert (Hp1 : ClassificationSingle.attrs self1 = a /\
                (ClassificationSingle.test_ood_metrics p1 = ood) /\
                (ClassificationSingle.test_entropy_ood p1 = eood) /\
                (ts <> None -> ClassificationSingle.ts_cls_metrics p1
                               <> None)).
  { destruct cal as [cm|].
    - apply bind_Ok in Hstage. destruct Hstage as [m [_ Hs]].
      injection Hs as <- <-. simpl. repeat split; discriminate.
    - injection Hstage as <- <-. simpl. repeat split; auto. }
  destruct Hp1 as [Ha [Ho [He Ht]]].
  rewrite Ha in H.
  destruct (ClassificationSingle.ood_detection a) eqn:Hd.
  - apply bind_Ok in H. destruct H as [m [_ H]].
    injection H as <-. simpl. rewrite Ha, Hd, He. split.
    + intros _. split; [discriminate | now apply Hood].
    + intros Hc. now apply Ht, Hts.
  - injection H as <-. simpl. rewrite Ha, Hd. split.
    + discriminate.
    + intros Hc. now apply Ht, Hts.
Qed.

(** X10.  The conditional pools stay in place: [__init__] creates the OOD
    pools whenever [ood_detection] is set and the calibrated pool whenever a
    calibration set is given, and every hook that returns (training,
    validation and test steps, the epoch ends, the test-start hook) leaves a
    routine with that property a routine with that property.  So no step of
    a routine built by [__init__] fails on a missing pool. *)
Theorem routine_keeps_its_pools
  (self self' : ClassificationSingle.t Input CalSet) :
  (forall a, ClassificationSingle.__init__ a = Ok self -> consistent self) /\
  (consistent self ->
   (forall batch i loss,
      ClassificationSingle.training_step transforms self batch i
      = Ok (loss, self') -> consistent self') /\
   (forall batch i,
      ClassificationSingle.validation_step self batch i = Ok self' ->
      consistent self') /\
   consistent (ClassificationSingle.validation_epoch_end self) /\
   (ClassificationSingle.on_test_start TemperatureScaler_fit self = Ok self'
    -> consistent self') /\
   (forall batch i dataloader_idx,
      ClassificationSingle.test_step self batch i dataloader_idx = Ok self'
      -> consistent self') /\
   (ClassificationSingle.test_epoch_end self = Ok self' ->
    consistent self')).
Proof.
  split; [intros a; apply consistent_init|].
  intros Hcons.
  refine (conj _ (conj _ (conj _ (conj _ (conj _ _))))).
  - intros batch i loss H.
    unfold ClassificationSingle.training_step in H.
    apply bind_Ok in H. destruct H as [b [_ H]].
    apply bind_Ok in H. destruct H as [[inputs targets] [_ H]].
    apply bind_Ok in H. destruct H as [l [_ H]].
    injection H as _ <-. destruct self. exact Hcons.
  - intros [inputs targets] i H.
    unfold ClassificationSingle.validation_step in H.
    apply bind_Ok in H. destruct H as [logits [_ H]].
    injection H as <-.
    destruct self as [a p sc c l]. destruct p. exact Hcons.
  - destruct self as [a p sc c l]. destruct p. exact Hcons.
  - unfold ClassificationSingle.on_test_start.
    destruct (ClassificationSingle.calibration_set _).
    + intros H. apply bind_Ok in H. destruct H as [sc [_ H]].
      injection H as <-. destruct self. exact Hcons.
    + intros [= <-]. destruct self. exact Hcons.
  - intros [inputs targets] i dataloader_idx H.
    apply test_step_inv in H.
    destruct H as [logits [ood [self1 [_ [Hcal Hroute]]]]].
    apply update_calibrated_consistent in Hcal; [|exact Hcons].
    destruct Hcal as [Hc1 _].
    eapply route_consistent; [exact Hc1 | exact Hroute].
  - now apply test_epoch_end_consistent.
Qed.

(** X11.  With [mixtype="kernel_warping"] and a [dist_sim] that is neither
    'emb' nor 'inp', the training step does not mix the batch at all: the
    mixing policy is never called, so the step is the same whatever the
    policy does, and the batch reaches [format_batch_fn] as it was given. *)
Theorem kernel_warping_without_similarity_skips_mixing
  (other_transforms :
     ClassificationSingle.Mixer -> Input -> Target ->
     option (Input + Tensor R) -> result (Input * Target))
  (self : ClassificationSingle.t Input CalSet) (batch : Input * Target)
  (batch_idx : nat) :
  ClassificationSingle.mixtype (ClassificationSingle.attrs self)
  = "kernel_warping"%string ->
  ClassificationSingle.dist_sim (ClassificationSingle.attrs self)
  <> "emb"%string ->
  ClassificationSingle.dist_sim (ClassificationSingle.attrs self)
  <> "inp"%string ->
  ClassificationSingle.training_step transforms self batch batch_idx
  = ClassificationSingle.training_step other_transforms self batch batch_idx
  /\
  (forall loss self',
     ClassificationSingle.training_step transforms self batch batch_idx
     = Ok (loss, self') ->
     returns (ClassificationSingle.format_batch_fn
                (ClassificationSingle.attrs self) batch)).
Proof.
  intros Hmix Hemb Hinp.
  apply String.eqb_neq in Hemb. apply String.eqb_neq in Hinp.
  unfold ClassificationSingle.training_step.
  rewrite Hmix, Hemb, Hinp. cbn [String.eqb Ascii.eqb Bool.eqb bind].
  split; [reflexivity|].
  intros loss self' H.
  apply bind_Ok in H. destruct H as [b [Hb _]]. now exists b.
Qed.





End SingleFurther.

Lemma kernel_warping_without_similarity_skips_mixing_witness :
  ClassificationSingle.training_step Example.transforms
    (warping_routine "cos") (T2 [[1; 2]]%R, IntT (T1 [0%Z])) 0
  = ClassificationSingle.training_step failing_transforms
      (warping_routine "cos") (T2 [[1; 2]]%R, IntT (T1 [0%Z])) 0 /\
  (forall loss self',
     ClassificationSingle.training_step Example.transforms
       (warping_routine "cos") (T2 [[1; 2]]%R, IntT (T1 [0%Z])) 0
     = Ok (loss, self') ->
     returns (ClassificationSingle.format_batch_fn
                (ClassificationSingle.attrs (warping_routine "cos"))
                (T2 [[1; 2]]%R, IntT (T1 [0%Z])))).
Proof.
  apply (@kernel_warping_without_similarity_skips_mixing
           Example.Input Example.CalSet Example.transforms
           failing_transforms (warping_routine "cos")
           (T2 [[1; 2]]%R, IntT (T1 [0%Z])) 0).
  - reflexivity.
  - discriminate.
  - discriminate.
Defined.




(** ** The ensemble routine, further *)

Lemma Rmean_singleton (x : R) : Rmean [x] = x.
Proof. unfold Rmean. simpl. field. Qed.

Lemma chunks_one {A : Type} (l : list A) : chunks (length l) 1 l = [l].
Proof. simpl. now rewrite firstn_all. Qed.

Lemma mean_of_one_estimator (rows : list (list R)) :
  tmean_dim 1 (softmax_last (T3 (transpose [rows])))
  = Ok (softmax_last (T2 rows)).
Proof.
  simpl. rewrite tmean_dim_1_T3. rewrite !map_map. do 2 f_equal.
  apply map_ext. intros r. simpl. rewrite map_map.
  rewrite <- (map_id (softmax_row r)) at 2.
  apply map_ext. intros x. apply Rmean_singleton.
Qed.

Section EnsembleFurther.
Variables Input CalSet : Type.
Variables MutualInformation VariationRatio : Tensor R -> RT.

(** X15.  The ensemble steps split the rows of the logits into
    [num_estimators] groups: when the number of rows is not a multiple of
    [num_estimators], the validation step and the test step both raise the
    error of [rearrange], before any pool is touched. *)
Theorem ensemble_steps_need_whole_groups
  (self : ClassificationEnsemble.t Input CalSet) (inputs : Input)
  (targets : Tensor Z) (batch_idx : nat) (dataloader_idx : option Z)
  (rows : list (list R)) :
  ClassificationSingle.forward (ClassificationEnsemble.super self) inputs
  = Ok (T2 rows) ->
  ClassificationEnsemble.num_estimators self <> 0 ->
  length rows mod ClassificationEnsemble.num_estimators self <> 0 ->
  ClassificationEnsemble.validation_step self (inputs, targets) batch_idx
  = Raise (EinopsError "Shape mismatch, can't divide axis") /\
  ClassificationEnsemble.test_step MutualInformation VariationRatio self
    (inputs, targets) batch_idx dataloader_idx
  = Raise (EinopsError "Shape mismatch, can't divide axis").
Proof.
  intros Hfwd Hn Hmod.
  apply Nat.eqb_neq in Hn. apply Nat.eqb_neq in Hmod.
  unfold ClassificationEnsemble.validation_step,
    ClassificationEnsemble.test_step.
  rewrite Hfwd. cbn [bind]. unfold rearrange. rewrite Hn, Hmod.
  split; reflexivity.
Qed.


(** X17.  An ensemble of one estimator validates like the single-model
    routine: on multi-class logits of rank two, the ensemble validation step
    adds to the validation pool exactly what the single-model validation
    step adds. *)
Theorem one_estimator_ensemble_validates_like_single
  (self : ClassificationEnsemble.t Input CalSet) (inputs : Input)
  (targets : Tensor Z) (batch_idx : nat) (rows : list (list R)) :
  ClassificationEnsemble.num_estimators self = 1 ->
  ClassificationSingle.binary_cls
    (ClassificationSingle.attrs (ClassificationEnsemble.super self)) = false ->
  ClassificationSingle.forward (ClassificationEnsemble.super self) inputs
  = Ok (T2 rows) ->
  ClassificationEnsemble.validation_step self (inputs, targets) batch_idx
  = (s <- ClassificationSingle.validation_step
            (ClassificationEnsemble.super self) (inputs, targets) batch_idx ;;
     Ok (ClassificationEnsemble.with_super self s)).
Proof.
  intros Hn Hbin Hfwd.
  unfold ClassificationEnsemble.validation_step,
    ClassificationSingle.validation_step.
  rewrite Hfwd, Hn, Hbin. cbn [bind].
  rewrite (@rearrange_Ok _ 1 (length rows) rows) by lia.
  cbn [bind]. rewrite chunks_one, mean_of_one_estimator.
  reflexivity.
Qed.

End EnsembleFurther.

Lemma ensemble_steps_need_whole_groups_witness :
  ClassificationEnsemble.validation_step
    (Example.ensemble 3 false false false false)
    (T2 [[1; 2]; [3; 4]; [5; 6]; [7; 8]]%R, T1 [0%Z]) 0
  = Raise (EinopsError "Shape mismatch, can't divide axis") /\
  ClassificationEnsemble.test_step (fun t => Ok t) (fun t => Ok t)
    (Example.ensemble 3 false false false false)
    (T2 [[1; 2]; [3; 4]; [5; 6]; [7; 8]]%R, T1 [0%Z]) 0 (Some 0%Z)
  = Raise (EinopsError "Shape mismatch, can't divide axis").
Proof.
  apply (@ensemble_steps_need_whole_groups Example.Input Example.CalSet
           (fun t => Ok t) (fun t => Ok t)
           (Example.ensemble 3 false false false false)
           (T2 [[1; 2]; [3; 4]; [5; 6]; [7; 8]]%R) (T1 [0%Z]) 0 (Some 0%Z)
           [[1; 2]; [3; 4]; [5; 6]; [7; 8]]%R).
  - reflexivity.
  - simpl. lia.
  - simpl. lia.
Defined.


Lemma one_estimator_ensemble_validates_like_single_witness :
  ClassificationEnsemble.validation_step
    (Example.ensemble 1 false false false false) Example.batch 0
  = (s <- ClassificationSingle.validation_step
            (ClassificationEnsemble.super
               (Example.ensemble 1 false false false false))
            Example.batch 0 ;;
     Ok (ClassificationEnsemble.with_super
           (Example.ensemble 1 false false false false) s)).
Proof.
  apply (@one_estimator_ensemble_validates_like_single Example.Input
           Example.CalSet (Example.ensemble 1 false false false false)
           (fst Example.batch) (snd Example.batch) 0
           [[2; -2]; [1; 1]]%R);
    reflexivity.
Defined.

(** ** The Normal Inverse-Gamma loss, further *)

Lemma lift2_Ok (f : R -> R -> R) (a b : RT) (t : Tensor R) :
  lift2 f a b = Ok t ->
  exists x y, a = Ok x /\ b = Ok y /\ tmap2 f x y = Ok t.
Proof.
  unfold lift2. intros H.
  apply bind_Ok in H. destruct H as [x [Hx H]].
  apply bind_Ok in H. destruct H as [y [Hy H]].
  now exists x, y.
Qed.

Lemma lift1_Ok (f : R -> R) (a : RT) (t : Tensor R) :
  lift1 f a = Ok t -> exists x, a = Ok x /\ t = tmap f x.
Proof.
  unfold lift1. intros H.
  apply bind_Ok in H. destruct H as [x [Hx H]].
  injection H as <-. now exists x.
Qed.

Lemma ndim_tmap {A B : Type} (f : A -> B) (t : Tensor A) :
  ndim (tmap f t) = ndim t.
Proof. now destruct t. Qed.

Lemma tmap2_low_rank (f : R -> R -> R) (a b t : Tensor R) :
  ndim a <= 1 -> ndim b <= 1 -> tmap2 f a b = Ok t -> ndim t <= 1.
Proof.
  destruct a as [x|v| |], b as [y|w| |]; simpl; intros Ha Hb H; try lia.
  - injection H as <-. simpl. lia.
  - injection H as <-. simpl. lia.
  - injection H as <-. simpl. lia.
  - apply bind_Ok in H. destruct H as [u [_ H]].
    injection H as <-. simpl. lia.
Qed.

Lemma tnorm1_low_rank (d : Tensor R) :
  ndim d <= 1 ->
  tnorm1 1 true d = Raise (IndexError "Dimension out of range").
Proof.
  destruct d; simpl; intros H; try lia; reflexivity.
Qed.

Section NIGLossFurther.
Variable lgamma : R -> R.

Lemma nig_nll_difference (gamma v alpha beta targets t : Tensor R) :
  NIGLoss._nig_nll lgamma gamma v alpha beta targets = Ok t ->
  exists d, tmap2 Rminus targets gamma = Ok d.
Proof.
  unfold NIGLoss._nig_nll. intros H.
  apply lift2_Ok in H. destruct H as [x1 [_ [H _]]].
  apply lift2_Ok in H. destruct H as [x2 [_ [H _]]].
  apply lift2_Ok in H. destruct H as [_ [x3 [_ [H _]]]].
  apply lift2_Ok in H. destruct H as [_ [x4 [_ [H _]]]].
  apply lift1_Ok in H. destruct H as [x5 [H _]].
  apply lift2_Ok in H. destruct H as [_ [x6 [_ [H _]]]].
  apply lift2_Ok in H. destruct H as [_ [x7 [_ [H _]]]].
  apply lift1_Ok in H. destruct H as [d [H _]].
  now exists d.
Qed.

(** X18.  [NIGLoss.forward] needs inputs with two axes: the regulariser
    takes a norm along [dim=1], so on vectors or scalars the loss never
    returns, and whenever the likelihood term itself is computable the
    exception is the [IndexError] of that norm. *)
Theorem nig_forward_needs_two_axes (self : NIGLoss.t)
  (gamma v alpha beta targets : Tensor R) :
  ndim gamma <= 1 -> ndim targets <= 1 ->
  raises (NIGLoss.forward lgamma self gamma v alpha beta targets) /\
  (returns (NIGLoss._nig_nll lgamma gamma v alpha beta targets) ->
   NIGLoss.forward lgamma self gamma v alpha beta targets
   = Raise (IndexError "Dimension out of range")).
Proof.
  intros Hg Ht.
  assert (Hmain :
            forall nll,
              NIGLoss._nig_nll lgamma gamma v alpha beta targets = Ok nll ->
              NIGLoss.forward lgamma self gamma v alpha beta targets
              = Raise (IndexError "Dimension out of range")).
  { intros nll Hnll.
    destruct (nig_nll_difference _ _ _ _ _ Hnll) as [d Hd].
    unfold NIGLoss.forward. rewrite Hnll. cbn [bind].
    unfold NIGLoss._nig_reg, lift2. cbn [bind]. rewrite Hd. cbn [bind].
    now rewrite (tnorm1_low_rank d (tmap2_low_rank _ _ _ Ht Hg Hd)). }
  split.
  - destruct (NIGLoss._nig_nll lgamma gamma v alpha beta targets)
      as [nll|e] eqn:Hnll.
    + eexists. now apply (Hmain nll).
    + exists e. unfold NIGLoss.forward. now rewrite Hnll.
  - intros [nll Hnll]. now apply (Hmain nll).
Qed.

End NIGLossFurther.

Lemma nig_forward_needs_two_axes_witness :
  let self := {| NIGLoss.reg_weight := 1%R;
                 NIGLoss.reduction := Some "mean"%string |} in
  raises (NIGLoss.forward Example.special self (T1 [0%R]) (T1 [1%R])
            (T1 [2%R]) (T1 [1%R]) (T1 [1%R])) /\
  (returns (NIGLoss._nig_nll Example.special (T1 [0%R]) (T1 [1%R])
              (T1 [2%R]) (T1 [1%R]) (T1 [1%R])) ->
   NIGLoss.forward Example.special self (T1 [0%R]) (T1 [1%R]) (T1 [2%R])
     (T1 [1%R]) (T1 [1%R])
   = Raise (IndexError "Dimension out of range")).
Proof.
  intros self.
  apply (@nig_forward_needs_two_axes Example.special self (T1 [0%R])
           (T1 [1%R]) (T1 [2%R]) (T1 [1%R]) (T1 [1%R])); simpl; lia.
Defined.

(** ** The scores of the test step *)

Lemma Rsum_exp_nonneg (v : list R) : (0 <= Rsum (map exp v))%R.
Proof.
  induction v as [|x v IH]; simpl; [lra|].
  pose proof (exp_pos x). lra.
Qed.

Lemma exp_le_Rsum (v : list R) (x : R) :
  In x v -> (exp x <= Rsum (map exp v))%R.
Proof.
  induction v as [|y v IH]; simpl; [contradiction|].
  intros [->|Hin].
  - pose proof (Rsum_exp_nonneg v). lra.
  - specialize (IH Hin). pose proof (exp_pos y). lra.
Qed.

Lemma softmax_row_entries (v : list R) :
  Forall (fun p => 0 < p <= 1)%R (softmax_row v).
Proof.
  unfold softmax_row. apply Forall_forall. intros p Hp.
  apply in_map_iff in Hp. destruct Hp as [x [<- Hin]].
  pose proof (exp_pos x) as Hx.
  pose proof (exp_le_Rsum v x Hin) as Hle.
  split.
  - apply Rdiv_lt_0_compat; lra.
  - apply (Rmult_le_reg_r (Rsum (map exp v))); [lra|].
    unfold Rdiv. rewrite Rmult_assoc, Rinv_l by lra. lra.
Qed.

Lemma Rsum_map_div (f : R -> R) (z : R) (v : list R) :
  Rsum (map (fun x => (f x / z)%R) v) = (Rsum (map f v) / z)%R.
Proof.
  induction v as [|x v IH]; simpl.
  - unfold Rdiv. ring.
  - rewrite IH. unfold Rdiv. ring.
Qed.

Lemma softmax_row_sums_to_one (v : list R) :
  v <> [] -> Rsum (softmax_row v) = 1%R.
Proof.
  intros Hv. unfold softmax_row. rewrite Rsum_map_div.
  destruct v as [|x v]; [congruence|].
  assert (Hz : (0 < Rsum (map exp (x :: v)))%R).
  { simpl. pose proof (exp_pos x). pose proof (Rsum_exp_nonneg v). lra. }
  field. lra.
Qed.

Lemma fold_left_Rmax_range (l : list R) (x : R) :
  (0 < x <= 1)%R -> Forall (fun p => 0 < p <= 1)%R l ->
  (0 < fold_left Rmax l x <= 1)%R.
Proof.
  revert x. induction l as [|y l IH]; intros x Hx Hl; simpl; [exact Hx|].
  inversion Hl as [|? ? Hy Hl']; subst.
  apply IH; [|exact Hl'].
  unfold Rmax. now destruct (Rle_dec x y).
Qed.

Lemma Rmaximum_range (l : list R) :
  l <> [] -> Forall (fun p => 0 < p <= 1)%R l ->
  exists m, Rmaximum l = Ok m /\ (0 < m <= 1)%R.
Proof.
  destruct l as [|x l]; [congruence|]. intros _ Hl.
  inversion Hl as [|? ? Hx Hl']; subst.
  eexists. split; [reflexivity|]. now apply fold_left_Rmax_range.
Qed.

Lemma ln_nonpos (p : R) : (0 < p <= 1)%R -> (ln p <= 0)%R.
Proof.
  intros [Hp [Hlt| ->]].
  - rewrite <- ln_1. left. now apply ln_increasing.
  - rewrite ln_1. lra.
Qed.

Lemma entr_row_nonneg (r : list R) :
  Forall (fun p => 0 < p <= 1)%R r ->
  (0 <= Rsum (map (fun p => if Rlt_dec 0 p then - p * ln p else 0) r))%R.
Proof.
  induction 1 as [|p r Hp _ IH]; simpl; [lra|].
  destruct (Rlt_dec 0 p); [|lra].
  pose proof (ln_nonpos Hp) as Hln.
  assert (0 <= - p * ln p)%R by nra. lra.
Qed.

Lemma mapM_Forall {A B : Type} (f : A -> result B) (P : B -> Prop)
  (l : list A) :
  Forall (fun x => exists y, f x = Ok y /\ P y) l ->
  exists v, mapM f l = Ok v /\ length v = length l /\ Forall P v.
Proof.
  induction 1 as [|x l [y [Hy Py]] _ [v [Hv [Hlen HP]]]]; simpl.
  - exists []. repeat split. constructor.
  - rewrite Hy, Hv. simpl. exists (y :: v).
    repeat split; [simpl; now rewrite Hlen | now constructor].
Qed.

Section TestScores.
Variables Input CalSet : Type.
Variable self : ClassificationSingle.t Input CalSet.

(** X19.  In multi-class mode, on logits with at least one class: the
    probabilities of the test step are probability vectors (every row has
    entries in (0, 1] that sum to one); the default OOD score, the negated
    confidence, lies in [-1, 0); and the entropy score is never negative.
    There is one score per row of the batch. *)
Theorem test_scores_are_probabilities (rows : list (list R))
  (classes : nat) :
  ClassificationSingle.binary_cls (ClassificationSingle.attrs self) = false ->
  rect classes rows -> 0 < classes ->
  (exists probs,
     probs_of self (T2 rows) = T2 probs /\
     length probs = length rows /\
     Forall (fun r => Rsum r = 1%R /\ Forall (fun p => 0 < p <= 1)%R r)
       probs) /\
  (ClassificationSingle.use_logits (ClassificationSingle.attrs self) = false
   ->
   exists scores,
     ood_values_of self (T2 rows) = Ok (T1 scores) /\
     length scores = length rows /\
     Forall (fun s =>
               if ClassificationSingle.use_entropy
                    (ClassificationSingle.attrs self)
               then (0 <= s)%R else (-1 <= s < 0)%R) scores).
Proof.
  intros Hbin Hrect Hclasses.
  pose proof (rect_nonempty_rows Hrect Hclasses) as Hne.
  unfold ood_values_of, probs_of. rewrite Hbin. simpl softmax_last.
  split.
  - exists (map softmax_row rows).
    split; [reflexivity|]. split; [apply length_map|].
    apply Forall_map. eapply Forall_impl; [|exact Hne].
    intros r Hr. split.
    + now apply softmax_row_sums_to_one.
    + apply softmax_row_entries.
  - intros ->.
    destruct (ClassificationSingle.use_entropy _).
    + unfold tsum_dim. rewrite reduce_dim_no_keepdim, map_fibres_last.
      simpl. rewrite (mapM_Ok Rsum). simpl.
      eexists. split; [reflexivity|].
      split; [now rewrite !length_map|].
      apply Forall_map, Forall_map, Forall_map, Forall_forall. intros r _.
      apply entr_row_nonneg, softmax_row_entries.
    + unfold tmax_dim. rewrite reduce_dim_no_keepdim, map_fibres_last.
      destruct (@mapM_Forall _ _ Rmaximum (fun m => 0 < m <= 1)%R
                  (map softmax_row rows)) as [v [Hv [Hlen HP]]].
      { apply Forall_map. eapply Forall_impl; [|exact Hne].
        intros r Hr. apply Rmaximum_range; [|apply softmax_row_entries].
        intros Hs. apply Hr.
        apply (f_equal (@length _)) in Hs.
        rewrite softmax_row_length in Hs.
        now destruct r. }
      rewrite Hv. simpl.
      eexists. split; [reflexivity|].
      split; [now rewrite length_map, Hlen, length_map|].
      apply Forall_map. eapply Forall_impl; [|exact HP].
      intros m Hm. simpl in Hm. lra.
Qed.

End TestScores.

Lemma test_scores_are_probabilities_witness :
  let self := Example.routine "erm" true false false None in
  (exists probs,
     probs_of self (T2 [[2; -2]; [1; 1]]%R) = T2 probs /\
     length probs = length [[2; -2]; [1; 1]]%R /\
     Forall (fun r => Rsum r = 1%R /\ Forall (fun p => 0 < p <= 1)%R r)
       probs) /\
  (ClassificationSingle.use_logits (ClassificationSingle.attrs self) = false
   ->
   exists scores,
     ood_values_of self (T2 [[2; -2]; [1; 1]]%R) = Ok (T1 scores) /\
     length scores = length [[2; -2]; [1; 1]]%R /\
     Forall (fun s =>
               if ClassificationSingle.use_entropy
                    (ClassificationSingle.attrs self)
               then (0 <= s)%R else (-1 <= s < 0)%R) scores).
Proof.
  intros self.
  apply (@test_scores_are_probabilities Example.Input Example.CalSet self
           [[2; -2]; [1; 1]]%R 2).
  - reflexivity.
  - repeat constructor.
  - lia.
Defined.

(** * Properties of the data module *)

Section DataModuleFurther.
Variables Dataset DataLoader ArrayLike : Type.
Variable load : TinyImageNetDataModule.Call -> result Dataset.
Variable ConcatDataset : list Dataset -> Dataset.
Variable _data_loader : Dataset -> DataLoader.
Variables samples label_data : Dataset -> ArrayLike.

Ltac inv_bind H :=
  repeat (apply bind_Ok in H;
          let x := fresh "x" in
          let Hx := fresh "Hx" in
          destruct H as [x [Hx H]]).

(** What [setup] leaves: the configuration is untouched, and each of the
    datasets is either freshly built or what it was. *)
Lemma setup_spec (self self' : TinyImageNetDataModule.t Dataset)
  (stage : option string) :
  TinyImageNetDataModule.setup load ConcatDataset self stage = Ok self' ->
  (TinyImageNetDataModule.root self' = TinyImageNetDataModule.root self /\
   TinyImageNetDataModule.ood_detection self'
   = TinyImageNetDataModule.ood_detection self /\
   TinyImageNetDataModule.ood_ds self' = TinyImageNetDataModule.ood_ds self /\
   TinyImageNetDataModule.dataset self'
   = TinyImageNetDataModule.dataset self /\
   TinyImageNetDataModule.ood_dataset self'
   = TinyImageNetDataModule.ood_dataset self /\
   TinyImageNetDataModule.transform_train self'
   = TinyImageNetDataModule.transform_train self /\
   TinyImageNetDataModule.transform_test self'
   = TinyImageNetDataModule.transform_test self) /\
  (if str_is stage "fit" || is_None stage
   then exists tr va,
       load (TinyImageNetDataModule.id_call self "train"
               (TinyImageNetDataModule.transform_train self)) = Ok tr /\
       load (TinyImageNetDataModule.id_call self "val"
               (TinyImageNetDataModule.transform_test self)) = Ok va /\
       TinyImageNetDataModule.train self' = Some tr /\
       TinyImageNetDataModule.val self' = Some va
   else TinyImageNetDataModule.train self'
        = TinyImageNetDataModule.train self /\
        TinyImageNetDataModule.val self' = TinyImageNetDataModule.val self) /\
  (if str_is stage "test"
   then exists te,
       load (TinyImageNetDataModule.id_call self "val"
               (TinyImageNetDataModule.transform_test self)) = Ok te /\
       TinyImageNetDataModule.test self' = Some te
   else TinyImageNetDataModule.test self'
        = TinyImageNetDataModule.test self) /\
  (if TinyImageNetDataModule.ood_detection self
   then exists o, TinyImageNetDataModule.ood self' = Some o
   else TinyImageNetDataModule.ood self' = TinyImageNetDataModule.ood self).
Proof.
  destruct self as [r od ds dc odc ttr tte tr va te oo].
  unfold TinyImageNetDataModule.setup, TinyImageNetDataModule.id_call.
  simpl. intros H.
  apply bind_Ok in H. destruct H as [s1 [H1 H]].
  apply bind_Ok in H. destruct H as [s2 [H2 H]].
  destruct (str_is stage "fit" || is_None stage);
    inv_bind H1; injection H1 as <-; simpl in *;
    destruct (str_is stage "test");
    inv_bind H2; injection H2 as <-; simpl in *;
    destruct od;
    try destruct (String.eqb ds "textures");
    inv_bind H; injection H as <-; simpl;
    repeat split;
    try (now eexists);
    try (eexists; split; [|reflexivity]; eassumption);
    try (do 2 eexists; (split; [|split; [|split; reflexivity]]);
         eassumption).
Qed.

(** X20.  After [setup("test")], [test_dataloader] returns the loader of
    the in-distribution test set first and, when OOD detection is enabled,
    the loader of the OOD set second, and nothing else; the test set is
    built from the 'val' split with the test transform. *)
Theorem test_dataloaders_after_setup
  (self self' : TinyImageNetDataModule.t Dataset) :
  TinyImageNetDataModule.setup load ConcatDataset self (Some "test"%string)
  = Ok self' ->
  exists test,
    load (TinyImageNetDataModule.id_call self "val"
            (TinyImageNetDataModule.transform_test self)) = Ok test /\
    TinyImageNetDataModule.test self' = Some test /\
    if TinyImageNetDataModule.ood_detection self
    then exists ood,
        TinyImageNetDataModule.ood self' = Some ood /\
        TinyImageNetDataModule.test_dataloader _data_loader self'
        = Ok [_data_loader test; _data_loader ood]
    else TinyImageNetDataModule.test_dataloader _data_loader self'
         = Ok [_data_loader test].
Proof.
  intros H. apply setup_spec in H.
  destruct H as [[_ [Hod _]] [_ [[te [Hload Hte]] Hood]]].
  exists te. split; [exact Hload|]. split; [exact Hte|].
  unfold TinyImageNetDataModule.test_dataloader. rewrite Hte, Hod.
  destruct (TinyImageNetDataModule.ood_detection self).
  - destruct Hood as [o Ho]. exists o. split; [exact Ho|].
    now rewrite Ho.
  - reflexivity.
Qed.

(** X21.  [setup] only builds the datasets of its stage.  On a module
    fresh from [__init__]: after a [setup] for any stage other than 'test',
    [test_dataloader] raises [AttributeError] on [self.test]; after a
    [setup] for a stage other than 'fit' (or no stage), reading the training
    data raises on [self.train]. *)
Theorem setup_builds_one_stage_only (root : string) (ood_detection : bool)
  (ood_ds : string) (rand_augment_opt : option string)
  (stage : option string) (self' : TinyImageNetDataModule.t Dataset) :
  TinyImageNetDataModule.setup load ConcatDataset
    (TinyImageNetDataModule.__init__ Dataset root ood_detection ood_ds
       rand_augment_opt) stage = Ok self' ->
  (stage <> Some "test"%string ->
   TinyImageNetDataModule.test_dataloader _data_loader self'
   = Raise (AttributeError "test")) /\
  (stage <> Some "fit"%string -> stage <> None ->
   TinyImageNetDataModule._get_train_data samples self'
   = Raise (AttributeError "train") /\
   TinyImageNetDataModule._get_train_targets label_data self'
   = Raise (AttributeError "train")) /\
  (stage = Some "fit"%string \/ stage = None ->
   returns (TinyImageNetDataModule._get_train_data samples self')).
Proof.
  intros H. apply setup_spec in H.
  destruct H as [_ [Htrain [Htest _]]]. simpl in Htrain, Htest.
  split; [|split].
  - intros Hstage.
    assert (Hs : str_is stage "test" = false).
    { destruct stage as [s|]; [|reflexivity]. simpl.
      apply String.eqb_neq. congruence. }
    rewrite Hs in Htest.
    unfold TinyImageNetDataModule.test_dataloader. now rewrite Htest.
  - intros Hfit Hnone.
    assert (Hs : str_is stage "fit" || is_None stage = false).
    { destruct stage as [s|]; [|congruence]. simpl.
      rewrite orb_false_r. apply String.eqb_neq. congruence. }
    rewrite Hs in Htrain. destruct Htrain as [Htr _].
    unfold TinyImageNetDataModule._get_train_data,
      TinyImageNetDataModule._get_train_targets.
    now rewrite Htr.
  - intros Hstage.
    assert (Hs : str_is stage "fit" || is_None stage = true)
      by (destruct Hstage as [-> | ->]; reflexivity).
    rewrite Hs in Htrain. destruct Htrain as [tr [va [_ [_ [Htr _]]]]].
    unfold TinyImageNetDataModule._get_train_data. rewrite Htr.
    now eexists.
Qed.

(** X22.  [__init__] accepts any [ood_ds], but assigns [ood_dataset] for
    'imagenet-o', 'svhn' and 'textures' only.  With another name and OOD
    detection enabled, [prepare_data] raises [AttributeError] on
    [self.ood_dataset], and [setup] never returns, at any stage: when the
    in-distribution datasets can be built, it raises that same
    [AttributeError]. *)
Theorem unsupported_ood_ds_fails_after_init (root ood_ds : string)
  (rand_augment_opt : option string) :
  supported_ood_ds ood_ds = false ->
  let self :=
    TinyImageNetDataModule.__init__ Dataset root true ood_ds
      rand_augment_opt in
  TinyImageNetDataModule.prepare_data load self
  = Raise (AttributeError "ood_dataset") /\
  forall stage,
    raises (TinyImageNetDataModule.setup load ConcatDataset self stage) /\
    ((forall split transform,
        returns (load (TinyImageNetDataModule.id_call self split
                         transform))) ->
     TinyImageNetDataModule.setup load ConcatDataset self stage
     = Raise (AttributeError "ood_dataset")).
Proof.
  unfold supported_ood_ds. intros H.
  apply orb_false_iff in H. destruct H as [H Ht].
  apply orb_false_iff in H. destruct H as [Hi Hs].
  set (self := TinyImageNetDataModule.__init__ Dataset root true ood_ds
                 rand_augment_opt).
  assert (Hmain :
            forall s1 : TinyImageNetDataModule.t Dataset,
              TinyImageNetDataModule.ood_detection s1 = true ->
              TinyImageNetDataModule.ood_ds s1 = ood_ds ->
              TinyImageNetDataModule.ood_dataset s1 = None ->
              (if TinyImageNetDataModule.ood_detection s1
               then
                 if String.eqb (TinyImageNetDataModule.ood_ds s1) "textures"
                 then
                   a <- TinyImageNetDataModule.ood_call load s1 "train"
                          (Some true) ;;
                   b <- TinyImageNetDataModule.ood_call load s1 "val"
                          (Some true) ;;
                   c <- TinyImageNetDataModule.ood_call load s1 "test"
                          (Some true) ;;
                   Ok (TinyImageNetDataModule.set_ood s1
                         (ConcatDataset [a; b; c]))
                 else
                   d <- TinyImageNetDataModule.ood_call load s1 "test" None ;;
                   Ok (TinyImageNetDataModule.set_ood s1 d)
               else Ok s1)
              = Raise (AttributeError "ood_dataset")).
  { intros s1 -> -> Hnone. rewrite Ht.
    unfold TinyImageNetDataModule.ood_call. now rewrite Hnone. }
  split.
  - unfold TinyImageNetDataModule.prepare_data,
      TinyImageNetDataModule.ood_call, self.
    simpl. now rewrite Ht, Hi, Hs.
  - intros stage.
    assert (Hnone : TinyImageNetDataModule.ood_dataset self = None)
      by (unfold self; simpl; now rewrite Hi, Hs, Ht).
    unfold TinyImageNetDataModule.setup.
    split.
    + destruct (str_is stage "fit" || is_None stage).
      * destruct (load (TinyImageNetDataModule.id_call self "train" _))
          as [tr|e]; [|now exists e].
        destruct (load (TinyImageNetDataModule.id_call self "val" _))
          as [va|e]; [|now exists e].
        cbn [bind].
        destruct (str_is stage "test").
        -- match goal with
           | |- raises (bind (bind ?l _) _) =>
               destruct l as [te|e]; [|now exists e]
           end.
           cbn [bind]. rewrite Hmain by reflexivity || exact Hnone.
           now eexists.
        -- cbn [bind]. rewrite Hmain by reflexivity || exact Hnone.
           now eexists.
      * cbn [bind].
        destruct (str_is stage "test").
        -- match goal with
           | |- raises (bind (bind ?l _) _) =>
               destruct l as [te|e]; [|now exists e]
           end.
           cbn [bind]. rewrite Hmain by reflexivity || exact Hnone.
           now eexists.
        -- cbn [bind]. rewrite Hmain by reflexivity || exact Hnone.
           now eexists.
    + intros Hload.
      destruct (str_is stage "fit" || is_None stage).
      * destruct (Hload "train"%string
                    (TinyImageNetDataModule.transform_train self))
          as [tr ->].
        destruct (Hload "val"%string
                    (TinyImageNetDataModule.transform_test self))
          as [va Hva].
        rewrite Hva. cbn [bind].
        destruct (str_is stage "test").
        -- change (TinyImageNetDataModule.id_call
                     (TinyImageNetDataModule.set_train_val self tr va) "val"
                     (TinyImageNetDataModule.transform_test
                        (TinyImageNetDataModule.set_train_val self tr va)))
             with (TinyImageNetDataModule.id_call self "val"
                     (TinyImageNetDataModule.transform_test self)).
           rewrite Hva. cbn [bind].
           now rewrite Hmain by reflexivity || exact Hnone.
        -- cbn [bind]. now rewrite Hmain by reflexivity || exact Hnone.
      * cbn [bind].
        destruct (str_is stage "test").
        -- destruct (Hload "val"%string
                       (TinyImageNetDataModule.transform_test self))
             as [va ->].
           cbn [bind]. now rewrite Hmain by reflexivity || exact Hnone.
        -- cbn [bind]. now rewrite Hmain by reflexivity || exact Hnone.
Qed.

(** X23.  The test set is the validation split: when [setup] has run for
    fitting and then for testing, [self.test] and [self.val] are the same
    dataset, built from the 'val' split with the test transform. *)
Theorem test_set_is_the_validation_split
  (self self1 self2 : TinyImageNetDataModule.t Dataset)
  (stage : option string) :
  stage = None \/ stage = Some "fit"%string ->
  TinyImageNetDataModule.setup load ConcatDataset self stage = Ok self1 ->
  TinyImageNetDataModule.setup load ConcatDataset self1 (Some "test"%string)
  = Ok self2 ->
  TinyImageNetDataModule.test self2 = TinyImageNetDataModule.val self2 /\
  exists d,
    TinyImageNetDataModule.val self2 = Some d /\
    load (TinyImageNetDataModule.id_call self "val"
            (TinyImageNetDataModule.transform_test self)) = Ok d.
Proof.
  intros Hstage H1 H2.
  apply setup_spec in H1. apply setup_spec in H2.
  destruct H1 as [[Hr [_ [_ [Hd [_ [_ Ht]]]]]] [Htv _]].
  destruct H2 as [_ [Hval [Htest _]]].
  assert (Hs : str_is stage "fit" || is_None stage = true)
    by (destruct Hstage as [-> | ->]; reflexivity).
  rewrite Hs in Htv. destruct Htv as [tr [va [_ [Hva [_ Hv1]]]]].
  simpl in Hval, Htest. destruct Hval as [_ Hval].
  destruct Htest as [te [Hte Htest]].
  assert (E : TinyImageNetDataModule.id_call self1 "val"
                (TinyImageNetDataModule.transform_test self1)
              = TinyImageNetDataModule.id_call self "val"
                  (TinyImageNetDataModule.transform_test self)).
  { unfold TinyImageNetDataModule.id_call. now rewrite Hr, Hd, Ht. }
  rewrite E, Hva in Hte. injection Hte as <-.
  rewrite Htest, Hval, Hv1. split; [reflexivity|].
  exists va. now split.
Qed.

End DataModuleFurther.

Lemma test_dataloaders_after_setup_witness :
  let self :=
    TinyImageNetDataModule.__init__ (list TinyImageNetDataModule.Call)
      "data" true "textures" None in
  let self' :=
    TinyImageNetDataModule.set_ood
      (TinyImageNetDataModule.set_test self
         [TinyImageNetDataModule.id_call self "val"
            TinyImageNetDataModule.TestTransform])
      (map (fun s =>
              {| TinyImageNetDataModule.cls := TinyImageNetDataModule.DTD;
                 TinyImageNetDataModule.call_root := "data";
                 TinyImageNetDataModule.split := s;
                 TinyImageNetDataModule.download := Some true;
                 TinyImageNetDataModule.transform :=
                   TinyImageNetDataModule.TestTransform |})
         ["train"; "val"; "test"]%string) in
  exists test,
    load_all (TinyImageNetDataModule.id_call self "val"
                (TinyImageNetDataModule.transform_test self)) = Ok test /\
    TinyImageNetDataModule.test self' = Some test /\
    exists ood,
      TinyImageNetDataModule.ood self' = Some ood /\
      TinyImageNetDataModule.test_dataloader (fun d => d) self'
      = Ok [test; ood].
Proof.
  intros self self'.
  apply (@test_dataloaders_after_setup _ _ load_all (@concat _)
           (fun d => d) self self').
  reflexivity.
Defined.

Lemma setup_builds_one_stage_only_witness :
  let self' :=
    TinyImageNetDataModule.set_train_val
      (TinyImageNetDataModule.__init__ (list TinyImageNetDataModule.Call)
         "data" false "svhn" None)
      [{| TinyImageNetDataModule.cls := TinyImageNetDataModule.TinyImageNet;
          TinyImageNetDataModule.call_root := "data";
          TinyImageNetDataModule.split := "train";
          TinyImageNetDataModule.download := None;
          TinyImageNetDataModule.transform :=
            TinyImageNetDataModule.TrainTransform None |}]
      [{| TinyImageNetDataModule.cls := TinyImageNetDataModule.TinyImageNet;
          TinyImageNetDataModule.call_root := "data";
          TinyImageNetDataModule.split := "val";
          TinyImageNetDataModule.download := None;
          TinyImageNetDataModule.transform :=
            TinyImageNetDataModule.TestTransform |}] in
  (Some "fit"%string <> Some "test"%string ->
   TinyImageNetDataModule.test_dataloader (fun d => d) self'
   = Raise (AttributeError "test")) /\
  (Some "fit"%string <> Some "fit"%string ->
   Some "fit"%string <> None ->
   TinyImageNetDataModule._get_train_data (fun d => d) self'
   = Raise (AttributeError "train") /\
   TinyImageNetDataModule._get_train_targets (fun d => d) self'
   = Raise (AttributeError "train")) /\
  (Some "fit"%string = Some "fit"%string \/ Some "fit"%string = None ->
   returns (TinyImageNetDataModule._get_train_data (fun d => d) self')).
Proof.
  intros self'.
  apply (@setup_builds_one_stage_only _ _ _ load_all (@concat _)
           (fun d => d) (fun d => d) (fun d => d) "data" false "svhn" None
           (Some "fit"%string) self').
  reflexivity.
Defined.

Lemma unsupported_ood_ds_fails_after_init_witness :
  let self :=
    TinyImageNetDataModule.__init__ (list TinyImageNetDataModule.Call)
      "data" true "cifar" None in
  TinyImageNetDataModule.prepare_data load_all self
  = Raise (AttributeError "ood_dataset") /\
  forall stage,
    raises (TinyImageNetDataModule.setup load_all (@concat _) self stage) /\
    ((forall split transform,
        returns (load_all (TinyImageNetDataModule.id_call self split
                             transform))) ->
     TinyImageNetDataModule.setup load_all (@concat _) self stage
     = Raise (AttributeError "ood_dataset")).
Proof.
  apply (@unsupported_ood_ds_fails_after_init _ load_all (@concat _)
           "data" "cifar" None).
  reflexivity.
Defined.

Lemma test_set_is_the_validation_split_witness :
  let self :=
    TinyImageNetDataModule.__init__ (list TinyImageNetDataModule.Call)
      "data" false "svhn" None in
  let val_set :=
    [TinyImageNetDataModule.id_call self "val"
       TinyImageNetDataModule.TestTransform] in
  let self1 :=
    TinyImageNetDataModule.set_train_val self
      [TinyImageNetDataModule.id_call self "train"
         (TinyImageNetDataModule.TrainTransform None)] val_set in
  let self2 := TinyImageNetDataModule.set_test self1 val_set in
  TinyImageNetDataModule.test self2 = TinyImageNetDataModule.val self2 /\
  exists d,
    TinyImageNetDataModule.val self2 = Some d /\
    load_all (TinyImageNetDataModule.id_call self "val"
                (TinyImageNetDataModule.transform_test self)) = Ok d.
Proof.
  intros self val_set self1 self2.
  apply (@test_set_is_the_validation_split _ load_all (@concat _) self
           self1 self2 None).
  - now left.
  - reflexivity.
  - reflexivity.
Defined.

(** ** The KL regulariser of the evidential loss *)

Lemma bzip_same_length (f : R -> R -> R) (r1 r2 : list R) :
  length r1 = length r2 ->
  bzip (fun x y => Ok (f x y)) r1 r2
  = Ok (map (fun q => f (fst q) (snd q)) (combine r1 r2)).
Proof.
  intros H. unfold bzip. rewrite H, Nat.eqb_refl.
  apply (mapM_Ok (fun q : R * R => f (fst q) (snd q))).
Qed.

Lemma bzip_same_shape (f : R -> R -> R) (m1 m2 : list (list R)) :
  same_shape m1 m2 ->
  bzip (bzip (fun x y => Ok (f x y))) m1 m2
  = Ok (map (fun p => map (fun q => f (fst q) (snd q))
                        (combine (fst p) (snd p)))
          (combine m1 m2)).
Proof.
  intros H. unfold bzip at 1.
  rewrite (Forall2_length H), Nat.eqb_refl.
  induction H as [|r1 r2 m1 m2 Hr _ IH]; simpl; [reflexivity|].
  now rewrite (bzip_same_length f r1 r2 Hr), IH.
Qed.

Lemma masked_row (g : R -> R) (r : list R) (yr : list Z) :
  length r = length yr ->
  map (fun q => (fst q * snd q)%R)
    (combine
       (map g (map (fun q => if (snd q =? 1)%Z then 0%R else fst q)
                 (combine r yr)))
       (map (fun t => (1 - IZR t)%R) yr))
  = map (fun q => (fst q * snd q)%R)
      (combine (map g r) (map (fun t => (1 - IZR t)%R) yr)).
Proof.
  revert yr. induction r as [|x r IH]; intros [|y yr] Hlen;
    simpl in *; try reflexivity; try discriminate.
  injection Hlen as Hlen. rewrite (IH yr Hlen). f_equal.
  destruct (Z.eqb_spec y 1) as [->|_]; [|reflexivity].
  ring.
Qed.

Lemma masked_rows (g : R -> R) (m : list (list R)) (y : list (list Z)) :
  same_shape m y ->
  same_shape (map (map g) (without_target_evidence m y))
    (map (map (fun t => (1 - IZR t)%R)) y) /\
  same_shape (map (map g) m) (map (map (fun t => (1 - IZR t)%R)) y) /\
  length (hd [] (without_target_evidence m y)) = length (hd [] m) /\
  map (fun p => map (fun q => (fst q * snd q)%R) (combine (fst p) (snd p)))
    (combine (map (map g) (without_target_evidence m y))
       (map (map (fun t => (1 - IZR t)%R)) y))
  = map (fun p => map (fun q => (fst q * snd q)%R)
                    (combine (fst p) (snd p)))
      (combine (map (map g) m) (map (map (fun t => (1 - IZR t)%R)) y)).
Proof.
  intros H. unfold without_target_evidence, same_shape.
  induction H as [|r yr m y Hr _ [IH1 [IH2 [_ IH4]]]]; simpl.
  - repeat split; constructor.
  - repeat split.
    + constructor; [|exact IH1].
      rewrite !length_map, length_combine, Hr. apply Nat.min_id.
    + constructor; [|exact IH2]. now rewrite !length_map.
    + rewrite length_map, length_combine, Hr. apply Nat.min_id.
    + now rewrite IH4, (masked_row g r yr Hr).
Qed.

Section KLRegulariser.
Variables lgamma digamma : R -> R.

(** X24.  The KL regulariser of the evidential loss does not see the
    evidence of the target class: on evidence and one-hot targets of the
    same shape, setting the evidence to zero wherever the target is 1 leaves
    the regulariser unchanged.  Only the evidence given to the other classes
    is penalised. *)
Theorem kl_regulariser_ignores_target_evidence
  (evidence : list (list R)) (targets : list (list Z)) :
  same_shape evidence targets ->
  DECLoss._kldiv_reg lgamma digamma
    (T2 (without_target_evidence evidence targets)) (T2 targets)
  = DECLoss._kldiv_reg lgamma digamma (T2 evidence) (T2 targets).
Proof.
  intros H.
  destruct (@masked_rows (fun x => (Rmax 0 x + 1 - 1)%R) evidence targets H)
    as [S1 [S2 [Hhd Hrows]]].
  assert (HA :
            forall m : list (list R),
              (#(relu (T2 m)) + $1 - $1)%T
              = Ok (T2 (map (map (fun x => (Rmax 0 x + 1 - 1)%R)) m))).
  { intros m. cbn [lift2 bind tmap2 tmap relu].
    do 2 f_equal. rewrite !map_map. apply map_ext. intros r.
    now rewrite !map_map. }
  assert (HB :
            ($1 - #(tfloat (T2 targets)))%T
            = Ok (T2 (map (map (fun t => (1 - IZR t)%R)) targets))).
  { cbn [lift2 bind tmap2 tmap tfloat].
    do 2 f_equal. rewrite !map_map. apply map_ext. intros r.
    now rewrite !map_map. }
  assert (Hprod :
            lift2 Rmult
              (Ok (T2 (map (map (fun x => (Rmax 0 x + 1 - 1)%R))
                         (without_target_evidence evidence targets))))
              (Ok (T2 (map (map (fun t => (1 - IZR t)%R)) targets)))
            = lift2 Rmult
                (Ok (T2 (map (map (fun x => (Rmax 0 x + 1 - 1)%R))
                           evidence)))
                (Ok (T2 (map (map (fun t => (1 - IZR t)%R)) targets)))).
  { cbn [lift2 bind tmap2 ndim Nat.max as2].
    rewrite (bzip_same_shape Rmult S1), (bzip_same_shape Rmult S2).
    now rewrite Hrows. }
  assert (Hsize : size_last (T2 (without_target_evidence evidence targets))
                  = size_last (T2 evidence)).
  { unfold size_last. simpl. now rewrite Hhd. }
  unfold DECLoss._kldiv_reg. cbv zeta.
  rewrite Hsize, !HA, HB, Hprod. reflexivity.
Qed.

End KLRegulariser.

Lemma kl_regulariser_ignores_target_evidence_witness :
  DECLoss._kldiv_reg Example.special Example.special
    (T2 (without_target_evidence [[3; 1]; [0; 2]]%R [[1; 0]; [0; 1]]%Z))
    (T2 [[1; 0]; [0; 1]]%Z)
  = DECLoss._kldiv_reg Example.special Example.special
      (T2 [[3; 1]; [0; 2]]%R) (T2 [[1; 0]; [0; 1]]%Z).
Proof.
  apply (@kl_regulariser_ignores_target_evidence Example.special
           Example.special [[3; 1]; [0; 2]]%R [[1; 0]; [0; 1]]%Z).
  repeat constructor.
Defined.
